(** * Smart home assistant: command interpretation and device control

    A shallow embedding of the control core of [smart_home_assistant.py]
    (class [SmartHomeAssistant]): the response cache, the rule-based
    fallback matcher, the device controller and the scene engine, together
    with the properties the specification states about them.

    Modelling conventions.
    - Python [dict]s are insertion-ordered association lists ([PyDict]);
      [defaultdict(list)] lookups insert the default on a missing key.
    - Intent payloads are dictionaries of [pyval]s.  The dictionaries that
      [understand_command] hands out and the ones the cache keeps are
      objects with identity: they live in a heap ([gmap] from locations to
      dictionaries), so that aliasing and [.copy()] are visible.
    - Rated power and the power aggregate are integers: every rating in the
      device table is a Python [int], and the aggregate only ever receives
      sums and differences of ratings, so the [float] it is stored in stays
      integral and exact.
    - Confidence scores are exact rationals ([Q]) written with the decimal
      literals of the source.
    - [datetime.now()] and [time.time()] read a wall clock, given as the
      section variable [clock]; the state counts the reads.
    - Text is a sequence of bytes (UTF-8).  [str.lower()] and [str.strip()]
      follow the Unicode tables of the runtime: they are parameters [lower]
      and [strip] of the operations that call them.  [PyStr.lower_ascii]
      and [PyStr.strip_ascii] are what they compute on text of ASCII
      characters; the concrete instances use them, on such text only.
    - Console output ([print]) is not part of the model; writes to the GPIO
      actuator are recorded in [gpio_log]. *)

From Stdlib Require Import ZArith QArith DecimalString Ascii String List Bool Lia.
From stdpp Require Import base option list gmap strings.

Local Open Scope string_scope.
Local Open Scope Z_scope.

(** ** Python strings *)

Module PyStr.

Definition ascii_lower (c : ascii) : ascii :=
  let n := N_of_ascii c in
  if ((65 <=? n) && (n <=? 90))%N then ascii_of_N (n + 32) else c.

(** What [s.lower()] computes when [s] has ASCII characters only. *)
Fixpoint lower_ascii (s : string) : string :=
  match s with
  | EmptyString => EmptyString
  | String c r => String (ascii_lower c) (lower_ascii r)
  end.

(** The ASCII characters [str.strip()] removes: tab to carriage return,
    the four separators 28 to 31, and the space. *)
Definition is_space (c : ascii) : bool :=
  let n := N_of_ascii c in
  (((9 <=? n) && (n <=? 13)) || ((28 <=? n) && (n <=? 32)))%N.

Fixpoint lstrip (s : string) : string :=
  match s with
  | EmptyString => EmptyString
  | String c r => if is_space c then lstrip r else s
  end.

Definition reverse (s : string) : string :=
  string_of_list_ascii (rev (list_ascii_of_string s)).

Definition rstrip (s : string) : string := reverse (lstrip (reverse s)).

(** What [s.strip()] computes when [s] has ASCII characters only. *)
Definition strip_ascii (s : string) : string := rstrip (lstrip s).

(** [needle in hay] on strings: substring test. *)
Fixpoint str_in (needle hay : string) : bool :=
  String.prefix needle hay ||
  match hay with
  | EmptyString => false
  | String _ r => str_in needle r
  end.

(** [any(kw in text for kw in kws)] *)
Definition any_in (kws : list string) (text : string) : bool :=
  existsb (fun kw => str_in kw text) kws.

Definition underscore_to_space (c : ascii) : ascii :=
  if Ascii.eqb c "_"%char then " "%char else c.

(** [s.replace('_', ' ')] *)
Fixpoint replace_underscores (s : string) : string :=
  match s with
  | EmptyString => EmptyString
  | String c r => String (underscore_to_space c) (replace_underscores r)
  end.

(** [sep.join(parts)] *)
Definition join (sep : string) (parts : list string) : string :=
  String.concat sep parts.

(** [f"{z:.0f}"] on an integral value. *)
Definition fmt_0f (z : Z) : string := NilZero.string_of_int (Z.to_int z).

(** [f"{z:+.0f}"] on an integral value. *)
Definition fmt_plus_0f (z : Z) : string :=
  if (0 <=? z)%Z then "+" ++ fmt_0f z else fmt_0f z.

Definition newline : string := String (ascii_of_nat 10) EmptyString.

End PyStr.

(** ** Python dictionaries *)

Module PyDict.
Section Dict.
Context {K : Type} `{EqDecision K} {V : Type}.

Definition t : Type := list (K * V).

(** [d.get(k)]; [None] stands for a missing key. *)
Fixpoint get (k : K) (d : t) : option V :=
  match d with
  | [] => None
  | (k', v) :: r => if decide (k = k') then Some v else get k r
  end.

(** [k in d] *)
Definition mem (k : K) (d : t) : bool :=
  match get k d with Some _ => true | None => false end.

(** [d[k] = v]: an existing key keeps its position, a new one goes last. *)
Fixpoint set (k : K) (v : V) (d : t) : t :=
  match d with
  | [] => [(k, v)]
  | (k', v') :: r =>
      if decide (k = k') then (k', v) :: r else (k', v') :: set k v r
  end.

(** [del d[k]] *)
Fixpoint del (k : K) (d : t) : t :=
  match d with
  | [] => []
  | (k', v') :: r => if decide (k = k') then r else (k', v') :: del k r
  end.

(** [list(d.keys())] *)
Definition keys (d : t) : list K := map fst d.

(** [list(d.values())] *)
Definition values (d : t) : list V := map snd d.

End Dict.
Global Arguments t : clear implicits.

(** [d[k]] on a [defaultdict(list)]: a missing key is inserted with the
    empty list before it is returned. *)
Definition default_get {K} `{EqDecision K} {A} (k : K) (d : t K (list A))
  : list A * t K (list A) :=
  match get k d with
  | Some v => (v, d)
  | None => ([], set k [] d)
  end.

(** [d[k].append(x)] on a [defaultdict(list)]. *)
Definition default_append {K} `{EqDecision K} {A} (k : K) (x : A)
    (d : t K (list A)) : t K (list A) :=
  let '(v, d') := default_get k d in set k (v ++ [x])%list d'.

End PyDict.

(** ** Data model *)

(** [class DeviceType(Enum)] *)
Inductive DeviceType :=
  | LIGHT | FAN | HEATER | AC | DOOR_LOCK | CURTAIN | OUTLET | ALARM | SENSOR.

#[global] Instance DeviceType_eq_dec : EqDecision DeviceType.
Proof. solve_decision. Defined.

(** [@dataclass class Device]; [last_changed] is a wall-clock reading. *)
Record Device := mkDevice {
  name : string;
  pin : Z;
  device_type : DeviceType;
  state : bool;
  aliases : list string;
  room : string;
  power_consumption : Z;
  schedule : PyDict.t string string;
  last_changed : Z;
}.

(** The constructor call of the device table: [state], [schedule] and
    [last_changed] take their defaults ([__post_init__] stamps the time). *)
Definition Device_new (name : string) (pin : Z) (device_type : DeviceType)
    (aliases : list string) (room : string) (power_consumption : Z) (now : Z)
  : Device :=
  mkDevice name pin device_type false aliases room power_consumption [] now.

(** [device.state = new_state; device.last_changed = now] *)
Definition Device_switch (d : Device) (new_state : bool) (now : Z) : Device :=
  mkDevice (name d) (pin d) (device_type d) new_state (aliases d) (room d)
           (power_consumption d) (schedule d) now.

(** [self.context] *)
Record HomeContext := mkContext {
  temperature : Z;
  humidity : Z;
  outdoor_temp : Z;
  time_of_day : string;
  day_of_week : string;
  season : string;
  occupancy : PyDict.t string bool;
  power_usage : Z;
  security_armed : bool;
  sleep_mode : bool;
  vacation_mode : bool;
  last_motion : Z;
}.

Definition set_power_usage (p : Z) (c : HomeContext) : HomeContext :=
  mkContext (temperature c) (humidity c) (outdoor_temp c) (time_of_day c)
            (day_of_week c) (season c) (occupancy c) p (security_armed c)
            (sleep_mode c) (vacation_mode c) (last_motion c).

(** [self.thresholds] *)
Record Thresholds := mkThresholds {
  temp_comfort_min : Z;
  temp_comfort_max : Z;
  humidity_comfort_min : Z;
  humidity_comfort_max : Z;
  power_limit : Z;
}.

(** One entry of [self.scenes]. *)
Record Scene := mkScene {
  scene_devices : PyDict.t string bool;
  description : string;
}.

(** Values of intent payloads: what [json.loads] can produce and what the
    fallback matcher writes. *)
#[local] Unset Elimination Schemes.
Inductive pyval :=
  | PNone
  | PBool (b : bool)
  | PInt (z : Z)
  | PFloat (q : Q)
  | PStr (s : string)
  | PList (l : list pyval)
  | PDict (d : list (string * pyval)).
#[local] Set Elimination Schemes.

(** An intent payload: a dictionary from field names to values. *)
Abbreviation intent_dict := (PyDict.t string pyval).

(** Python truthiness, as used by [if action:]. *)
Definition truthy (v : pyval) : bool :=
  match v with
  | PNone => false
  | PBool b => b
  | PInt z => negb (z =? 0)
  | PFloat q => negb (Qeq_bool q 0)
  | PStr s => negb (String.eqb s "")
  | PList l => match l with [] => false | _ => true end
  | PDict d => match d with [] => false | _ => true end
  end.

(** [deque(maxlen=n).append(x)]: the oldest element falls out when full. *)
Definition deque_append {A} (maxlen : nat) (x : A) (q : list A) : list A :=
  let q' := (q ++ [x])%list in
  drop (length q' - maxlen)%nat q'.

(** [self.performance_stats] *)
Record Stats := mkStats {
  command_latencies : list Z;
  inference_times : list Z;
  llm_token_counts : list Z;
  llm_eval_durations : list Z;
  cache_hits : Z;
  cache_misses : Z;
  total_commands : Z;
  energy_saved : Z;
  automation_triggers : Z;
  recent_commands : list string;
}.

(** Heap locations of dictionary objects. *)
Abbreviation loc := nat (only parsing).

(** The assistant object, with the heap of intent dictionaries it and its
    callers hold references into, and the trace of actuator writes. *)
Record State := mkState {
  devices : PyDict.t string Device;
  devices_by_room : PyDict.t string (list string);
  devices_by_type : PyDict.t DeviceType (list string);
  context : HomeContext;
  thresholds : Thresholds;
  scenes : PyDict.t string Scene;
  response_cache : PyDict.t string loc;
  heap : gmap loc intent_dict;
  performance_stats : Stats;
  gpio_simulation_mode : bool;
  gpio_log : list (Z * bool);
  clock_reads : nat;
}.

Definition with_devices (v : PyDict.t string Device) (s : State) : State :=
  mkState v (devices_by_room s) (devices_by_type s) (context s) (thresholds s)
          (scenes s) (response_cache s) (heap s) (performance_stats s)
          (gpio_simulation_mode s) (gpio_log s) (clock_reads s).

Definition with_devices_by_room (v : PyDict.t string (list string)) (s : State)
  : State :=
  mkState (devices s) v (devices_by_type s) (context s) (thresholds s)
          (scenes s) (response_cache s) (heap s) (performance_stats s)
          (gpio_simulation_mode s) (gpio_log s) (clock_reads s).

Definition with_devices_by_type (v : PyDict.t DeviceType (list string))
    (s : State) : State :=
  mkState (devices s) (devices_by_room s) v (context s) (thresholds s)
          (scenes s) (response_cache s) (heap s) (performance_stats s)
          (gpio_simulation_mode s) (gpio_log s) (clock_reads s).

Definition with_context (v : HomeContext) (s : State) : State :=
  mkState (devices s) (devices_by_room s) (devices_by_type s) v (thresholds s)
          (scenes s) (response_cache s) (heap s) (performance_stats s)
          (gpio_simulation_mode s) (gpio_log s) (clock_reads s).

Definition with_response_cache (v : PyDict.t string loc) (s : State) : State :=
  mkState (devices s) (devices_by_room s) (devices_by_type s) (context s)
          (thresholds s) (scenes s) v (heap s) (performance_stats s)
          (gpio_simulation_mode s) (gpio_log s) (clock_reads s).

Definition with_heap (v : gmap loc intent_dict) (s : State) : State :=
  mkState (devices s) (devices_by_room s) (devices_by_type s) (context s)
          (thresholds s) (scenes s) (response_cache s) v (performance_stats s)
          (gpio_simulation_mode s) (gpio_log s) (clock_reads s).

Definition with_performance_stats (v : Stats) (s : State) : State :=
  mkState (devices s) (devices_by_room s) (devices_by_type s) (context s)
          (thresholds s) (scenes s) (response_cache s) (heap s) v
          (gpio_simulation_mode s) (gpio_log s) (clock_reads s).

Definition with_gpio_log (v : list (Z * bool)) (s : State) : State :=
  mkState (devices s) (devices_by_room s) (devices_by_type s) (context s)
          (thresholds s) (scenes s) (response_cache s) (heap s)
          (performance_stats s) (gpio_simulation_mode s) v (clock_reads s).

Definition with_clock_reads (v : nat) (s : State) : State :=
  mkState (devices s) (devices_by_room s) (devices_by_type s) (context s)
          (thresholds s) (scenes s) (response_cache s) (heap s)
          (performance_stats s) (gpio_simulation_mode s) (gpio_log s) v.

(** ** Static configuration *)

(** The device table of [_init_devices], every entry stamped [now]. *)
Definition device_table (now : Z) : PyDict.t string Device :=
  [ ("living_room_light",
      Device_new "living_room_light" 7 LIGHT
        ["living room light"; "main light"; "lounge light"] "living_room" 60 now);
    ("living_room_fan",
      Device_new "living_room_fan" 11 FAN
        ["living room fan"; "main fan"] "living_room" 75 now);
    ("bedroom_light",
      Device_new "bedroom_light" 13 LIGHT
        ["bedroom light"; "bed light"] "bedroom" 40 now);
    ("bedroom_ac",
      Device_new "bedroom_ac" 15 AC
        ["bedroom ac"; "bedroom air conditioner"] "bedroom" 1200 now);
    ("bedroom_heater",
      Device_new "bedroom_heater" 31 HEATER
        ["heater"; "bedroom heater"] "bedroom" 1500 now);
    ("kitchen_light",
      Device_new "kitchen_light" 16 LIGHT
        ["kitchen light"] "kitchen" 80 now);
    ("kitchen_exhaust",
      Device_new "kitchen_exhaust" 18 FAN
        ["exhaust fan"; "kitchen fan"] "kitchen" 30 now);
    ("front_door_lock",
      Device_new "front_door_lock" 22 DOOR_LOCK
        ["front door"; "main door"; "door lock"] "entrance" 5 now);
    ("security_alarm",
      Device_new "security_alarm" 24 ALARM
        ["alarm"; "security"] "general" 10 now);
    ("garden_light",
      Device_new "garden_light" 26 LIGHT
        ["garden"; "outdoor light"; "yard light"] "outdoor" 100 now);
    ("smart_outlet_1",
      Device_new "smart_outlet_1" 29 OUTLET
        ["outlet 1"; "plug 1"] "general" 0 now) ].

(** The two index-building loops of [_init_devices]. *)
Definition index_by_room (devs : PyDict.t string Device)
  : PyDict.t string (list string) :=
  fold_left (fun idx '(n, d) => PyDict.default_append (room d) n idx) devs [].

Definition index_by_type (devs : PyDict.t string Device)
  : PyDict.t DeviceType (list string) :=
  fold_left (fun idx '(n, d) => PyDict.default_append (device_type d) n idx)
            devs [].

(** [_init_context]; the three calendar strings are derived from the wall
    clock by helpers outside this development and are taken as given. *)
Definition _init_context (time_of_day day_of_week season : string) (now : Z)
  : HomeContext * Thresholds :=
  (mkContext 72 45 85 time_of_day day_of_week season
             [("living_room", true); ("bedroom", false); ("kitchen", false)]
             0 false false false now,
   mkThresholds 68 76 30 60 3000).

(** The scene table of [_init_automation_rules]. *)
Definition scene_table : PyDict.t string Scene :=
  [ ("movie_night",
      mkScene [("living_room_light", false); ("kitchen_light", false);
               ("living_room_fan", true)]
              "Dims lights for movie watching");
    ("dinner",
      mkScene [("kitchen_light", true); ("kitchen_exhaust", true);
               ("living_room_light", true)]
              "Bright kitchen for cooking");
    ("sleep",
      mkScene [("bedroom_light", false); ("bedroom_ac", true);
               ("living_room_light", false); ("kitchen_light", false);
               ("garden_light", false); ("security_alarm", true)]
              "Nighttime sleep mode");
    ("wake_up",
      mkScene [("bedroom_light", true); ("kitchen_light", true);
               ("security_alarm", false)]
              "Morning wake up routine");
    ("away",
      mkScene [("all_lights", false); ("security_alarm", true);
               ("front_door_lock", true)]
              "Security mode when away") ].

(** [_setup_performance_tracking] *)
Definition initial_stats : Stats := mkStats [] [] [] [] 0 0 0 0 0 [].

(** The assistant as [__init__] leaves it, at wall-clock time [now]. *)
Definition initial_state (simulation : bool) (time_of_day day_of_week season : string)
    (now : Z) : State :=
  let devs := device_table now in
  let '(ctx, thr) := _init_context time_of_day day_of_week season now in
  mkState devs (index_by_room devs) (index_by_type devs) ctx thr scene_table
          [] ∅ initial_stats simulation [] 0.

(** ** Operations of [SmartHomeAssistant] *)

(** Loop variables of the [for] loop in [_control_devices]. *)
Record ControlLoop := mkLoop {
  loop_state : State;
  responses : list string;
  total_power_change : Z;
}.

Section Assistant.
Import PyStr.

(** The wall clock: the value of its [n]-th reading. *)
Variable clock : nat → Z.

(** [datetime.now()] *)
Definition datetime_now (s : State) : Z * State :=
  (clock (clock_reads s), with_clock_reads (S (clock_reads s)) s).

(** [GPIO.output(pin, GPIO.HIGH if level else GPIO.LOW)] *)
Definition GPIO_output (p : Z) (level : bool) (s : State) : State :=
  with_gpio_log (gpio_log s ++ [(p, level)])%list s.

(** *** Device controller *)

(** One iteration of the loop of [_control_devices]. *)
Definition control_one (new_state : bool) (acc : ControlLoop)
    (device_name : string) : ControlLoop :=
  let s := loop_state acc in
  match PyDict.get device_name (devices s) with
  | None => acc
  | Some device =>
      if negb (Bool.eqb (state device) new_state) then
        let s1 := if gpio_simulation_mode s then s
                  else GPIO_output (pin device) new_state s in
        let power_change :=
          if new_state then power_consumption device
          else - power_consumption device in
        let '(now, s2) := datetime_now s1 in
        let device' := Device_switch device new_state now in
        mkLoop (with_devices (PyDict.set device_name device' (devices s2)) s2)
               (responses acc ++ [replace_underscores device_name])%list
               (total_power_change acc + power_change)
      else acc
  end.

Definition power_warning (usage : Z) : string :=
  newline ++ "⚠️  Warning: Power usage (" ++ fmt_0f usage ++ "W) exceeds limit!".

(** [_control_devices(device_names, state)]: the report and the new state. *)
Definition _control_devices (device_names : list string) (new_state : bool)
    (s : State) : string * State :=
  let acc := fold_left (control_one new_state) device_names (mkLoop s [] 0) in
  let s1 := loop_state acc in
  match responses acc with
  | [] => ("No devices were changed.", s1)
  | _ :: _ =>
      let action_str := if new_state then "on" else "off" in
      let total := total_power_change acc in
      let usage := power_usage (context s1) + total in
      let s2 := with_context (set_power_usage usage (context s1)) s1 in
      let response := "Turned " ++ action_str ++ ": " ++ join ", " (responses acc) in
      let response :=
        if 100 <? Z.abs total
        then response ++ " (Power change: " ++ fmt_plus_0f total ++ "W)"
        else response in
      let response :=
        if power_limit (thresholds s2) <? usage
        then response ++ power_warning usage
        else response in
      (response, s2)
  end.

(** *** Scene engine *)

(** One iteration of the loop of [_activate_scene]. *)
Definition scene_step (s : State) (entry : string * bool) : State :=
  let '(device_name, desired_state) := entry in
  if decide (device_name = "all_lights") then
    let '(light_devices, idx) := PyDict.default_get LIGHT (devices_by_type s) in
    snd (_control_devices light_devices desired_state
                          (with_devices_by_type idx s))
  else if PyDict.mem device_name (devices s) then
    snd (_control_devices [device_name] desired_state s)
  else s.

(** [_activate_scene(scene_name)] *)
Definition _activate_scene (scene_name : string) (s : State) : string * State :=
  match PyDict.get scene_name (scenes s) with
  | None =>
      ("Unknown scene. Available: " ++ join ", " (PyDict.keys (scenes s)), s)
  | Some scene =>
      let s' := fold_left scene_step (scene_devices scene) s in
      ("Scene '" ++ scene_name ++ "' activated: " ++ description scene, s')
  end.

End Assistant.

(** ** Fallback matcher *)

(** Exceptions the modelled code can raise. *)
Inductive exn :=
  | KeyError (key : string)
  | TypeError.

(** The outcome of code that may raise. *)
Inductive result (A : Type) :=
  | Ok (a : A)
  | Raise (e : exn).
Arguments Ok {A} a.
Arguments Raise {A} e.

(** [patterns['turn_on']] *)
Definition turn_on_keywords : list string :=
  ["turn on"; "switch on"; "enable"; "activate"].

(** The [patterns] table of [_fast_pattern_match], in dictionary order. *)
Definition patterns : PyDict.t string (list string) :=
  [ ("turn_on", turn_on_keywords);
    ("turn_off", ["turn off"; "switch off"; "disable"; "deactivate"; "kill"]);
    ("toggle", ["toggle"; "flip"]) ].

(** The [room_keywords] table of [_fast_pattern_match]. *)
Definition room_keywords : PyDict.t string string :=
  [ ("living room", "living_room");
    ("bedroom", "bedroom");
    ("kitchen", "kitchen");
    ("garden", "outdoor");
    ("outside", "outdoor") ].

(** [_extract_devices_from_text(text)]; the lookup in the type index is a
    [defaultdict] access, so the state is threaded. *)
Definition _extract_devices_from_text (text : string) (s : State)
  : list string * State :=
  if PyStr.any_in ["all"; "everything"; "entire"] text then
    if PyStr.str_in "light" text then
      let '(lights, idx) := PyDict.default_get LIGHT (devices_by_type s) in
      (lights, with_devices_by_type idx s)
    else (PyDict.keys (devices s), s)
  else
    (map fst
       (List.filter
          (fun e => PyStr.any_in
                      (PyStr.replace_underscores (fst e) :: aliases (snd e)) text)
          (devices s)),
     s).

(** The scene loop: the first scene whose spaced name occurs in the text. *)
Fixpoint scene_loop (scs : PyDict.t string Scene) (text : string) (confidence : Q)
  : option intent_dict :=
  match scs with
  | [] => None
  | (scene_name, _) :: rest =>
      if PyStr.str_in (PyStr.replace_underscores scene_name) text then
        Some [ ("intent", PStr "activate_scene");
               ("scene", PStr scene_name);
               ("confidence", PFloat confidence);
               ("reasoning", PStr ("Activating " ++ scene_name ++ " scene")) ]
      else scene_loop rest text confidence
  end.

(** The device-control loop over [patterns]. *)
Fixpoint pattern_loop (pats : PyDict.t string (list string)) (text : string)
    (confidence : Q) (s : State) : option intent_dict * State :=
  match pats with
  | [] => (None, s)
  | (intent, keywords) :: rest =>
      if PyStr.any_in keywords text then
        let '(devs, s1) := _extract_devices_from_text text s in
        match devs with
        | [] => pattern_loop rest text confidence s1
        | _ :: _ =>
            (Some [ ("intent", PStr intent);
                    ("devices", PList (map PStr devs));
                    ("confidence", PFloat confidence);
                    ("reasoning", PStr ("Pattern match for " ++ intent)) ],
             s1)
        end
      else pattern_loop rest text confidence s
  end.

(** [[d for d in names if self.devices[d].device_type == DeviceType.LIGHT]]:
    a name missing from the registry raises [KeyError]. *)
Fixpoint light_names (devs : PyDict.t string Device) (names : list string)
  : result (list string) :=
  match names with
  | [] => Ok []
  | d :: rest =>
      match PyDict.get d devs with
      | None => Raise (KeyError d)
      | Some dev =>
          match light_names devs rest with
          | Raise e => Raise e
          | Ok more =>
              Ok (if bool_decide (device_type dev = LIGHT) then d :: more else more)
          end
      end
  end.

(** The room loop over [room_keywords]. *)
Fixpoint room_loop (rooms : PyDict.t string string) (text : string)
    (confidence : Q) (s : State) : result (option intent_dict) * State :=
  match rooms with
  | [] => (Ok None, s)
  | (keyword, room) :: rest =>
      if PyStr.str_in keyword text then
        let '(in_room, idx) := PyDict.default_get room (devices_by_room s) in
        let s1 := with_devices_by_room idx s in
        let selected :=
          if PyStr.str_in "light" text then light_names (devices s1) in_room
          else Ok in_room in
        match selected with
        | Raise e => (Raise e, s1)
        | Ok [] => room_loop rest text confidence s1
        | Ok (d :: ds) =>
            let intent :=
              if PyStr.any_in turn_on_keywords text
              then "turn_on" else "turn_off" in
            (Ok (Some [ ("intent", PStr intent);
                        ("devices", PList (map PStr (d :: ds)));
                        ("confidence", PFloat (confidence - 0.02));
                        ("reasoning", PStr ("Room-based command for " ++ room)) ]),
             s1)
        end
      else room_loop rest text confidence s
  end.

(** The last three rules of [_fast_pattern_match]: temperature feeling,
    status check, and the default. *)
Definition tail_rules (text : string) : intent_dict :=
  if PyStr.any_in ["hot"; "warm"; "sweating"] text then
    [ ("intent", PStr "set_temperature"); ("value", PStr "decrease");
      ("confidence", PFloat 0.8); ("reasoning", PStr "User feels hot") ]
  else if PyStr.any_in ["cold"; "freezing"; "chilly"] text then
    [ ("intent", PStr "set_temperature"); ("value", PStr "increase");
      ("confidence", PFloat 0.8); ("reasoning", PStr "User feels cold") ]
  else if PyStr.any_in ["status"; "what's on"; "check"; "show"] text then
    [ ("intent", PStr "check_status"); ("confidence", PFloat 0.9);
      ("reasoning", PStr "Status check request") ]
  else
    [ ("intent", PStr "unknown"); ("confidence", PFloat 0.1);
      ("reasoning", PStr "No pattern matched") ].

Section Matcher.

(** [str.lower] of the runtime. *)
Variable lower : string → string.

(** [_fast_pattern_match(user_input, is_fallback)] *)
Definition _fast_pattern_match (user_input : string) (is_fallback : bool)
    (s : State) : result intent_dict * State :=
  let text := lower user_input in
  let confidence := if negb is_fallback then 1.0%Q else 0.5%Q in
  match scene_loop (scenes s) text confidence with
  | Some found => (Ok found, s)
  | None =>
      match pattern_loop patterns text confidence s with
      | (Some found, s1) => (Ok found, s1)
      | (None, s1) =>
          match room_loop room_keywords text confidence s1 with
          | (Raise e, s2) => (Raise e, s2)
          | (Ok (Some found), s2) => (Ok found, s2)
          | (Ok None, s2) => (Ok (tail_rules text), s2)
          end
      end
  end.

End Matcher.

(** ** Response cache and command interpretation *)

(** [x = d.copy()] or [x = {...}]: a new dictionary object on the heap. *)
Definition heap_alloc (d : intent_dict) (h : gmap loc intent_dict)
  : loc * gmap loc intent_dict :=
  let l := fresh (dom h) in (l, <[l := d]> h).

(** [obj[k] = v] on the dictionary object at [l]. *)
Definition heap_setitem (l : loc) (k : string) (v : pyval)
    (h : gmap loc intent_dict) : gmap loc intent_dict :=
  alter (PyDict.set k v) l h.

(** What one call of [ollama.generate] did: it raised, or it answered with
    a reply object.  [response] is the reply's ['response'] entry ([None]
    when reading it fails); a missing count or duration is [0]. *)
Inductive OllamaOutcome :=
  | OllamaError
  | OllamaReply (response : option string) (eval_count eval_duration : Z).

(** The result of [json.loads]. *)
Inductive loads_result :=
  | Loaded (v : pyval)
  | JSONDecodeError
  | OtherError.

Definition count_cache_hit (st : Stats) : Stats :=
  mkStats (command_latencies st) (inference_times st) (llm_token_counts st)
          (llm_eval_durations st) (cache_hits st + 1) (cache_misses st)
          (total_commands st) (energy_saved st) (automation_triggers st)
          (recent_commands st).

Definition count_cache_miss (st : Stats) : Stats :=
  mkStats (command_latencies st) (inference_times st) (llm_token_counts st)
          (llm_eval_durations st) (cache_hits st) (cache_misses st + 1)
          (total_commands st) (energy_saved st) (automation_triggers st)
          (recent_commands st).

Definition record_inference_time (t : Z) (st : Stats) : Stats :=
  mkStats (command_latencies st) (deque_append 100 t (inference_times st))
          (llm_token_counts st) (llm_eval_durations st) (cache_hits st)
          (cache_misses st) (total_commands st) (energy_saved st)
          (automation_triggers st) (recent_commands st).

Definition record_llm_eval (eval_count eval_duration : Z) (st : Stats) : Stats :=
  mkStats (command_latencies st) (inference_times st)
          (deque_append 100 eval_count (llm_token_counts st))
          (deque_append 100 eval_duration (llm_eval_durations st))
          (cache_hits st) (cache_misses st) (total_commands st)
          (energy_saved st) (automation_triggers st) (recent_commands st).

(** Suffix of [s] starting at the first occurrence of [c]. *)
Fixpoint from_first (c : ascii) (s : string) : option string :=
  match s with
  | EmptyString => None
  | String x r => if Ascii.eqb x c then Some s else from_first c r
  end.

(** [re.search(r'\{.*\}', text, re.DOTALL)]: from the first opening brace
    to the last closing brace after it. *)
Definition brace_region (text : string) : option string :=
  match from_first "{" text with
  | None => None
  | Some tail =>
      match from_first "}" (PyStr.reverse tail) with
      | None => None
      | Some rev_region => Some (PyStr.reverse rev_region)
      end
  end.

(** [_get_ollama_response(prompt)], given what the service did.  The prompt
    only feeds the service and is left out. *)
Definition _get_ollama_response (o : OllamaOutcome) (s : State)
  : option string * State :=
  match o with
  | OllamaError => (None, s)
  | OllamaReply response eval_count eval_duration =>
      let s1 :=
        if negb (eval_count =? 0) && negb (eval_duration =? 0)
        then with_performance_stats
               (record_llm_eval eval_count eval_duration (performance_stats s)) s
        else s in
      (response, s1)
  end.

(** [_cache_response(key, response)], [response] being the object at [l]. *)
Definition _cache_response (key : string) (response : loc) (s : State) : State :=
  let cache := response_cache s in
  let cache1 :=
    if (100 <? length cache)%nat
    then fold_left (fun c k => PyDict.del k c) (take 20 (PyDict.keys cache)) cache
    else cache in
  let '(copy, h) := heap_alloc (heap s !!! response) (heap s) in
  with_heap h (with_response_cache (PyDict.set key copy cache1) s).

Section Interpretation.

(** The wall clock and the JSON parser of the standard library, and
    [str.lower] and [str.strip] of the runtime. *)
Variable clock : nat → Z.
Variable json_loads : string → loads_result.
Variable lower : string → string.
Variable strip : string → string.

(** [_parse_llm_response(response_text)]; [PNone] is Python's [None]. *)
Definition _parse_llm_response (response_text : option string) : pyval :=
  match response_text with
  | None => PNone
  | Some text =>
      if String.eqb text "" then PNone
      else
        match json_loads text with
        | Loaded v => v
        | JSONDecodeError =>
            match brace_region text with
            | Some json_str =>
                match json_loads json_str with
                | Loaded v => v
                | _ => PNone
                end
            | None => PNone
            end
        | OtherError => PNone
        end
  end.

(** [understand_command(user_input)], given what the language-model
    service did on this call (it is consulted on a cache miss only).  The
    result is a reference to the returned dictionary. *)
Definition understand_command (o : OllamaOutcome) (user_input : string)
    (s : State) : result loc * State :=
  let cache_key := strip (lower user_input) in
  match PyDict.get cache_key (response_cache s) with
  | Some entry =>
      let s1 := with_performance_stats (count_cache_hit (performance_stats s)) s in
      let '(cached, h) := heap_alloc (heap s1 !!! entry) (heap s1) in
      let h1 := heap_setitem cached "from_cache" (PBool true) h in
      (Ok cached, with_heap h1 s1)
  | None =>
      let s1 := with_performance_stats (count_cache_miss (performance_stats s)) s in
      let '(inference_start, s2) := datetime_now clock s1 in
      let '(response_text, s3) := _get_ollama_response o s2 in
      let '(inference_end, s4) := datetime_now clock s3 in
      let s5 := with_performance_stats
                  (record_inference_time (inference_end - inference_start)
                                         (performance_stats s4)) s4 in
      let action := _parse_llm_response response_text in
      if truthy action then
        match action with
        | PDict d =>
            let '(a, h) := heap_alloc d (heap s5) in
            let h1 := heap_setitem a "raw_input" (PStr user_input) h in
            (Ok a, _cache_response cache_key a (with_heap h1 s5))
        | _ => (Raise TypeError, s5)
        end
      else
        match _fast_pattern_match lower user_input true s5 with
        | (Raise e, s6) => (Raise e, s6)
        | (Ok fallback_action, s6) =>
            let '(a, h) := heap_alloc fallback_action (heap s6) in
            let h1 := heap_setitem a "raw_input" (PStr user_input) h in
            (Ok a, with_heap h1 s6)
        end
  end.

End Interpretation.

(** ** Further operations *)

(** [sum(d.power_consumption for d in self.devices.values() if d.state)] *)
Definition power_of_on_devices (devs : PyDict.t string Device) : Z :=
  fold_left Z.add
            (map power_consumption (List.filter state (PyDict.values devs))) 0.

(** [self.devices_by_type.get(ty, [])]: no insertion on a missing type. *)
Definition devices_of_type (ty : DeviceType) (s : State) : list string :=
  default [] (PyDict.get ty (devices_by_type s)).

(** [device.state = False] as [cleanup] does it: the timestamp is kept. *)
Definition Device_off (d : Device) : Device :=
  mkDevice (name d) (pin d) (device_type d) false (aliases d) (room d)
           (power_consumption d) (schedule d) (last_changed d).

(** [cleanup()]: outside simulation mode every device that is on gets its
    pin driven low and its state cleared. *)
Definition cleanup (s : State) : State :=
  if gpio_simulation_mode s then s
  else
    with_devices
      (map (fun e => (fst e, if state (snd e) then Device_off (snd e) else snd e))
           (devices s))
      (with_gpio_log
         (gpio_log s
          ++ map (fun d => (pin d, false)) (List.filter state (PyDict.values (devices s))))%list
         s).

(** [get_time_context()], given the hour of the day. *)
Definition get_time_context (hour : Z) : string :=
  if (5 <=? hour) && (hour <? 12) then "morning"
  else if (12 <=? hour) && (hour <? 17) then "afternoon"
  else if (17 <=? hour) && (hour <? 21) then "evening"
  else "night".

(** [_get_season()], given the month. *)
Definition _get_season (month : Z) : string :=
  if (month =? 12) || (month =? 1) || (month =? 2) then "winter"
  else if (month =? 3) || (month =? 4) || (month =? 5) then "spring"
  else if (month =? 6) || (month =? 7) || (month =? 8) then "summer"
  else "fall".

Definition set_time_of_day (v : string) (c : HomeContext) : HomeContext :=
  mkContext (temperature c) (humidity c) (outdoor_temp c) v (day_of_week c)
            (season c) (occupancy c) (power_usage c) (security_armed c)
            (sleep_mode c) (vacation_mode c) (last_motion c).

Definition set_day_of_week (v : string) (c : HomeContext) : HomeContext :=
  mkContext (temperature c) (humidity c) (outdoor_temp c) (time_of_day c) v
            (season c) (occupancy c) (power_usage c) (security_armed c)
            (sleep_mode c) (vacation_mode c) (last_motion c).

Definition count_automation_trigger (st : Stats) : Stats :=
  mkStats (command_latencies st) (inference_times st) (llm_token_counts st)
          (llm_eval_durations st) (cache_hits st) (cache_misses st)
          (total_commands st) (energy_saved st) (automation_triggers st + 1)
          (recent_commands st).

(** The conditions and actions of [self.automation_rules].  Two of the
    actions call methods the class does not define. *)
Inductive RuleCondition :=
  | NoCondition
  | TemperatureAboveComfort
  | EveningOrNight.

Inductive RuleAction :=
  | CallActivateScene (scene_name : string)
  | RegulateTemperature (direction : string)
  | CallMotionActivatedLights.

Record Rule := mkRule {
  rule_name : string;
  trigger : string;
  condition : RuleCondition;
  action : RuleAction;
  enabled : bool;
}.

(** [self.automation_rules] *)
Definition automation_rules : list Rule :=
  [ mkRule "sunset_lights" "time" NoCondition
           (CallActivateScene "evening_lights") true;
    mkRule "temperature_control" "condition" TemperatureAboveComfort
           (RegulateTemperature "cool") true;
    mkRule "motion_lights" "motion" EveningOrNight
           CallMotionActivatedLights true ].

(** What stops an iteration of the refresh loop. *)
Inductive loop_error :=
  | AttributeError (attribute : string)
  | RuleKeyError (key : string).

Section MoreOperations.

Variable clock : nat → Z.

(** Calendar functions of the standard library: the hour and the weekday
    name of a wall-clock reading. *)
Variable hour_of : Z → Z.
Variable weekday_of : Z → string.

(** One iteration of the loop of [_toggle_devices]. *)
Definition toggle_one (acc : State * list string) (device_name : string)
  : State * list string :=
  let '(s, responses) := acc in
  match PyDict.get device_name (devices s) with
  | Some device =>
      let new_state := negb (state device) in
      let s1 := snd (_control_devices clock [device_name] new_state s) in
      (s1,
       (responses
        ++ [(PyStr.replace_underscores device_name ++ " is now "
             ++ (if new_state then "ON" else "OFF"))%string])%list)
  | None => acc
  end.

(** [_toggle_devices(device_names)] *)
Definition _toggle_devices (device_names : list string) (s : State)
  : string * State :=
  match device_names with
  | [] => ("Which device would you like to toggle?", s)
  | _ :: _ =>
      let '(s1, responses) := fold_left toggle_one device_names (s, []) in
      (match responses with
       | [] => "Could not find the specified devices."
       | _ :: _ => PyStr.join ". " responses
       end, s1)
  end.

(** [_temperature_regulation(direction)] *)
Definition _temperature_regulation (direction : string) (s : State)
  : string * State :=
  let current_temp := temperature (context s) in
  if String.eqb direction "increase" || String.eqb direction "heat" then
    let s1 := snd (_control_devices clock (devices_of_type HEATER s) true s) in
    let s2 := snd (_control_devices clock (devices_of_type FAN s1) false s1) in
    let s3 := snd (_control_devices clock (devices_of_type AC s2) false s2) in
    ("Heating mode activated. Current temperature: "
     ++ PyStr.fmt_0f current_temp ++ "°F", s3)
  else if String.eqb direction "decrease" || String.eqb direction "cool" then
    let s1 := snd (_control_devices clock (devices_of_type AC s) true s) in
    let s2 := snd (_control_devices clock (devices_of_type FAN s1) true s1) in
    let s3 := snd (_control_devices clock (devices_of_type HEATER s2) false s2) in
    ("Cooling mode activated. Current temperature: "
     ++ PyStr.fmt_0f current_temp ++ "°F", s3)
  else ("Please specify 'increase' or 'decrease' for temperature control.", s).

(** [rule['condition']()] *)
Definition eval_condition (c : RuleCondition) (s : State) : result bool :=
  match c with
  | NoCondition => Raise (KeyError "condition")
  | TemperatureAboveComfort =>
      Ok (temp_comfort_max (thresholds s) <? temperature (context s))
  | EveningOrNight =>
      Ok (String.eqb (time_of_day (context s)) "evening"
          || String.eqb (time_of_day (context s)) "night")
  end.

(** [rule['action']()] *)
Definition run_action (a : RuleAction) (s : State) : option loop_error * State :=
  match a with
  | CallActivateScene _ => (Some (AttributeError "activate_scene"), s)
  | RegulateTemperature direction => (None, snd (_temperature_regulation direction s))
  | CallMotionActivatedLights => (Some (AttributeError "_motion_activated_lights"), s)
  end.

(** The rule loop of [_context_updater]. *)
Fixpoint check_rules (rules : list Rule) (s : State) : option loop_error * State :=
  match rules with
  | [] => (None, s)
  | rule :: rest =>
      if negb (enabled rule) then check_rules rest s
      else if String.eqb (trigger rule) "condition" then
        match eval_condition (condition rule) s with
        | Raise _ => (Some (RuleKeyError "condition"), s)
        | Ok false => check_rules rest s
        | Ok true =>
            match run_action (action rule) s with
            | (Some e, s1) => (Some e, s1)
            | (None, s1) =>
                check_rules rest
                  (with_performance_stats
                     (count_automation_trigger (performance_stats s1)) s1)
            end
        end
      else check_rules rest s
  end.

(** The body of one iteration of [_context_updater], up to the sleep: the
    error that ended it, if any, and the state it leaves. *)
Definition context_update (s : State) : option loop_error * State :=
  let '(t1, s1) := datetime_now clock s in
  let s2 := with_context (set_time_of_day (get_time_context (hour_of t1)) (context s1)) s1 in
  let '(t2, s3) := datetime_now clock s2 in
  let s4 := with_context (set_day_of_week (weekday_of t2) (context s3)) s3 in
  let total_power := power_of_on_devices (devices s4) in
  let s5 := with_context (set_power_usage total_power (context s4)) s4 in
  check_rules automation_rules s5.

End MoreOperations.

(** ** Threads

    Commands run [_control_devices] in the thread that serves them, and
    [_context_updater] runs in a thread of its own; the source takes no
    lock.  A call of [_control_devices] is a sequence of steps between
    which other threads can run: one step for each iteration of its loop,
    which flips a device and adds to the local [total_power_change], and a
    last step for the statements after the loop, which add that local to
    [context['power_usage']].  One iteration of the refresh loop is a step
    as well. *)

(** A call of [_control_devices] in progress: the names its loop has not
    visited yet, the requested state, and the locals. *)
Record Call := mkCall {
  call_names : list string;
  call_state : bool;
  call_responses : list string;
  call_power_change : Z;
}.

(** The assistant and the calls in progress, by thread. *)
Record Threads := mkThreads {
  home : State;
  calls : PyDict.t nat Call;
}.

(** What the scheduler lets happen next: a thread enters
    [_control_devices], a thread inside it runs its next step, or the
    refresh thread runs an iteration. *)
Inductive Event :=
  | Enter (thread : nat) (device_names : list string) (new_state : bool)
  | Advance (thread : nat)
  | Refresh.

Section Threads.

Variable clock : nat → Z.
Variable hour_of : Z → Z.
Variable weekday_of : Z → string.

(** The statements of [_control_devices] after its loop, for the locals
    [acc] of the loop, on the assistant [s1] as it is by then. *)
Definition control_devices_finish (new_state : bool) (acc : ControlLoop)
    (s1 : State) : string * State :=
  match responses acc with
  | [] => ("No devices were changed.", s1)
  | _ :: _ =>
      let action_str := if new_state then "on" else "off" in
      let total := total_power_change acc in
      let usage := power_usage (context s1) + total in
      let s2 := with_context (set_power_usage usage (context s1)) s1 in
      let response :=
        "Turned " ++ action_str ++ ": " ++ PyStr.join ", " (responses acc) in
      let response :=
        if 100 <? Z.abs total
        then response ++ " (Power change: " ++ PyStr.fmt_plus_0f total ++ "W)"
        else response in
      let response :=
        if power_limit (thresholds s2) <? usage
        then response ++ power_warning usage
        else response in
      (response, s2)
  end.

(** The next step of a call: an iteration of the loop while names are
    left, then the statements after the loop, which end the call. *)
Definition advance (c : Call) (s : State) : option Call * State :=
  let acc := mkLoop s (call_responses c) (call_power_change c) in
  match call_names c with
  | device_name :: rest =>
      let acc' := control_one clock (call_state c) acc device_name in
      (Some (mkCall rest (call_state c) (responses acc') (total_power_change acc')),
       loop_state acc')
  | [] => (None, snd (control_devices_finish (call_state c) acc s))
  end.

Definition run_event (p : Threads) (ev : Event) : Threads :=
  match ev with
  | Enter t device_names new_state =>
      if PyDict.mem t (calls p) then p
      else mkThreads (home p)
                     (PyDict.set t (mkCall device_names new_state [] 0) (calls p))
  | Advance t =>
      match PyDict.get t (calls p) with
      | None => p
      | Some c =>
          match advance c (home p) with
          | (Some c', s) => mkThreads s (PyDict.set t c' (calls p))
          | (None, s) => mkThreads s (PyDict.del t (calls p))
          end
      end
  | Refresh =>
      mkThreads (snd (context_update clock hour_of weekday_of (home p))) (calls p)
  end.

Definition run_events (evs : list Event) (p : Threads) : Threads :=
  fold_left run_event evs p.


End Threads.

(** ** Vocabulary of the specification *)

(** Registered names of a given type, in registry order. *)
Definition names_of_type (ty : DeviceType) (devs : PyDict.t string Device)
  : list string :=
  map fst (List.filter (fun e => bool_decide (device_type (snd e) = ty)) devs).

(** A name in a batch needs no action: it is unknown, or its device already
    has the requested state. *)
Definition settled (new_state : bool) (s : State) (n : string) : Prop :=
  match PyDict.get n (devices s) with
  | None => True
  | Some d => state d = new_state
  end.

(** Two registries agree on a name up to an inverted on/off state. *)
Definition mirrored (a b : option Device) : Prop :=
  match a, b with
  | None, None => True
  | Some da, Some db =>
      state db = negb (state da) ∧ power_consumption db = power_consumption da
  | _, _ => False
  end.

(** The parts of the assistant that the device controller never writes. *)
Definition bystanders (s : State) :=
  (devices_by_room s, devices_by_type s, thresholds s, scenes s,
   response_cache s, heap s, performance_stats s, gpio_simulation_mode s).

(** What [_control_devices] may touch: the registry, the power aggregate,
    the actuator trace and the clock.  Everything else is carried over. *)
Definition controller_frame (s s' : State) : Prop :=
  bystanders s' = bystanders s ∧
  context s' = set_power_usage (power_usage (context s')) (context s).

(** A scene entry reaches a device: by its own name, or through the
    ["all_lights"] group token when the device is one of [lights]. *)
Definition covers (lights : list string) (key n : string) : Prop :=
  if decide (key = "all_lights") then n ∈ lights else key = n.

#[global] Instance covers_dec lights key n : Decision (covers lights key n).
Proof. unfold covers. destruct (decide (key = "all_lights")); apply _. Defined.

(** The type index lists exactly the light-type devices of the registry. *)
Definition lights_indexed (s : State) : Prop :=
  fst (PyDict.default_get LIGHT (devices_by_type s))
  = names_of_type LIGHT (devices s).

(** The immutable part of a device: its on/off state and timestamp reset. *)
Definition static_device (d : Device) : Device := Device_switch d false 0.

Definition static_registry (devs : PyDict.t string Device)
  : PyDict.t string Device :=
  map (fun e => (fst e, static_device (snd e))) devs.

(** Everything the fallback matcher reads: the scene table, the immutable
    part of the registry, and the two indexes.  Device on/off states,
    timestamps, the context, the cache, the counters are not in it. *)
Definition matcher_view (s : State) :=
  (scenes s, static_registry (devices s), devices_by_room s, devices_by_type s).

(** Every room of a keyword table has an index entry whose names are all
    registered. *)
Definition rooms_ready (rooms : PyDict.t string string) (s : State) : bool :=
  forallb
    (fun kr =>
       match PyDict.get (snd kr) (devices_by_room s) with
       | Some names => forallb (fun d => PyDict.mem d (devices s)) names
       | None => false
       end)
    rooms.

(** The indexes cover what the matcher looks up: the type index has an
    entry for lights, and the room index is ready for the keyword table. *)
Definition matcher_ready (s : State) : bool :=
  PyDict.mem LIGHT (devices_by_type s) && rooms_ready room_keywords s.

(** No rule of the matcher applies to the (lower-cased) text: no scene
    name, no control keyword with a device to act on, no room keyword, no
    temperature word, no status word. *)
Definition no_rule_matches (text : string) (s : State) : bool :=
  forallb (fun sc => negb (PyStr.str_in (PyStr.replace_underscores (fst sc)) text))
          (scenes s)
  && forallb
       (fun p => negb (PyStr.any_in (snd p) text)
                 || match fst (_extract_devices_from_text text s) with
                    | [] => true
                    | _ :: _ => false
                    end)
       patterns
  && forallb (fun kr => negb (PyStr.str_in (fst kr) text)) room_keywords
  && negb (PyStr.any_in ["hot"; "warm"; "sweating"] text)
  && negb (PyStr.any_in ["cold"; "freezing"; "chilly"] text)
  && negb (PyStr.any_in ["status"; "what's on"; "check"; "show"] text).

(** Fields of an intent payload. *)
Definition intent_of (i : intent_dict) : option string :=
  match PyDict.get "intent" i with Some (PStr k) => Some k | _ => None end.

Definition confidence_of (i : intent_dict) : option Q :=
  match PyDict.get "confidence" i with Some (PFloat q) => Some q | _ => None end.

Definition reasoning_of (i : intent_dict) : option string :=
  match PyDict.get "reasoning" i with Some (PStr k) => Some k | _ => None end.

(** The confidence the matcher starts from: [1.0 if not is_fallback else 0.5]. *)
Definition base_confidence (is_fallback : bool) : Q :=
  if negb is_fallback then 1.0%Q else 0.5%Q.

(** Every cache entry refers to a dictionary that exists. *)
Definition cache_closed (s : State) : Prop :=
  ∀ k l, PyDict.get k (response_cache s) = Some l → is_Some (heap s !! l).

(** Between [s] and [s'] the cache entry for [key] was neither evicted nor
    replaced, and the stored dictionary was not modified. *)
Definition entry_kept (key : string) (s s' : State) : Prop :=
  PyDict.get key (response_cache s') = PyDict.get key (response_cache s)
  ∧ ∀ l, PyDict.get key (response_cache s) = Some l → heap s' !! l = heap s !! l.

(** [s'] is [s] except, possibly, for its two [defaultdict] indexes. *)
Definition same_but_indexes (s s' : State) : Prop :=
  s' = with_devices_by_room (devices_by_room s')
         (with_devices_by_type (devices_by_type s') s).

(** How far the power aggregate is from the sum over the devices that are
    on.  Zero means the aggregate is exact. *)
Definition power_drift (s : State) : Z :=
  power_usage (context s) - power_of_on_devices (devices s).

(** A registry is a dictionary: no key occurs twice. *)
Definition registry_ok (s : State) : Prop := NoDup (PyDict.keys (devices s)).

(** The on/off state a device has after being toggled once for every
    occurrence of its name in a batch. *)
Fixpoint flipped (n : string) (names : list string) (st : bool) : bool :=
  match names with
  | [] => st
  | m :: rest => flipped n rest (if decide (m = n) then negb st else st)
  end.

(** The state [_temperature_regulation] gives to devices of a type. *)
Definition regulation_target (direction : string) (ty : DeviceType) : option bool :=
  if String.eqb direction "increase" || String.eqb direction "heat" then
    match ty with
    | HEATER => Some true
    | FAN | AC => Some false
    | _ => None
    end
  else if String.eqb direction "decrease" || String.eqb direction "cool" then
    match ty with
    | AC | FAN => Some true
    | HEATER => Some false
    | _ => None
    end
  else None.

(** The type index agrees with the registry on every type. *)
Definition types_indexed (s : State) : Prop :=
  ∀ ty, devices_of_type ty s = names_of_type ty (devices s).

(** What a device contributes to the power sum. *)
Definition on_power (d : Device) : Z :=
  if state d then power_consumption d else 0.

(** The response cache is a dictionary of at most 101 entries, each
    referring to an existing object. *)
Definition cache_ok (s : State) : Prop :=
  cache_closed s
  ∧ NoDup (PyDict.keys (response_cache s))
  ∧ (length (response_cache s) ≤ 101)%nat.

(** The text a language-model outcome hands to the parser. *)
Definition reply_text (o : OllamaOutcome) : option string :=
  match o with
  | OllamaError => None
  | OllamaReply response _ _ => response
  end.

(** The cache once [_cache_response] has made room: without its 20 oldest
    entries when it held more than 100. *)
Definition after_eviction (cache : PyDict.t string loc) : PyDict.t string loc :=
  if (100 <? length cache)%nat then drop 20 cache else cache.

(** The assistant when [understand_command] has consulted the language
    model on a cache miss: the miss is counted, the clock was read twice,
    the reply statistics and the inference time are recorded. *)
Definition after_inference (clock : nat → Z) (o : OllamaOutcome) (s : State)
  : State :=
  let s1 := with_performance_stats (count_cache_miss (performance_stats s)) s in
  let '(inference_start, s2) := datetime_now clock s1 in
  let '(response_text, s3) := _get_ollama_response o s2 in
  let '(inference_end, s4) := datetime_now clock s3 in
  with_performance_stats
    (record_inference_time (inference_end - inference_start)
                           (performance_stats s4)) s4.

(** Registered names of a given room, in registry order. *)
Definition names_in_room (r : string) (devs : PyDict.t string Device)
  : list string :=
  map fst (List.filter (fun e => bool_decide (room (snd e) = r)) devs).

(** A device is named in a text: its spaced name or one of its aliases
    occurs in it. *)
Definition named_in (text : string) (n : string) (d : Device) : Prop :=
  PyStr.str_in (PyStr.replace_underscores n) text = true
  ∨ ∃ a, a ∈ aliases d ∧ PyStr.str_in a text = true.



(** ** Example inputs *)

(** A clock and a running assistant (simulation mode) for the concrete
    instances below. *)
Definition example_clock (n : nat) : Z := 1000 + Z.of_nat n.

Definition example_home : State :=
  initial_state true "morning" "Monday" "summer" 1000.

(** Every device switched on: 3100 W against a limit of 3000 W. *)
Definition all_on : State :=
  snd (_control_devices example_clock (PyDict.keys (devices example_home)) true
                        example_home).

(** Only the kitchen light on: 80 W. *)
Definition kitchen_on : State :=
  snd (_control_devices example_clock ["kitchen_light"] true example_home).

(** A reply of the language model, as JSON text:
    an object with the one entry intent = turn_on. *)
Definition example_reply : string :=
  let q := String (ascii_of_nat 34) EmptyString in
  "{" ++ q ++ "intent" ++ q ++ ": " ++ q ++ "turn_on" ++ q ++ "}".

(** [json.loads] on the texts the concrete instances use. *)
Definition example_json (text : string) : loads_result :=
  if String.eqb text example_reply then Loaded (PDict [("intent", PStr "turn_on")])
  else if String.eqb text "[1]" then Loaded (PList [PInt 1])
  else if String.eqb text "{}" then Loaded (PDict [])
  else JSONDecodeError.

(** Calendar functions for the concrete instances: it is always a Tuesday
    evening. *)
Definition example_hour (t : Z) : Z := 19.
Definition example_weekday (t : Z) : string := "Tuesday".

(** The example home in hardware mode, with every device on. *)
Definition all_on_hardware : State :=
  snd (_control_devices example_clock
         (PyDict.keys (devices (initial_state false "evening" "Tuesday" "summer" 1000)))
         true (initial_state false "evening" "Tuesday" "summer" 1000)).

(** The example home on a hot day: 80 degrees against a comfort maximum
    of 76. *)
Definition hot_home : State :=
  with_context
    (mkContext 80 45 85 "morning" "Monday" "summer"
               [("living_room", true); ("bedroom", false); ("kitchen", false)]
               0 false false false 1000)
    example_home.

(** The example home with a full cache: 101 entries under one-character
    keys, all referring to one stored object. *)
Definition full_cache_home : State :=
  with_response_cache
    (map (fun i => (String (ascii_of_nat (32 + i)) EmptyString, 0%nat)) (seq 0 101))
    (with_heap {[ 0%nat := [("intent", PStr "unknown")] ]} example_home).

(** What is between the braces of [example_reply]. *)
Definition example_reply_inner : string :=
  let q := String (ascii_of_nat 34) EmptyString in
  q ++ "intent" ++ q ++ ": " ++ q ++ "turn_on" ++ q.

(** * Properties *)

(** ** Facts about dictionaries *)

Module PyDictFacts.
Import PyDict.
Section Dict.
Context {K : Type} `{EqDecision K} {V : Type}.
Implicit Types (k : K) (v : V) (d : PyDict.t K V).

Lemma get_set_eq k v d : get k (set k v d) = Some v.
Proof.
  induction d as [|[k' v'] r IH]; simpl.
  - by rewrite decide_True.
  - destruct (decide (k = k')) as [->|Hne]; simpl.
    + by rewrite decide_True.
    + by rewrite decide_False.
Qed.

Lemma get_set_ne k k' v d : k ≠ k' → get k' (set k v d) = get k' d.
Proof.
  intros Hne. induction d as [|[k0 v0] r IH]; simpl.
  - by rewrite decide_False.
  - destruct (decide (k = k0)) as [->|Hk]; simpl.
    + by rewrite !(decide_False (P := k' = k0)).
    + destruct (decide (k' = k0)); [done | apply IH].
Qed.

Lemma get_set k k' v d :
  get k' (set k v d) = if decide (k = k') then Some v else get k' d.
Proof.
  destruct (decide (k = k')) as [->|Hne];
    [apply get_set_eq | by apply get_set_ne].
Qed.

Lemma keys_set_present k v d : is_Some (get k d) → keys (set k v d) = keys d.
Proof.
  induction d as [|[k' v'] r IH]; simpl.
  - by intros [? ?].
  - destruct (decide (k = k')); simpl; [done |].
    intros H. by rewrite IH.
Qed.

Lemma set_same k v d : get k d = Some v → set k v d = d.
Proof.
  induction d as [|[k' v'] r IH]; simpl; [done |].
  destruct (decide (k = k')); [congruence |].
  intros H. by rewrite IH.
Qed.

Lemma mem_true k d : mem k d = true ↔ is_Some (get k d).
Proof.
  unfold mem. destruct (get k d); split; eauto; try done.
Qed.

Lemma get_Some_elem k v d : get k d = Some v → (k, v) ∈ d.
Proof.
  induction d as [|[k' v'] r IH]; simpl; [done |].
  destruct (decide (k = k')) as [->|Hne].
  - intros [= ->]. left.
  - intros H. right. by apply IH.
Qed.

Lemma get_Some_key k v d : get k d = Some v → k ∈ keys d.
Proof.
  intros H%get_Some_elem. unfold keys.
  apply list_elem_of_fmap. by exists (k, v).
Qed.

Lemma get_None_key k d : get k d = None ↔ k ∉ keys d.
Proof.
  induction d as [|[k' v'] r IH]; simpl.
  - split; [intros _; apply not_elem_of_nil | done].
  - rewrite not_elem_of_cons. destruct (decide (k = k')) as [->|Hne].
    + split; [done | by intros [? _]].
    + rewrite IH. tauto.
Qed.

End Dict.
End PyDictFacts.

(** ** Facts about strings *)

Module PyStrFacts.
Import PyStr.

Lemma app_cons (c : ascii) (a b : string) : String c a ++ b = String c (a ++ b).
Proof. reflexivity. Qed.

Lemma app_nil_l (b : string) : "" ++ b = b.
Proof. reflexivity. Qed.

Lemma app_assoc (a b c : string) : (a ++ b) ++ c = a ++ (b ++ c).
Proof.
  induction a as [|x a IH]; [done |].
  by rewrite !app_cons, IH.
Qed.

Lemma app_empty_r (a : string) : a ++ "" = a.
Proof. induction a as [|x a IH]; [done |]. by rewrite app_cons, IH. Qed.

Lemma prefix_app (n rest : string) : String.prefix n (n ++ rest) = true.
Proof.
  induction n as [|c n IH].
  - by destruct rest.
  - rewrite app_cons. simpl. destruct (ascii_dec c c); [apply IH | done].
Qed.

Lemma prefix_app_l (n hay after : string) :
  String.prefix n hay = true → String.prefix n (hay ++ after) = true.
Proof.
  revert hay. induction n as [|x n IH]; intros hay H.
  - by destruct (hay ++ after).
  - destruct hay as [|c hay]; [done |].
    rewrite app_cons. simpl in *.
    destruct (ascii_dec x c); [by apply IH | done].
Qed.

Lemma str_in_cons (n : string) (c : ascii) (hay : string) :
  str_in n (String c hay) = String.prefix n (String c hay) || str_in n hay.
Proof. reflexivity. Qed.

Lemma str_in_app_l (n hay after : string) :
  str_in n hay = true → str_in n (hay ++ after) = true.
Proof.
  induction hay as [|c hay IH].
  - simpl. rewrite orb_false_r. intros H.
    destruct n; [by destruct after | done].
  - rewrite app_cons, !str_in_cons.
    intros [Hp|Hr]%orb_true_iff; apply orb_true_iff.
    + left. by apply (prefix_app_l n (String c hay) after).
    + right. by apply IH.
Qed.

Lemma str_in_app_r (n before hay : string) :
  str_in n hay = true → str_in n (before ++ hay) = true.
Proof.
  intros H. induction before as [|c before IH]; [done |].
  rewrite app_cons, str_in_cons, IH. apply orb_true_r.
Qed.

Lemma str_in_refl (n : string) : str_in n n = true.
Proof.
  destruct n as [|c n]; [done |].
  rewrite str_in_cons. rewrite <- (app_empty_r (String c n)) at 2.
  by rewrite prefix_app.
Qed.

(** A string occurs in everything built around it. *)
Lemma str_in_app (n before after : string) :
  str_in n (before ++ n ++ after) = true.
Proof. apply str_in_app_r, str_in_app_l, str_in_refl. Qed.

(** Every part of a joined list occurs in the result. *)
Lemma str_in_join (sep x : string) (parts : list string) :
  x ∈ parts → str_in x (join sep parts) = true.
Proof.
  unfold join. induction parts as [|p parts IH]; [by intros ?%elem_of_nil |].
  intros [->|Hin]%elem_of_cons.
  - destruct parts as [|q parts]; simpl.
    + apply str_in_refl.
    + apply str_in_app_l, str_in_refl.
  - destruct parts as [|q parts]; [by apply elem_of_nil in Hin |].
    change (str_in x (p ++ sep ++ String.concat sep (q :: parts)) = true).
    apply str_in_app_r, str_in_app_r. by apply IH.
Qed.

End PyStrFacts.

(** ** Facts about the device controller *)

Section ControlFacts.
Import PyStr.
Variable clock : nat → Z.

Abbreviation run_loop b names acc := (fold_left (control_one clock b) names acc).

(** What one iteration does: nothing, when the name is settled; otherwise
    exactly one switch. *)
Lemma control_one_cases b acc m :
  let s := loop_state acc in
  (control_one clock b acc m = acc ∧ settled b s m)
  ∨ (∃ d, PyDict.get m (devices s) = Some d ∧ state d = negb b ∧
       control_one clock b acc m =
         mkLoop
           (with_devices
              (PyDict.set m (Device_switch d b (clock (clock_reads s))) (devices s))
              (with_clock_reads (S (clock_reads s))
                 (if gpio_simulation_mode s then s
                  else GPIO_output (pin d) b s)))
           (responses acc ++ [replace_underscores m])%list
           (total_power_change acc
            + (if b then power_consumption d else - power_consumption d))).
Proof.
  intros s. unfold control_one, settled. fold s.
  destruct (PyDict.get m (devices s)) as [d|] eqn:Hget; [| by left].
  destruct (Bool.eqb (state d) b) eqn:Heq; simpl.
  - left. split; [done | by apply Bool.eqb_prop].
  - right. exists d. split; [done |]. split.
    + destruct (state d), b; simpl in *; congruence.
    + by destruct (gpio_simulation_mode s).
Qed.

Lemma control_one_noop b acc m :
  settled b (loop_state acc) m → control_one clock b acc m = acc.
Proof.
  intros H. destruct (control_one_cases b acc m) as [[? _]|(d & Hd & Hs & _)];
    [done |].
  unfold settled in H. rewrite Hd in H. rewrite H in Hs. by destruct b.
Qed.

(** A batch of settled names leaves the loop variables as they were. *)
Lemma run_loop_noop b names acc :
  Forall (settled b (loop_state acc)) names → run_loop b names acc = acc.
Proof.
  induction names as [|m names IH]; simpl; [done |].
  intros [Hm Hrest]%Forall_cons. rewrite (control_one_noop _ _ _ Hm).
  by apply IH.
Qed.

(** The devices of the state an iteration leaves behind. *)
Lemma control_one_devices b acc m :
  let devs := devices (loop_state acc) in
  let devs' := devices (loop_state (control_one clock b acc m)) in
  (devs' = devs ∧ settled b (loop_state acc) m)
  ∨ (∃ d t, PyDict.get m devs = Some d ∧ state d = negb b ∧
            devs' = PyDict.set m (Device_switch d b t) devs).
Proof.
  intros devs devs'. subst devs devs'.
  destruct (control_one_cases b acc m) as [[-> ?]|(d & Hd & Hs & ->)];
    [by left | right].
  exists d, (clock (clock_reads (loop_state acc))).
  repeat split; try done.
Qed.

(** The set of registered names never changes. *)
Lemma control_one_mem b acc m n :
  PyDict.mem n (devices (loop_state (control_one clock b acc m)))
  = PyDict.mem n (devices (loop_state acc)).
Proof.
  destruct (control_one_devices b acc m) as [[-> _]|(d & t & Hd & _ & ->)];
    [done |].
  unfold PyDict.mem. rewrite PyDictFacts.get_set.
  destruct (decide (m = n)) as [<-|]; by rewrite ?Hd.
Qed.

Lemma run_loop_filter b names acc :
  run_loop b names acc
  = run_loop b (List.filter (fun n => PyDict.mem n (devices (loop_state acc))) names) acc.
Proof.
  revert acc. induction names as [|m names IH]; intros acc; [done |].
  simpl. destruct (PyDict.mem m (devices (loop_state acc))) eqn:Hm; simpl.
  - rewrite (IH (control_one clock b acc m)).
    by rewrite (filter_ext _ _ (control_one_mem b acc m)).
  - rewrite control_one_noop; [apply IH |].
    unfold PyDict.mem in Hm. unfold settled. by destruct (PyDict.get m _).
Qed.

(** Where each registered device ends up after the loop: switched once if
    it is named and was in the other state, untouched otherwise. *)
Lemma run_loop_get b names acc n :
  let devs := devices (loop_state acc) in
  let devs' := devices (loop_state (run_loop b names acc)) in
  match PyDict.get n devs with
  | None => PyDict.get n devs' = None
  | Some d =>
      if decide (n ∈ names ∧ state d = negb b)
      then ∃ t, PyDict.get n devs' = Some (Device_switch d b t)
      else PyDict.get n devs' = Some d
  end.
Proof.
  revert acc. induction names as [|m names IH]; intros acc; cbv zeta.
  - change (fold_left _ [] acc) with acc.
    destruct (PyDict.get n _) as [d|]; [| done].
    rewrite decide_False; [done |]. intros [?%elem_of_nil _]. done.
  - specialize (IH (control_one clock b acc m)). cbv zeta in IH.
    change (fold_left ?f (m :: names) acc)
      with (fold_left f names (f acc m)).
    destruct (control_one_devices b acc m) as [[Heq Hset]|(d & t & Hd & Hs & Heq)];
      simpl in Heq; rewrite Heq in IH.
    + destruct (PyDict.get n (devices (loop_state acc))) as [dn|] eqn:Hn; [| done].
      destruct (decide (n ∈ names ∧ state dn = negb b)) as [[Hin Hst]|Hno].
      * rewrite decide_True; [done |]. split; [by right | done].
      * rewrite decide_False; [done |]. intros [[->|Hin]%elem_of_cons Hst].
        -- unfold settled in Hset. rewrite Hn in Hset. rewrite Hset in Hst.
           by destruct b.
        -- apply Hno. by split.
    + rewrite PyDictFacts.get_set in IH.
      destruct (decide (m = n)) as [<-|Hne].
      * rewrite Hd. rewrite decide_True; [| split; [left | done]].
        rewrite decide_False in IH; [by exists t |].
        intros [_ Hst]. simpl in Hst. by destruct b.
      * destruct (PyDict.get n (devices (loop_state acc))) as [dn|] eqn:Hn; [| done].
        destruct (decide (n ∈ names ∧ state dn = negb b)) as [[Hin Hst]|Hno].
        -- rewrite decide_True; [done |]. split; [by right | done].
        -- rewrite decide_False; [done |]. intros [[->|Hin]%elem_of_cons Hst].
           ++ done.
           ++ apply Hno. by split.
Qed.

(** Names of a type are read off the static part of the registry. *)
Lemma names_of_type_switch ty m d b t devs :
  PyDict.get m devs = Some d →
  names_of_type ty (PyDict.set m (Device_switch d b t) devs) = names_of_type ty devs.
Proof.
  unfold names_of_type.
  induction devs as [|[k v] devs IH]; simpl; [done |].
  destruct (decide (m = k)) as [->|Hne]; simpl.
  - intros [= ->]. simpl. by destruct (bool_decide _).
  - intros H. simpl. destruct (bool_decide _); simpl; by rewrite (IH H).
Qed.

Lemma run_loop_names_of_type ty b names acc :
  names_of_type ty (devices (loop_state (run_loop b names acc)))
  = names_of_type ty (devices (loop_state acc)).
Proof.
  revert acc. induction names as [|m names IH]; intros acc; simpl; [done |].
  rewrite IH.
  destruct (control_one_devices b acc m) as [[Heq _]|(d & t & Hd & _ & Heq)];
    simpl in Heq; rewrite Heq; [done |].
  by apply names_of_type_switch.
Qed.

(** The loop only touches the registry, the actuator trace and the clock,
    and only ever extends the list of responses. *)
Lemma control_one_frame b acc m :
  bystanders (loop_state (control_one clock b acc m)) = bystanders (loop_state acc)
  ∧ context (loop_state (control_one clock b acc m)) = context (loop_state acc).
Proof.
  destruct (control_one_cases b acc m) as [[-> _]|(d & Hd & _ & ->)]; [done |].
  clear Hd. unfold bystanders.
  by destruct (loop_state acc) as [? ? ? ? ? ? ? ? ? [] ? ?].
Qed.

Lemma run_loop_frame b names acc :
  bystanders (loop_state (run_loop b names acc)) = bystanders (loop_state acc)
  ∧ context (loop_state (run_loop b names acc)) = context (loop_state acc)
  ∧ ∃ more, responses (run_loop b names acc) = (responses acc ++ more)%list.
Proof.
  revert acc. induction names as [|m names IH]; intros acc; simpl.
  - repeat split. exists []. by rewrite app_nil_r.
  - destruct (IH (control_one clock b acc m)) as (Hb & Hc & more & Hr).
    destruct (control_one_frame b acc m) as [Hb1 Hc1].
    rewrite Hb, Hc, Hb1, Hc1, Hr. repeat split.
    destruct (control_one_cases b acc m) as [[-> _]|(d & Hd & _ & ->)].
    + by exists more.
    + exists (replace_underscores m :: more). simpl. by rewrite <- app_assoc.
Qed.

(** No response means no iteration did anything. *)
Lemma run_loop_quiet b names acc :
  responses (run_loop b names acc) = [] →
  run_loop b names acc = acc ∧ Forall (settled b (loop_state acc)) names.
Proof.
  revert acc. induction names as [|m names IH]; intros acc; simpl; [done |].
  intros Hnil. destruct (IH _ Hnil) as [Heq Hall].
  destruct (run_loop_frame b names (control_one clock b acc m))
    as (_ & _ & more & Hr).
  rewrite Hnil in Hr.
  destruct (control_one_cases b acc m) as [[Hone Hset]|(d & Hd & _ & Hone)].
  - rewrite Hone in Heq, Hall |- *. split; [done | by constructor].
  - rewrite Hone in Hr. simpl in Hr. symmetry in Hr.
    apply app_eq_nil in Hr as [Hr _]. by apply app_eq_nil in Hr as [_ ?].
Qed.

(** A name that is not settled yields a response. *)
Lemma run_loop_loud b names acc n :
  n ∈ names → ¬ settled b (loop_state acc) n →
  responses (run_loop b names acc) ≠ [].
Proof.
  intros Hin Hn Hnil. apply run_loop_quiet in Hnil as [_ Hall].
  rewrite Forall_forall in Hall. by apply Hn, Hall.
Qed.

(** Running the off-loop on a registry that mirrors the one the on-loop
    runs on: both loops switch at the same names, with opposite deltas. *)
Lemma run_loop_mirror names accA accB :
  (∀ n, n ∈ names →
        mirrored (PyDict.get n (devices (loop_state accA)))
                 (PyDict.get n (devices (loop_state accB)))) →
  ∃ more delta,
    responses (run_loop true names accA) = (responses accA ++ more)%list ∧
    responses (run_loop false names accB) = (responses accB ++ more)%list ∧
    total_power_change (run_loop true names accA) = total_power_change accA + delta ∧
    total_power_change (run_loop false names accB) = total_power_change accB - delta.
Proof.
  revert accA accB. induction names as [|m names IH]; intros accA accB Hmir; simpl.
  - exists [], 0. rewrite !app_nil_r. repeat split; lia.
  - assert (Hm := Hmir m (list_elem_of_here _ _)).
    destruct (control_one_cases true accA m) as [[HA HsA]|(dA & HdA & HstA & HA)];
    destruct (control_one_cases false accB m) as [[HB HsB]|(dB & HdB & HstB & HB)].
    + rewrite HA, HB. apply IH. intros n Hn. apply Hmir. by right.
    + exfalso. unfold settled in HsA. rewrite HdB in Hm.
      destruct (PyDict.get m (devices (loop_state accA))) as [dA|]; [| done].
      destruct Hm as [Hst _]. rewrite HsA, HstB in Hst. done.
    + exfalso. unfold settled in HsB. rewrite HdA in Hm.
      destruct (PyDict.get m (devices (loop_state accB))) as [dB|]; [| done].
      destruct Hm as [Hst _]. rewrite HsB, HstA in Hst. done.
    + rewrite HdA, HdB in Hm. destruct Hm as [_ Hpow].
      destruct (IH (control_one clock true accA m) (control_one clock false accB m))
        as (more & delta & H1 & H2 & H3 & H4).
      { intros n Hn. rewrite HA, HB. simpl.
        rewrite !PyDictFacts.get_set.
        destruct (decide (m = n)) as [<-|Hne]; [done |].
        apply Hmir. by right. }
      rewrite HA in H1, H3. rewrite HB in H2, H4. simpl in H1, H2, H3, H4.
      exists (replace_underscores m :: more), (power_consumption dA + delta).
      rewrite HA, HB, H1, H2, H3, H4, <- !app_assoc. simpl.
      repeat split; lia.
Qed.

End ControlFacts.

(** *** The whole of [_control_devices] *)

Section ControlDevicesFacts.
Import PyStr.
Variable clock : nat → Z.

Abbreviation batch_loop b names s :=
  (fold_left (control_one clock b) names (mkLoop s [] 0)).

Lemma control_devices_quiet names b s :
  responses (batch_loop b names s) = [] →
  _control_devices clock names b s = ("No devices were changed.", s).
Proof.
  intros Hnil. unfold _control_devices. rewrite Hnil.
  by apply run_loop_quiet in Hnil as [-> _].
Qed.

(** The report and state of a call that changed something. *)
Lemma control_devices_loud names b s :
  responses (batch_loop b names s) ≠ [] →
  let acc := batch_loop b names s in
  let usage := power_usage (context s) + total_power_change acc in
  let base := "Turned " ++ (if b then "on" else "off") ++ ": "
              ++ join ", " (responses acc) in
  let sized := if 100 <? Z.abs (total_power_change acc)
               then base ++ " (Power change: "
                    ++ fmt_plus_0f (total_power_change acc) ++ "W)"
               else base in
  _control_devices clock names b s
  = (if power_limit (thresholds s) <? usage
     then sized ++ power_warning usage else sized,
     with_context (set_power_usage usage (context s)) (loop_state acc)).
Proof.
  intros Hne. cbv zeta. unfold _control_devices.
  destruct (run_loop_frame clock b names (mkLoop s [] 0)) as (Hb & Hc & _).
  simpl in Hb, Hc.
  destruct (responses (batch_loop b names s)) as [|r rs] eqn:Hr; [done |].
  rewrite Hc. simpl. unfold bystanders in Hb.
  by replace (thresholds (loop_state (batch_loop b names s)))
    with (thresholds s) by congruence.
Qed.

Lemma control_devices_devices names b s :
  devices (snd (_control_devices clock names b s))
  = devices (loop_state (batch_loop b names s)).
Proof.
  unfold _control_devices. by destruct (responses (batch_loop b names s)).
Qed.

Lemma control_devices_frame names b s :
  controller_frame s (snd (_control_devices clock names b s)).
Proof.
  destruct (run_loop_frame clock b names (mkLoop s [] 0)) as (Hb & Hc & _).
  simpl in Hb, Hc. unfold controller_frame, _control_devices.
  destruct (responses (batch_loop b names s)); simpl.
  - rewrite Hb, Hc. split; [done | by destruct (context s)].
  - split; [done |]. rewrite Hc. by destruct (context s).
Qed.

(** Where each registered device ends up after the call. *)
Lemma control_devices_get names b s n :
  match PyDict.get n (devices s) with
  | None => PyDict.get n (devices (snd (_control_devices clock names b s))) = None
  | Some d =>
      if decide (n ∈ names ∧ state d = negb b)
      then ∃ t, PyDict.get n (devices (snd (_control_devices clock names b s)))
                = Some (Device_switch d b t)
      else PyDict.get n (devices (snd (_control_devices clock names b s))) = Some d
  end.
Proof.
  rewrite control_devices_devices.
  apply (run_loop_get clock b names (mkLoop s [] 0) n).
Qed.

(** Every named registered device has the requested state afterwards. *)
Lemma control_devices_applied names b s n d :
  n ∈ names → PyDict.get n (devices s) = Some d →
  ∃ d', PyDict.get n (devices (snd (_control_devices clock names b s))) = Some d'
        ∧ state d' = b.
Proof.
  intros Hin Hd. pose proof (control_devices_get names b s n) as H.
  rewrite Hd in H. destruct (decide _) as [[_ Hst]|Hno].
  - destruct H as [t ->]. by eexists.
  - exists d. split; [done |].
    destruct (decide (state d = b)) as [|Hne]; [done |].
    exfalso. apply Hno. split; [done |]. by destruct (state d), b.
Qed.

(** Devices outside the batch are not touched. *)
Lemma control_devices_other names b s n :
  n ∉ names →
  PyDict.get n (devices (snd (_control_devices clock names b s)))
  = PyDict.get n (devices s).
Proof.
  intros Hin. pose proof (control_devices_get names b s n) as H.
  destruct (PyDict.get n (devices s)) as [d|]; [| done].
  rewrite decide_False in H; [done | by intros [? _]].
Qed.

Lemma control_devices_names_of_type ty names b s :
  names_of_type ty (devices (snd (_control_devices clock names b s)))
  = names_of_type ty (devices s).
Proof.
  rewrite control_devices_devices.
  apply (run_loop_names_of_type clock ty b names (mkLoop s [] 0)).
Qed.

End ControlDevicesFacts.

(** ** Facts about the scene engine *)

Section SceneFacts.
Import PyStr.
Variable clock : nat → Z.

Lemma default_get_again {K} `{EqDecision K} {A} (k : K) (d : PyDict.t K (list A)) :
  PyDict.default_get k (snd (PyDict.default_get k d))
  = (fst (PyDict.default_get k d), snd (PyDict.default_get k d)).
Proof.
  unfold PyDict.default_get.
  destruct (PyDict.get k d) as [v|] eqn:E; simpl.
  - by rewrite E.
  - by rewrite PyDictFacts.get_set_eq.
Qed.

(** A scene step keeps the light index exact and the set of lights fixed. *)
Lemma scene_step_lights s e :
  lights_indexed s →
  lights_indexed (scene_step clock s e)
  ∧ names_of_type LIGHT (devices (scene_step clock s e))
    = names_of_type LIGHT (devices s).
Proof.
  unfold lights_indexed, scene_step. destruct e as [key b]. intros Hidx.
  destruct (decide (key = "all_lights")) as [->|Hkey].
  - pose proof (default_get_again LIGHT (devices_by_type s)) as Hagain.
    destruct (PyDict.default_get LIGHT (devices_by_type s)) as [lights idx] eqn:E.
    simpl in Hidx, Hagain.
    destruct (control_devices_frame clock lights b (with_devices_by_type idx s))
      as [Hb _].
    unfold bystanders in Hb. simpl in Hb.
    rewrite control_devices_names_of_type. simpl.
    split; [| done].
    replace (devices_by_type (snd (_control_devices clock lights b
                                     (with_devices_by_type idx s))))
      with idx by congruence.
    by rewrite Hagain.
  - destruct (PyDict.mem key (devices s)); [| done].
    destruct (control_devices_frame clock [key] b s) as [Hb _].
    unfold bystanders in Hb.
    rewrite control_devices_names_of_type. split; [| done].
    replace (devices_by_type (snd (_control_devices clock [key] b s)))
      with (devices_by_type s) by congruence.
    done.
Qed.

(** An entry that does not reach a device leaves it alone. *)
Lemma scene_step_other s key b n :
  lights_indexed s →
  ¬ covers (names_of_type LIGHT (devices s)) key n →
  PyDict.get n (devices (scene_step clock s (key, b))) = PyDict.get n (devices s).
Proof.
  unfold lights_indexed, covers, scene_step. intros Hidx Hcov.
  destruct (decide (key = "all_lights")) as [->|Hkey].
  - destruct (PyDict.default_get LIGHT (devices_by_type s)) as [lights idx] eqn:E.
    simpl in Hidx. subst lights.
    by rewrite control_devices_other.
  - destruct (PyDict.mem key (devices s)); [| done].
    rewrite control_devices_other; [done |].
    by intros ->%list_elem_of_singleton.
Qed.

(** An entry that reaches a registered device sets its state. *)
Lemma scene_step_hit s key b n d :
  lights_indexed s →
  covers (names_of_type LIGHT (devices s)) key n →
  PyDict.get n (devices s) = Some d →
  ∃ d', PyDict.get n (devices (scene_step clock s (key, b))) = Some d'
        ∧ state d' = b.
Proof.
  unfold lights_indexed, covers, scene_step. intros Hidx Hcov Hd.
  destruct (decide (key = "all_lights")) as [->|Hkey].
  - destruct (PyDict.default_get LIGHT (devices_by_type s)) as [lights idx] eqn:E.
    simpl in Hidx. subst lights.
    by apply (control_devices_applied clock _ b (with_devices_by_type idx s) n d).
  - subst key. unfold PyDict.mem. rewrite Hd.
    apply (control_devices_applied clock [n] b s n d); [left | done].
Qed.

(** Registered devices stay registered through a scene step. *)
Lemma scene_step_registered s e n d :
  PyDict.get n (devices s) = Some d →
  is_Some (PyDict.get n (devices (scene_step clock s e))).
Proof.
  intros Hd. unfold scene_step. destruct e as [key b].
  assert (∀ names s0, PyDict.get n (devices s0) = Some d →
            is_Some (PyDict.get n (devices (snd (_control_devices clock names b s0)))))
    as Hctl.
  { intros names s0 H0. pose proof (control_devices_get clock names b s0 n) as H.
    rewrite H0 in H. destruct (decide _); [destruct H as [t ->] | rewrite H]; eauto. }
  destruct (decide (key = "all_lights")).
  - destruct (PyDict.default_get LIGHT (devices_by_type s)) as [lights idx].
    by apply Hctl.
  - destruct (PyDict.mem key (devices s)); [by apply Hctl | by eexists].
Qed.

Abbreviation run_scene entries s := (fold_left (scene_step clock) entries s).

Lemma run_scene_lights entries s :
  lights_indexed s →
  lights_indexed (run_scene entries s)
  ∧ names_of_type LIGHT (devices (run_scene entries s))
    = names_of_type LIGHT (devices s).
Proof.
  revert s. induction entries as [|e entries IH]; intros s Hidx;
    cbn [fold_left]; [done |].
  destruct (scene_step_lights s e Hidx) as [H1 H2].
  destruct (IH _ H1) as [H3 H4]. split; [done | congruence].
Qed.

(** Entries that do not reach a device leave it alone. *)
Lemma run_scene_other entries s n :
  lights_indexed s →
  Forall (fun e => ¬ covers (names_of_type LIGHT (devices s)) (fst e) n) entries →
  PyDict.get n (devices (run_scene entries s)) = PyDict.get n (devices s).
Proof.
  revert s. induction entries as [|[key b] entries IH]; intros s Hidx Hall;
    cbn [fold_left]; [done |].
  apply List.Forall_cons_iff in Hall as [Hhd Htl]. simpl in Hhd.
  destruct (scene_step_lights s (key, b) Hidx) as [H1 H2].
  rewrite IH; [by apply scene_step_other | done | by rewrite H2].
Qed.

(** The last entry reaching a registered device decides its state. *)
Lemma run_scene_last before key b after s n d :
  lights_indexed s →
  PyDict.get n (devices s) = Some d →
  covers (names_of_type LIGHT (devices s)) key n →
  Forall (fun e => ¬ covers (names_of_type LIGHT (devices s)) (fst e) n) after →
  ∃ d', PyDict.get n (devices (run_scene (before ++ (key, b) :: after) s)) = Some d'
        ∧ state d' = b.
Proof.
  intros Hidx Hd Hcov Hafter. rewrite fold_left_app. cbn [fold_left].
  destruct (run_scene_lights before s Hidx) as [H1 H2].
  assert (is_Some (PyDict.get n (devices (run_scene before s)))) as [d1 Hd1].
  { clear Hcov Hafter H1 H2 Hidx. revert s d Hd.
    induction before as [|e before IH]; intros s d Hd; cbn [fold_left];
      [by eexists |].
    destruct (scene_step_registered s e n d Hd) as [d2 Hd2]. by eapply IH. }
  destruct (scene_step_hit (run_scene before s) key b n d1 H1) as (d' & Hd' & Hst);
    [by rewrite H2 | done |].
  destruct (scene_step_lights (run_scene before s) (key, b) H1) as [H3 H4].
  exists d'. split; [| done].
  rewrite run_scene_other; [done | done |]. by rewrite H4, H2.
Qed.

End SceneFacts.

(** ** Facts about the fallback matcher *)

Section MatcherFacts.
Import PyStr.
Variable lower : string → string.

Lemma with_devices_by_type_same s : with_devices_by_type (devices_by_type s) s = s.
Proof. by destruct s. Qed.

Lemma with_devices_by_room_same s : with_devices_by_room (devices_by_room s) s = s.
Proof. by destruct s. Qed.

(** A [defaultdict] lookup of a present key inserts nothing. *)
Lemma default_get_present {K} `{EqDecision K} {A} (k : K) (d : PyDict.t K (list A)) v :
  PyDict.get k d = Some v → PyDict.default_get k d = (v, d).
Proof. intros H. unfold PyDict.default_get. by rewrite H. Qed.

Lemma extract_frame text s :
  PyDict.mem LIGHT (devices_by_type s) = true →
  snd (_extract_devices_from_text text s) = s.
Proof.
  intros [v Hv]%PyDictFacts.mem_true. unfold _extract_devices_from_text.
  destruct (any_in _ text); [| done].
  destruct (str_in "light" text); [| done].
  rewrite (default_get_present _ _ _ Hv). simpl.
  apply with_devices_by_type_same.
Qed.

Lemma pattern_loop_frame pats text c s :
  PyDict.mem LIGHT (devices_by_type s) = true →
  snd (pattern_loop pats text c s) = s.
Proof.
  intros Hl. induction pats as [|[intent kws] pats IH]; simpl; [done |].
  destruct (any_in kws text); [| done].
  pose proof (extract_frame text s Hl) as Hs.
  destruct (_extract_devices_from_text text s) as [devs s1]. simpl in Hs. subst s1.
  by destruct devs.
Qed.

Lemma light_names_registered devs names :
  forallb (fun d => PyDict.mem d devs) names = true →
  ∃ l, light_names devs names = Ok l.
Proof.
  induction names as [|d names IH]; simpl; [by eexists |].
  intros [Hd Hrest]%andb_true_iff. unfold PyDict.mem in Hd.
  destruct (PyDict.get d devs) as [dev|]; [| done].
  destruct (IH Hrest) as [l ->]. by eexists.
Qed.

Lemma room_loop_frame rooms text c s :
  rooms_ready rooms s = true →
  ∃ r, room_loop rooms text c s = (Ok r, s).
Proof.
  induction rooms as [|[keyword room] rooms IH]; simpl; [by eexists |].
  intros [Hroom Hrest]%andb_true_iff.
  destruct (str_in keyword text); [| by apply IH].
  destruct (PyDict.get room (devices_by_room s)) as [names|] eqn:Hnames; [| done].
  rewrite (default_get_present _ _ _ Hnames), with_devices_by_room_same.
  destruct (str_in "light" text).
  - destruct (light_names_registered _ _ Hroom) as [l ->].
    destruct l; [by apply IH | by eexists].
  - destruct names; [by apply IH | by eexists].
Qed.

(** With the indexes in place the matcher returns an intent and leaves
    the assistant untouched. *)
Lemma fast_pattern_match_frame user_input is_fallback s :
  matcher_ready s = true →
  ∃ i, _fast_pattern_match lower user_input is_fallback s = (Ok i, s).
Proof.
  intros [Hl Hr]%andb_true_iff. unfold _fast_pattern_match.
  destruct (scene_loop _ _ _); [by eexists |].
  pose proof (pattern_loop_frame patterns (lower user_input)
                (if negb is_fallback then 1.0%Q else 0.5%Q) s Hl) as Hp.
  destruct (pattern_loop _ _ _ s) as [[found|] s1]; simpl in Hp; subst s1;
    [by eexists |].
  destruct (room_loop_frame room_keywords (lower user_input)
              (if negb is_fallback then 1.0%Q else 0.5%Q) s Hr) as [r ->].
  destruct r; by eexists.
Qed.

(** *** When nothing matches *)

Lemma scene_loop_none scs text c :
  forallb (fun sc => negb (str_in (replace_underscores (fst sc)) text)) scs = true →
  scene_loop scs text c = None.
Proof.
  induction scs as [|[n sc] scs IH]; simpl; [done |].
  intros [Hn Hrest]%andb_true_iff. apply negb_true_iff in Hn. rewrite Hn.
  by apply IH.
Qed.

Lemma pattern_loop_none pats text c s :
  PyDict.mem LIGHT (devices_by_type s) = true →
  forallb
    (fun p => negb (any_in (snd p) text)
              || match fst (_extract_devices_from_text text s) with
                 | [] => true
                 | _ :: _ => false
                 end) pats = true →
  pattern_loop pats text c s = (None, s).
Proof.
  intros Hl. induction pats as [|[intent kws] pats IH]; simpl; [done |].
  intros [Hp Hrest]%andb_true_iff.
  destruct (any_in kws text); simpl in Hp; [| by apply IH].
  pose proof (extract_frame text s Hl) as Hs.
  destruct (_extract_devices_from_text text s) as [devs s1]. simpl in Hs, Hp.
  subst s1. destruct devs; [by apply IH | done].
Qed.

Lemma room_loop_none rooms text c s :
  forallb (fun kr => negb (str_in (fst kr) text)) rooms = true →
  room_loop rooms text c s = (Ok None, s).
Proof.
  induction rooms as [|[keyword room] rooms IH]; simpl; [done |].
  intros [Hk Hrest]%andb_true_iff. apply negb_true_iff in Hk. rewrite Hk.
  by apply IH.
Qed.

Lemma fast_pattern_match_default user_input is_fallback s :
  PyDict.mem LIGHT (devices_by_type s) = true →
  no_rule_matches (lower user_input) s = true →
  _fast_pattern_match lower user_input is_fallback s
  = (Ok [ ("intent", PStr "unknown"); ("confidence", PFloat 0.1);
          ("reasoning", PStr "No pattern matched") ], s).
Proof.
  intros Hl. unfold no_rule_matches.
  rewrite !andb_true_iff, !negb_true_iff.
  intros [[[[[Hsc Hp] Hr] Hhot] Hcold] Hstatus].
  unfold _fast_pattern_match.
  rewrite (scene_loop_none _ _ _ Hsc), (pattern_loop_none _ _ _ _ Hl Hp),
    (room_loop_none _ _ _ _ Hr).
  unfold tail_rules. by rewrite Hhot, Hcold, Hstatus.
Qed.

End MatcherFacts.

(** *** What the matcher reads *)

Section MatcherView.
Import PyStr.
Variable lower : string → string.

Lemma keys_static devs : PyDict.keys (static_registry devs) = PyDict.keys devs.
Proof.
  unfold PyDict.keys, static_registry. rewrite map_map. by apply map_ext.
Qed.

Lemma get_static k devs :
  PyDict.get k (static_registry devs) = static_device <$> PyDict.get k devs.
Proof.
  induction devs as [|[k' d] devs IH]; simpl; [done |].
  by destruct (decide (k = k')).
Qed.

Lemma named_static text devs :
  map fst (List.filter
             (fun e => any_in (replace_underscores (fst e) :: aliases (snd e)) text)
             (static_registry devs))
  = map fst (List.filter
               (fun e => any_in (replace_underscores (fst e) :: aliases (snd e)) text)
               devs).
Proof.
  induction devs as [|[k d] devs IH]; [done |].
  change (static_registry ((k, d) :: devs))
    with ((k, static_device d) :: static_registry devs).
  cbn [List.filter].
  change (any_in (replace_underscores (fst (k, static_device d))
                    :: aliases (snd (k, static_device d))) text)
    with (any_in (replace_underscores (fst (k, d)) :: aliases (snd (k, d))) text).
  destruct (any_in _ text); cbn [map]; by rewrite IH.
Qed.

Lemma light_names_static devs names :
  light_names (static_registry devs) names = light_names devs names.
Proof.
  induction names as [|d names IH]; simpl; [done |].
  rewrite get_static, IH. by destruct (PyDict.get d devs).
Qed.

Lemma extract_view text s1 s2 :
  matcher_view s1 = matcher_view s2 →
  fst (_extract_devices_from_text text s1) = fst (_extract_devices_from_text text s2)
  ∧ matcher_view (snd (_extract_devices_from_text text s1))
    = matcher_view (snd (_extract_devices_from_text text s2)).
Proof.
  intros Hv. pose proof Hv as Hv'. unfold matcher_view in Hv'.
  injection Hv' as Hsc Hreg Hroom Hty.
  unfold _extract_devices_from_text.
  destruct (any_in _ text).
  - destruct (str_in "light" text).
    + rewrite Hty.
      destruct (PyDict.default_get LIGHT (devices_by_type s2)) as [l idx].
      simpl. split; [done |]. unfold matcher_view. simpl. congruence.
    + cbn [fst snd]. split; [| done].
      by rewrite <- (keys_static (devices s1)), Hreg, keys_static.
  - cbn [fst snd]. split; [| done].
    by rewrite <- (named_static text (devices s1)), Hreg, named_static.
Qed.

Lemma pattern_loop_view pats text c s1 s2 :
  matcher_view s1 = matcher_view s2 →
  fst (pattern_loop pats text c s1) = fst (pattern_loop pats text c s2)
  ∧ matcher_view (snd (pattern_loop pats text c s1))
    = matcher_view (snd (pattern_loop pats text c s2)).
Proof.
  revert s1 s2. induction pats as [|[intent kws] pats IH]; intros s1 s2 Hv;
    simpl; [done |].
  destruct (any_in kws text); [| by apply IH].
  destruct (extract_view text s1 s2 Hv) as [Hd Hv'].
  destruct (_extract_devices_from_text text s1) as [devs1 t1].
  destruct (_extract_devices_from_text text s2) as [devs2 t2].
  simpl in Hd, Hv'. subst devs2.
  destruct devs1; [by apply IH | done].
Qed.

Lemma room_loop_view rooms text c s1 s2 :
  matcher_view s1 = matcher_view s2 →
  fst (room_loop rooms text c s1) = fst (room_loop rooms text c s2)
  ∧ matcher_view (snd (room_loop rooms text c s1))
    = matcher_view (snd (room_loop rooms text c s2)).
Proof.
  revert s1 s2. induction rooms as [|[keyword room] rooms IH]; intros s1 s2 Hv;
    simpl; [done |].
  destruct (str_in keyword text); [| by apply IH].
  pose proof Hv as Hv'. unfold matcher_view in Hv'.
  injection Hv' as Hsc Hreg Hroom Hty.
  rewrite Hroom.
  destruct (PyDict.default_get room (devices_by_room s2)) as [names idx].
  assert (matcher_view (with_devices_by_room idx s1)
          = matcher_view (with_devices_by_room idx s2)) as Hv1
    by (unfold matcher_view; simpl; congruence).
  assert (light_names (devices s1) names = light_names (devices s2) names) as Hln
    by (by rewrite <- (light_names_static (devices s1)), Hreg, light_names_static).
  destruct (str_in "light" text).
  - rewrite Hln.
    destruct (light_names (devices s2) names) as [[|d ds]|e];
      [by apply IH | done | done].
  - destruct names; [by apply IH | done].
Qed.

(** The matcher's answer is a function of the text, the flag and the view. *)
Lemma fast_pattern_match_view user_input is_fallback s1 s2 :
  matcher_view s1 = matcher_view s2 →
  fst (_fast_pattern_match lower user_input is_fallback s1)
  = fst (_fast_pattern_match lower user_input is_fallback s2).
Proof.
  intros Hv. unfold _fast_pattern_match.
  replace (scenes s1) with (scenes s2)
    by (unfold matcher_view in Hv; congruence).
  destruct (scene_loop _ _ _); [done |].
  destruct (pattern_loop_view patterns (lower user_input)
              (if negb is_fallback then 1.0%Q else 0.5%Q) s1 s2 Hv) as [Hp Hv1].
  destruct (pattern_loop _ _ _ s1) as [r1 t1].
  destruct (pattern_loop _ _ _ s2) as [r2 t2].
  simpl in Hp, Hv1. subst r2. destruct r1; [done |].
  destruct (room_loop_view room_keywords (lower user_input)
              (if negb is_fallback then 1.0%Q else 0.5%Q) t1 t2 Hv1) as [Hr _].
  destruct (room_loop _ _ _ t1) as [q1 u1].
  destruct (room_loop _ _ _ t2) as [q2 u2].
  simpl in Hr. subst q2. by destruct q1 as [[?|]|?].
Qed.

(** The device controller does not disturb what the matcher reads. *)
Lemma static_registry_switch m d b t devs :
  PyDict.get m devs = Some d →
  static_registry (PyDict.set m (Device_switch d b t) devs) = static_registry devs.
Proof.
  induction devs as [|[k v] devs IH]; simpl; [done |].
  destruct (decide (m = k)) as [->|Hne]; simpl.
  - by intros [= ->].
  - intros H. by rewrite (IH H).
Qed.

End MatcherView.

(** *** The shape of what the matcher returns *)

Section MatcherShape.
Import PyStr.
Variable lower : string → string.

Lemma scene_loop_shape scs text c i :
  scene_loop scs text c = Some i →
  intent_of i = Some "activate_scene" ∧ confidence_of i = Some c.
Proof.
  induction scs as [|[n sc] scs IH]; simpl; [done |].
  destruct (str_in _ text); [| done]. by intros [= <-].
Qed.

Lemma pattern_loop_shape pats text c s i :
  fst (pattern_loop pats text c s) = Some i →
  ∃ k, k ∈ PyDict.keys pats ∧ intent_of i = Some k
       ∧ reasoning_of i = Some ("Pattern match for " ++ k)
       ∧ confidence_of i = Some c.
Proof.
  revert s. induction pats as [|[intent kws] pats IH]; intros s; simpl; [done |].
  assert (∀ t, fst (pattern_loop pats text c t) = Some i →
               ∃ k, k ∈ intent :: PyDict.keys pats ∧ intent_of i = Some k
                    ∧ reasoning_of i = Some ("Pattern match for " ++ k)
                    ∧ confidence_of i = Some c) as Hrest.
  { intros t Ht. destruct (IH t Ht) as (k & Hk & ?). exists k. split; [by right | done]. }
  destruct (any_in kws text); [| apply Hrest].
  destruct (_extract_devices_from_text text s) as [[|d ds] s1]; [apply Hrest |].
  simpl. intros [= <-]. exists intent. split; [left | done].
Qed.

Lemma room_loop_shape rooms text c s i :
  fst (room_loop rooms text c s) = Ok (Some i) →
  ∃ k room, k ∈ ["turn_on"; "turn_off"] ∧ intent_of i = Some k
            ∧ reasoning_of i = Some ("Room-based command for " ++ room)
            ∧ confidence_of i = Some (c - 0.02)%Q.
Proof.
  revert s. induction rooms as [|[keyword room] rooms IH]; intros s; simpl; [done |].
  destruct (str_in keyword text); [| apply IH].
  destruct (PyDict.default_get room (devices_by_room s)) as [names idx].
  assert (∀ d ds,
            ∃ k room0, k ∈ ["turn_on"; "turn_off"]
              ∧ intent_of
                  [ ("intent", PStr (if any_in turn_on_keywords text
                                     then "turn_on" else "turn_off"));
                    ("devices", PList (map PStr (d :: ds)));
                    ("confidence", PFloat (c - 0.02));
                    ("reasoning", PStr ("Room-based command for " ++ room)) ]
                = Some k
              ∧ reasoning_of
                  [ ("intent", PStr (if any_in turn_on_keywords text
                                     then "turn_on" else "turn_off"));
                    ("devices", PList (map PStr (d :: ds)));
                    ("confidence", PFloat (c - 0.02));
                    ("reasoning", PStr ("Room-based command for " ++ room)) ]
                = Some ("Room-based command for " ++ room0)
              ∧ confidence_of
                  [ ("intent", PStr (if any_in turn_on_keywords text
                                     then "turn_on" else "turn_off"));
                    ("devices", PList (map PStr (d :: ds)));
                    ("confidence", PFloat (c - 0.02));
                    ("reasoning", PStr ("Room-based command for " ++ room)) ]
                = Some (c - 0.02)%Q) as Hfound.
  { intros d ds.
    exists (if any_in turn_on_keywords text then "turn_on" else "turn_off"), room.
    split; [| done].
    destruct (any_in turn_on_keywords text); [left | right; left]. }
  destruct (str_in "light" text).
  - destruct (light_names _ names) as [[|d ds]|e]; [apply IH | | done].
    intros [= <-]. apply Hfound.
  - destruct names as [|d ds]; [apply IH |].
    intros [= <-]. apply Hfound.
Qed.

Lemma tail_rules_shape text :
  (intent_of (tail_rules text) = Some "set_temperature"
   ∧ confidence_of (tail_rules text) = Some 0.8%Q)
  ∨ (intent_of (tail_rules text) = Some "check_status"
     ∧ confidence_of (tail_rules text) = Some 0.9%Q)
  ∨ (intent_of (tail_rules text) = Some "unknown"
     ∧ confidence_of (tail_rules text) = Some 0.1%Q).
Proof.
  unfold tail_rules.
  destruct (any_in ["hot"; "warm"; "sweating"] text); [by left |].
  destruct (any_in ["cold"; "freezing"; "chilly"] text); [by left |].
  destruct (any_in ["status"; "what's on"; "check"; "show"] text);
    [right; by left | right; by right].
Qed.

(** *** The type index built at start-up *)

Lemma default_append_get {K} `{EqDecision K} {A} (k k' : K) (x : A)
    (idx : PyDict.t K (list A)) :
  fst (PyDict.default_get k' (PyDict.default_append k x idx))
  = if decide (k = k')
    then (fst (PyDict.default_get k' idx) ++ [x])%list
    else fst (PyDict.default_get k' idx).
Proof.
  unfold PyDict.default_append, PyDict.default_get.
  destruct (PyDict.get k idx) as [v|] eqn:Hk.
  - rewrite PyDictFacts.get_set.
    destruct (decide (k = k')) as [<-|]; [by rewrite Hk |].
    by destruct (PyDict.get k' idx).
  - rewrite !PyDictFacts.get_set.
    destruct (decide (k = k')) as [<-|]; [by rewrite Hk |].
    by destruct (PyDict.get k' idx).
Qed.

Lemma index_by_type_fold ty devs idx :
  fst (PyDict.default_get ty
         (fold_left (fun idx '(n, d) => PyDict.default_append (device_type d) n idx)
                    devs idx))
  = (fst (PyDict.default_get ty idx) ++ names_of_type ty devs)%list.
Proof.
  revert idx. induction devs as [|[n d] devs IH]; intros idx.
  - simpl. by rewrite app_nil_r.
  - cbn [fold_left]. rewrite IH, default_append_get.
    unfold names_of_type. cbn [List.filter snd].
    destruct (decide (device_type d = ty)) as [Heq|Hne].
    + rewrite bool_decide_eq_true_2 by done. cbn [map fst].
      by rewrite <- app_assoc.
    + by rewrite bool_decide_eq_false_2 by done.
Qed.

(** The type index of [_init_devices] lists, for each type, exactly the
    registered names of that type, in registry order. *)
Lemma index_by_type_exact ty devs :
  fst (PyDict.default_get ty (index_by_type devs)) = names_of_type ty devs.
Proof. unfold index_by_type. by rewrite index_by_type_fold. Qed.

End MatcherShape.

(** ** Facts about the response cache and command interpretation *)

Section MatcherWrites.
Import PyStr.
Variable lower : string → string.

Lemma same_but_indexes_refl s : same_but_indexes s s.
Proof. by destruct s. Qed.

Lemma same_but_indexes_trans s1 s2 s3 :
  same_but_indexes s1 s2 → same_but_indexes s2 s3 → same_but_indexes s1 s3.
Proof.
  unfold same_but_indexes. destruct s1, s2, s3. simpl.
  unfold with_devices_by_room, with_devices_by_type. simpl.
  intros H12 H23. injection H12 as -> -> -> -> -> -> -> -> -> ->.
  injection H23 as -> -> -> -> -> -> -> -> -> ->. done.
Qed.

Lemma same_but_indexes_type idx s : same_but_indexes s (with_devices_by_type idx s).
Proof. by destruct s. Qed.

Lemma same_but_indexes_room idx s : same_but_indexes s (with_devices_by_room idx s).
Proof. by destruct s. Qed.

Lemma extract_writes text s :
  same_but_indexes s (snd (_extract_devices_from_text text s)).
Proof.
  unfold _extract_devices_from_text.
  destruct (any_in _ text); [| apply same_but_indexes_refl].
  destruct (str_in "light" text); [| apply same_but_indexes_refl].
  destruct (PyDict.default_get LIGHT (devices_by_type s)).
  apply same_but_indexes_type.
Qed.

Lemma pattern_loop_writes pats text c s :
  same_but_indexes s (snd (pattern_loop pats text c s)).
Proof.
  revert s. induction pats as [|[intent kws] pats IH]; intros s; simpl;
    [apply same_but_indexes_refl |].
  destruct (any_in kws text); [| apply IH].
  pose proof (extract_writes text s) as He.
  destruct (_extract_devices_from_text text s) as [[|d ds] s1]; simpl in He.
  - eapply same_but_indexes_trans; [exact He | apply IH].
  - done.
Qed.

Lemma room_loop_writes rooms text c s :
  same_but_indexes s (snd (room_loop rooms text c s)).
Proof.
  revert s. induction rooms as [|[keyword room] rooms IH]; intros s; simpl;
    [apply same_but_indexes_refl |].
  destruct (str_in keyword text); [| apply IH].
  destruct (PyDict.default_get room (devices_by_room s)) as [names idx].
  pose proof (same_but_indexes_room idx s) as Hr.
  destruct (str_in "light" text).
  - destruct (light_names _ names) as [[|d ds]|e]; [| done | done].
    eapply same_but_indexes_trans; [exact Hr | apply IH].
  - destruct names as [|d ds]; [| done].
    eapply same_but_indexes_trans; [exact Hr | apply IH].
Qed.

(** Whatever the configuration, the matcher writes nothing but index
    entries. *)
Lemma fast_pattern_match_writes user_input is_fallback s :
  same_but_indexes s (snd (_fast_pattern_match lower user_input is_fallback s)).
Proof.
  unfold _fast_pattern_match.
  destruct (scene_loop _ _ _); [apply same_but_indexes_refl |].
  pose proof (pattern_loop_writes patterns (lower user_input)
                (if negb is_fallback then 1.0%Q else 0.5%Q) s) as Hp.
  destruct (pattern_loop _ _ _ s) as [[found|] s1]; simpl in Hp; [done |].
  pose proof (room_loop_writes room_keywords (lower user_input)
                (if negb is_fallback then 1.0%Q else 0.5%Q) s1) as Hr.
  destruct (room_loop _ _ _ s1) as [[[found|]|e] s2]; simpl in Hr;
    by eapply same_but_indexes_trans.
Qed.

End MatcherWrites.

Section CacheFacts.
Variable clock : nat → Z.
Variable json_loads : string → loads_result.
Variable lower : string → string.
Variable strip : string → string.

Lemma heap_alloc_spec d (h : gmap loc intent_dict) :
  h !! fst (heap_alloc d h) = None
  ∧ snd (heap_alloc d h) = <[fst (heap_alloc d h) := d]> h.
Proof.
  unfold heap_alloc. simpl. split; [| done].
  apply not_elem_of_dom, is_fresh.
Qed.

Lemma heap_setitem_insert l k v d (h : gmap loc intent_dict) :
  heap_setitem l k v (<[l := d]> h) = <[l := PyDict.set k v d]> h.
Proof. unfold heap_setitem. by rewrite alter_insert_eq. Qed.

(** A cache hit: the answer is a new object, the stored entry's content
    with [from_cache] set; cache and stored objects are as before. *)
Lemma understand_command_hit o user_input s entry d :
  PyDict.get (strip (lower user_input)) (response_cache s) = Some entry →
  heap s !! entry = Some d →
  ∃ n s', understand_command clock json_loads lower strip o user_input s = (Ok n, s')
          ∧ heap s !! n = None
          ∧ heap s' = <[n := PyDict.set "from_cache" (PBool true) d]> (heap s)
          ∧ response_cache s' = response_cache s.
Proof.
  intros Hkey Hd. unfold understand_command. rewrite Hkey.
  cbn [heap with_performance_stats].
  destruct (heap_alloc_spec (heap s !!! entry) (heap s)) as [Hfresh Hheap].
  destruct (heap_alloc (heap s !!! entry) (heap s)) as [n h]. simpl in Hfresh, Hheap.
  exists n. eexists. split; [done |]. split; [done |]. split; [| done].
  cbn [heap with_heap]. subst h. unfold heap_setitem.
  rewrite alter_insert_eq. f_equal. f_equal.
  by rewrite lookup_total_alt, Hd.
Qed.

(** Storing a response: the key then refers to a fresh copy of it. *)
Lemma cache_response_spec key a s d :
  heap s !! a = Some d →
  ∃ c, heap s !! c = None
       ∧ PyDict.get key (response_cache (_cache_response key a s)) = Some c
       ∧ heap (_cache_response key a s) = <[c := d]> (heap s).
Proof.
  intros Hd. unfold _cache_response.
  destruct (heap_alloc_spec (heap s !!! a) (heap s)) as [Hfresh Hheap].
  destruct (heap_alloc (heap s !!! a) (heap s)) as [c h]. simpl in Hfresh, Hheap.
  exists c. split; [done |]. cbn [response_cache heap with_heap with_response_cache].
  split; [apply PyDictFacts.get_set_eq |].
  subst h. by rewrite lookup_total_alt, Hd.
Qed.

End CacheFacts.

Section InterpretationFacts.
Variable clock : nat → Z.
Variable json_loads : string → loads_result.
Variable lower : string → string.
Variable strip : string → string.

Lemma get_ollama_response_keeps o s :
  response_cache (snd (_get_ollama_response o s)) = response_cache s
  ∧ heap (snd (_get_ollama_response o s)) = heap s.
Proof.
  destruct o as [|response n t]; simpl; [done |].
  by destruct (negb (n =? 0) && negb (t =? 0)).
Qed.

Lemma same_but_indexes_keeps s s' :
  same_but_indexes s s' →
  response_cache s' = response_cache s ∧ heap s' = heap s.
Proof. unfold same_but_indexes. intros ->. by destruct s. Qed.

(** A cache miss that ends with the key in the cache: the answer and the
    stored entry are two distinct objects with the same content. *)
Lemma understand_command_miss_cached o user_input s a s1 :
  PyDict.get (strip (lower user_input)) (response_cache s) = None →
  understand_command clock json_loads lower strip o user_input s = (Ok a, s1) →
  PyDict.mem (strip (lower user_input)) (response_cache s1) = true →
  ∃ d c, heap s1 !! a = Some d
         ∧ PyDict.get (strip (lower user_input)) (response_cache s1) = Some c
         ∧ heap s1 !! c = Some d
         ∧ a ≠ c.
Proof.
  intros Hkey. unfold understand_command. rewrite Hkey. unfold datetime_now.
  set (s1a := with_clock_reads _ (with_performance_stats _ s)).
  destruct (get_ollama_response_keeps o s1a) as [Hc3 Hh3].
  destruct (_get_ollama_response o s1a) as [response_text s3]. simpl in Hc3, Hh3.
  set (s5 := with_performance_stats _ (with_clock_reads _ s3)).
  assert (response_cache s5 = response_cache s) as Hc5 by (by rewrite <- Hc3).
  assert (heap s5 = heap s) as Hh5 by (by rewrite <- Hh3).
  clearbody s5. clear Hc3 Hh3 s1a.
  destruct (truthy _).
  - destruct (_parse_llm_response json_loads response_text) as [| | | | | |d];
      try done.
    destruct (heap_alloc_spec d (heap s5)) as [Hfresh Hheap].
    destruct (heap_alloc d (heap s5)) as [a0 h]. simpl in Hfresh, Hheap.
    intros [= -> <-] _. subst h.
    rewrite heap_setitem_insert.
    set (d' := PyDict.set "raw_input" (PStr user_input) d).
    destruct (cache_response_spec (strip (lower user_input)) a
                (with_heap (<[a := d']> (heap s5)) s5) d') as (c & Hc & Hget & Hheap').
    { cbn [heap with_heap]. apply lookup_insert_eq. }
    cbn [heap with_heap] in Hc, Hheap'.
    assert (a ≠ c) as Hne by (intros <-; by rewrite lookup_insert_eq in Hc).
    exists d', c. rewrite Hheap'. repeat split; try done.
    + rewrite lookup_insert_ne by done. apply lookup_insert_eq.
    + apply lookup_insert_eq.
  - pose proof (fast_pattern_match_writes lower user_input true s5) as Hw.
    destruct (_fast_pattern_match lower user_input true s5) as [[fallback|e] s6];
      [| done].
    simpl in Hw. apply same_but_indexes_keeps in Hw as [Hc6 Hh6].
    destruct (heap_alloc fallback (heap s6)) as [a0 h].
    intros [= -> <-]. cbn [response_cache with_heap].
    unfold PyDict.mem. by rewrite Hc6, Hc5, Hkey.
Qed.

End InterpretationFacts.

(** * The properties of the specification *)

Section ControllerProperties.
Import PyStr.
Variable clock : nat → Z.

(** C7: unknown device names in a batch are skipped one by one.  The call
    on a batch is the call on the batch with its unregistered names
    removed: same report, same power delta, same resulting state.  An
    unregistered name stays unregistered, and every registered name of the
    batch, whatever unknown names stand before or after it, has the
    requested state afterwards.  (The model is a total function: there is
    no error to raise.) *)
Theorem control_devices_skips_unknown names b s :
  let s' := snd (_control_devices clock names b s) in
  _control_devices clock names b s
  = _control_devices clock
      (List.filter (fun n => PyDict.mem n (devices s)) names) b s
  ∧ (∀ n, PyDict.get n (devices s) = None → PyDict.get n (devices s') = None)
  ∧ (∀ n d, n ∈ names → PyDict.get n (devices s) = Some d →
       ∃ d', PyDict.get n (devices s') = Some d' ∧ state d' = b).
Proof.
  cbv zeta. split; [| split].
  - unfold _control_devices.
    by rewrite (run_loop_filter clock b names (mkLoop s [] 0)).
  - intros n Hn. pose proof (control_devices_get clock names b s n) as H.
    by rewrite Hn in H.
  - intros n d Hin Hd. by apply (control_devices_applied clock names b s n d).
Qed.

(** C9: a batch whose names are all unknown or already in the requested
    state returns exactly "No devices were changed." and leaves the whole
    assistant as it was: no device state or timestamp, no power aggregate,
    no actuator write; in particular no warning, whatever the usage. *)
Theorem control_devices_settled_batch names b s :
  Forall (settled b s) names →
  _control_devices clock names b s = ("No devices were changed.", s).
Proof.
  intros Hall. apply control_devices_quiet.
  by rewrite (run_loop_noop clock b names (mkLoop s [] 0)).
Qed.

(** C8: when a call changes at least one device and the updated power
    aggregate exceeds the limit, the report ends with the warning, and
    every named registered device still has the requested state. *)
Theorem control_devices_power_warning names b s :
  let report := fst (_control_devices clock names b s) in
  let s' := snd (_control_devices clock names b s) in
  (∃ n, n ∈ names ∧ ¬ settled b s n) →
  power_limit (thresholds s') < power_usage (context s') →
  str_in "Warning" report = true
  ∧ (∃ before, report = before ++ power_warning (power_usage (context s')))
  ∧ ∀ n d, n ∈ names → PyDict.get n (devices s) = Some d →
           ∃ d', PyDict.get n (devices s') = Some d' ∧ state d' = b.
Proof.
  intros report s' (n & Hin & Hn) Hlimit.
  assert (responses (fold_left (control_one clock b) names (mkLoop s [] 0)) ≠ []) as Hloud
    by (by apply (run_loop_loud clock b names (mkLoop s [] 0) n)).
  pose proof (control_devices_loud clock names b s Hloud) as Hrun.
  cbv zeta in Hrun. subst report s'. rewrite Hrun in Hlimit |- *. simpl in *.
  apply Z.ltb_lt in Hlimit.
  destruct (run_loop_frame clock b names (mkLoop s [] 0)) as (Hb & _).
  unfold bystanders in Hb. simpl in Hb.
  replace (thresholds (loop_state (fold_left (control_one clock b) names (mkLoop s [] 0))))
    with (thresholds s) in Hlimit by congruence.
  rewrite Hlimit. split; [| split].
  - apply PyStrFacts.str_in_app_r. unfold power_warning.
    apply PyStrFacts.str_in_app_r.
    by apply (PyStrFacts.str_in_app_l "Warning" "⚠️  Warning: Power usage (").
  - by eexists.
  - intros n' d Hin' Hd.
    destruct (control_devices_applied clock names b s n' d Hin' Hd) as (d' & Hd' & Hst).
    exists d'. split; [| done].
    by rewrite control_devices_devices in Hd'.
Qed.

(** C2, as amended: if no named registered device is on to begin with,
    switching the batch on and then off again restores the power
    aggregate. *)
Theorem control_devices_round_trip names s :
  (∀ n d, n ∈ names → PyDict.get n (devices s) = Some d → state d = false) →
  let s1 := snd (_control_devices clock names true s) in
  let s2 := snd (_control_devices clock names false s1) in
  power_usage (context s2) = power_usage (context s).
Proof.
  intros Hoff s1 s2.
  destruct (run_loop_mirror clock names (mkLoop s [] 0) (mkLoop s1 [] 0))
    as (more & delta & H1 & H2 & H3 & H4).
  { intros n Hin. simpl. subst s1.
    pose proof (control_devices_get clock names true s n) as Hget.
    destruct (PyDict.get n (devices s)) as [d|] eqn:Hd; [| by rewrite Hget].
    rewrite decide_True in Hget; [| split; [done | by rewrite (Hoff n d)]].
    destruct Hget as [t ->]. simpl. by rewrite (Hoff n d). }
  simpl in H1, H2, H3, H4.
  destruct more as [|r more].
  - subst s2. rewrite (control_devices_quiet clock names false s1 H2). simpl.
    subst s1. by rewrite (control_devices_quiet clock names true s H1).
  - assert (responses (fold_left (control_one clock true) names (mkLoop s [] 0)) ≠ []) as L1
      by (by rewrite H1).
    assert (responses (fold_left (control_one clock false) names (mkLoop s1 [] 0)) ≠ []) as L2
      by (by rewrite H2).
    pose proof (control_devices_loud clock names true s L1) as R1.
    pose proof (control_devices_loud clock names false s1 L2) as R2.
    cbv zeta in R1, R2. subst s2. rewrite R2. simpl. rewrite H4.
    subst s1. rewrite R1. simpl. rewrite H3. lia.
Qed.

End ControllerProperties.

(** C7 at a concrete input: two strangers around the kitchen light and the
    bedroom air conditioner. *)
Lemma control_devices_skips_unknown_witness :
  let names := ["ghost"; "kitchen_light"; "phantom"; "bedroom_ac"] in
  let s' := snd (_control_devices example_clock names true example_home) in
  PyDict.get "ghost" (devices s') = None
  ∧ ∃ d', PyDict.get "bedroom_ac" (devices s') = Some d' ∧ state d' = true.
Proof.
  intros names s'.
  destruct (control_devices_skips_unknown example_clock names true example_home)
    as (_ & Hunknown & Hknown).
  split; [by apply Hunknown |].
  apply (Hknown "bedroom_ac"
           (Device_new "bedroom_ac" 15 AC ["bedroom ac"; "bedroom air conditioner"]
                       "bedroom" 1200 1000)); [| done].
  by apply (bool_decide_unpack _).
Defined.

(** C9 at a concrete input: with every device on (3100 W against a limit
    of 3000 W), asking for two of them and a stranger to be on changes
    nothing and warns about nothing. *)
Lemma control_devices_settled_batch_witness :
  power_limit (thresholds all_on) < power_usage (context all_on)
  ∧ _control_devices example_clock ["kitchen_light"; "ghost"; "bedroom_ac"] true all_on
    = ("No devices were changed.", all_on).
Proof.
  split; [by vm_compute |].
  apply (control_devices_settled_batch example_clock
           ["kitchen_light"; "ghost"; "bedroom_ac"] true all_on).
  repeat (apply List.Forall_cons; [by vm_compute |]). apply List.Forall_nil.
Defined.

(** C8 at a concrete input: switching everything on from the initial
    state. *)
Lemma control_devices_power_warning_witness :
  PyStr.str_in "Warning"
         (fst (_control_devices example_clock
                 (PyDict.keys (devices example_home)) true example_home)) = true.
Proof.
  apply (control_devices_power_warning example_clock
           (PyDict.keys (devices example_home)) true example_home).
  - exists "kitchen_light". split; [| by vm_compute].
    vm_compute. do 5 right. left.
  - by vm_compute.
Defined.

(** C2 as stated fails: with the kitchen light already on (80 W), on then
    off of that one light ends at 0 W. *)
Lemma control_devices_round_trip_counterexample :
  let s := kitchen_on in
  let s1 := snd (_control_devices example_clock ["kitchen_light"] true s) in
  let s2 := snd (_control_devices example_clock ["kitchen_light"] false s1) in
  power_usage (context s) = 80 ∧ power_usage (context s2) = 0
  ∧ power_usage (context s2) ≠ power_usage (context s).
Proof. by vm_compute. Qed.

(** C2 as amended, at a concrete input. *)
Lemma control_devices_round_trip_witness :
  let s1 := snd (_control_devices example_clock ["kitchen_light"; "ghost"] true example_home) in
  let s2 := snd (_control_devices example_clock ["kitchen_light"; "ghost"] false s1) in
  power_usage (context s2) = power_usage (context example_home).
Proof.
  apply (control_devices_round_trip example_clock ["kitchen_light"; "ghost"] example_home).
  intros n d [->|[->|[]%elem_of_nil]%elem_of_cons]%elem_of_cons;
    vm_compute; by intros [= <-].
Defined.
Section SceneProperties.
Import PyStr.
Variable clock : nat → Z.

(** C6: for a name outside the scene table, [_activate_scene] returns the
    error report listing every registered scene name and changes nothing at
    all (no device state, timestamp or power value).  For a registered name
    it returns the report carrying the scene's description, and it applies
    every entry of the scene: a registered device ends in the state of the
    last entry that reaches it (by its own name, or through ["all_lights"]
    when it is a light-type device), and a device no entry reaches is left
    exactly as it was. *)
Theorem activate_scene_spec scene_name s :
  match PyDict.get scene_name (scenes s) with
  | None =>
      _activate_scene clock scene_name s
      = ("Unknown scene. Available: " ++ join ", " (PyDict.keys (scenes s)), s)
      ∧ ∀ known, known ∈ PyDict.keys (scenes s) →
                 str_in known (fst (_activate_scene clock scene_name s)) = true
  | Some scene =>
      lights_indexed s →
      let lights := names_of_type LIGHT (devices s) in
      let s' := snd (_activate_scene clock scene_name s) in
      fst (_activate_scene clock scene_name s)
      = "Scene '" ++ scene_name ++ "' activated: " ++ description scene
      ∧ ∀ n d, PyDict.get n (devices s) = Some d →
          (∀ before key b after,
              scene_devices scene = (before ++ (key, b) :: after)%list →
              covers lights key n →
              Forall (fun e => ¬ covers lights (fst e) n) after →
              ∃ d', PyDict.get n (devices s') = Some d' ∧ state d' = b)
          ∧ (Forall (fun e => ¬ covers lights (fst e) n) (scene_devices scene) →
             PyDict.get n (devices s') = Some d)
  end.
Proof.
  unfold _activate_scene.
  destruct (PyDict.get scene_name (scenes s)) as [scene|] eqn:Hscene.
  - intros Hidx. split; [done |].
    intros n d Hd. cbn [fst snd]. split.
    + intros before key b after -> Hcov Hafter.
      by apply (run_scene_last clock before key b after s n d).
    + intros Hall. by rewrite (run_scene_other clock _ s n Hidx Hall).
  - split; [done |]. intros known Hin. cbn [fst].
    apply PyStrFacts.str_in_app_r. by apply PyStrFacts.str_in_join.
Qed.

End SceneProperties.

(** C6 at concrete inputs: "party_mode" is rejected with the five scene
    names and no change; "away", applied with every device on, turns the
    garden light off through the group token. *)
Lemma activate_scene_spec_witness :
  _activate_scene example_clock "party_mode" all_on
  = ("Unknown scene. Available: movie_night, dinner, sleep, wake_up, away", all_on)
  ∧ ∃ d', PyDict.get "garden_light"
            (devices (snd (_activate_scene example_clock "away" all_on))) = Some d'
          ∧ state d' = false.
Proof.
  split.
  - pose proof (activate_scene_spec example_clock "party_mode" all_on) as H.
    assert (PyDict.get "party_mode" (scenes all_on) = None) as E by (by vm_compute).
    rewrite E in H. destruct H as [H _]. rewrite H. f_equal.
  - pose proof (activate_scene_spec example_clock "away" all_on) as H.
    assert (PyDict.get "away" (scenes all_on)
            = Some (mkScene [("all_lights", false); ("security_alarm", true);
                             ("front_door_lock", true)]
                            "Security mode when away")) as E by (by vm_compute).
    rewrite E in H.
    assert (lights_indexed all_on) as Hidx by (by vm_compute).
    destruct (H Hidx) as [_ Hdev].
    assert (∃ d, PyDict.get "garden_light" (devices all_on) = Some d) as [d Hd].
    { vm_compute. by eexists. }
    destruct (Hdev "garden_light" d Hd) as [Hlast _].
    apply (Hlast [] "all_lights" false
                 [("security_alarm", true); ("front_door_lock", true)]).
    + reflexivity.
    + unfold covers. rewrite decide_True by done. vm_compute. do 3 right. left.
    + repeat (apply List.Forall_cons; [unfold covers; by vm_compute |]).
      apply List.Forall_nil.
Defined.
Section MatcherProperties.
Import PyStr.
Variable lower : string → string.

(** C4: on a configuration whose indexes are in place (as they are after
    start-up), [_fast_pattern_match] always returns an intent, never
    raises, and hands back the assistant exactly as it received it: no
    device, context, cache, counter or index entry is written.  Its answer
    depends on the text, the flag and the fixed configuration only: two
    assistants that agree on the scene table, the immutable part of the
    registry and the indexes get identical intents, whatever their device
    states, context, cache and counters.  When no rule applies the answer is
    the intent 'unknown' with confidence 0.1. *)
Theorem fast_pattern_match_pure user_input is_fallback s :
  matcher_ready s = true →
  (∃ i, _fast_pattern_match lower user_input is_fallback s = (Ok i, s))
  ∧ (∀ s2, matcher_view s2 = matcher_view s →
           fst (_fast_pattern_match lower user_input is_fallback s2)
           = fst (_fast_pattern_match lower user_input is_fallback s))
  ∧ (no_rule_matches (lower user_input) s = true →
     fst (_fast_pattern_match lower user_input is_fallback s)
     = Ok [ ("intent", PStr "unknown"); ("confidence", PFloat 0.1);
            ("reasoning", PStr "No pattern matched") ]).
Proof.
  intros Hready. split; [| split].
  - by apply fast_pattern_match_frame.
  - intros s2 Hv. by apply fast_pattern_match_view.
  - intros Hno. apply andb_true_iff in Hready as [Hl _].
    by rewrite (fast_pattern_match_default lower user_input is_fallback s Hl Hno).
Qed.

(** C5, as amended: the confidence of the returned intent is the base
    value (1.0, or 0.5 on a fallback call) for scene and direct keyword
    matches, the base value minus 0.02 for room-based matches, 0.8 for
    'set_temperature', 0.9 for 'check_status' and 0.1 for 'unknown'. *)
Theorem fast_pattern_match_confidence user_input is_fallback s i :
  fst (_fast_pattern_match lower user_input is_fallback s) = Ok i →
  let base := base_confidence is_fallback in
  (intent_of i = Some "activate_scene" ∧ confidence_of i = Some base)
  ∨ (∃ k, k ∈ ["turn_on"; "turn_off"; "toggle"] ∧ intent_of i = Some k
          ∧ reasoning_of i = Some ("Pattern match for " ++ k)
          ∧ confidence_of i = Some base)
  ∨ (∃ k room, k ∈ ["turn_on"; "turn_off"] ∧ intent_of i = Some k
          ∧ reasoning_of i = Some ("Room-based command for " ++ room)
          ∧ confidence_of i = Some (base - 0.02)%Q)
  ∨ (intent_of i = Some "set_temperature" ∧ confidence_of i = Some 0.8%Q)
  ∨ (intent_of i = Some "check_status" ∧ confidence_of i = Some 0.9%Q)
  ∨ (intent_of i = Some "unknown" ∧ confidence_of i = Some 0.1%Q).
Proof.
  unfold _fast_pattern_match, base_confidence.
  destruct (scene_loop _ _ _) as [found|] eqn:Hscene.
  { intros [= <-]. left. by apply (scene_loop_shape _ _ _ _ Hscene). }
  destruct (pattern_loop _ _ _ s) as [[found|] s1] eqn:Hpat.
  { intros [= <-]. right. left.
    apply (pattern_loop_shape patterns (lower user_input) _ s).
    by rewrite Hpat. }
  destruct (room_loop _ _ _ s1) as [[[found|]|e] s2] eqn:Hroom.
  - intros [= <-]. right. right. left.
    apply (room_loop_shape room_keywords (lower user_input) _ s1).
    by rewrite Hroom.
  - intros [= <-]. do 3 right. apply tail_rules_shape.
  - done.
Qed.

(** C10: a text that contains "all", "everything" or "entire" anywhere,
    also inside a longer word, makes [_extract_devices_from_text] return
    every light-type device when "light" occurs in the text and every
    registered device otherwise; names and aliases are not consulted. *)
Theorem extract_devices_all_keyword text s kw before after :
  lights_indexed s →
  kw ∈ ["all"; "everything"; "entire"] →
  text = before ++ kw ++ after →
  fst (_extract_devices_from_text text s)
  = if str_in "light" text
    then names_of_type LIGHT (devices s)
    else PyDict.keys (devices s).
Proof.
  intros Hidx Hkw ->. unfold _extract_devices_from_text.
  assert (any_in ["all"; "everything"; "entire"] (before ++ kw ++ after) = true)
    as ->.
  { unfold any_in. apply existsb_exists. exists kw.
    split; [by apply list_elem_of_In | apply PyStrFacts.str_in_app]. }
  destruct (str_in "light" _); [| done].
  unfold lights_indexed in Hidx.
  by destruct (PyDict.default_get LIGHT (devices_by_type s)).
Qed.

End MatcherProperties.

(** C4 at a concrete input. *)
Lemma fast_pattern_match_pure_witness :
  _fast_pattern_match PyStr.lower_ascii "What is the meaning of life?" true all_on
  = (Ok [ ("intent", PStr "unknown"); ("confidence", PFloat 0.1);
          ("reasoning", PStr "No pattern matched") ], all_on).
Proof.
  assert (matcher_ready all_on = true) as Hready by (by vm_compute).
  destruct (fast_pattern_match_pure PyStr.lower_ascii "What is the meaning of life?" true all_on Hready)
    as ([i Hi] & _ & Hdefault).
  rewrite Hi in Hdefault |- *. simpl in Hdefault.
  f_equal. apply Hdefault. by vm_compute.
Defined.

(** C5 as stated fails: "it is hot" is answered with 'set_temperature' at
    confidence 0.8, which is neither 1.0 nor 1.0 - 0.02, and the intent is
    not 'unknown'. *)
Lemma fast_pattern_match_confidence_counterexample :
  ∃ i, fst (_fast_pattern_match PyStr.lower_ascii "it is hot" false example_home) = Ok i
       ∧ intent_of i = Some "set_temperature"
       ∧ confidence_of i = Some 0.8%Q
       ∧ ¬ (0.8 == base_confidence false)%Q
       ∧ ¬ (0.8 == base_confidence false - 0.02)%Q.
Proof.
  eexists. split; [by vm_compute |]. repeat split; by vm_compute.
Qed.

(** C5 as amended, at a concrete input: a room-based match on a fallback
    call. *)
Lemma fast_pattern_match_confidence_witness :
  let i := [ ("intent", PStr "turn_off");
             ("devices", PList [PStr "kitchen_light"; PStr "kitchen_exhaust"]);
             ("confidence", PFloat (0.5 - 0.02));
             ("reasoning", PStr "Room-based command for kitchen") ] in
  let base := base_confidence true in
  (intent_of i = Some "activate_scene" ∧ confidence_of i = Some base)
  ∨ (∃ k, k ∈ ["turn_on"; "turn_off"; "toggle"] ∧ intent_of i = Some k
          ∧ reasoning_of i = Some ("Pattern match for " ++ k)
          ∧ confidence_of i = Some base)
  ∨ (∃ k room, k ∈ ["turn_on"; "turn_off"] ∧ intent_of i = Some k
          ∧ reasoning_of i = Some ("Room-based command for " ++ room)
          ∧ confidence_of i = Some (base - 0.02)%Q)
  ∨ (intent_of i = Some "set_temperature" ∧ confidence_of i = Some 0.8%Q)
  ∨ (intent_of i = Some "check_status" ∧ confidence_of i = Some 0.9%Q)
  ∨ (intent_of i = Some "unknown" ∧ confidence_of i = Some 0.1%Q).
Proof.
  apply (fast_pattern_match_confidence PyStr.lower_ascii "kitchen please" true example_home).
  by vm_compute.
Defined.

(** C10 at a concrete input: the "all" inside "hallway". *)
Lemma extract_devices_all_keyword_witness :
  fst (_extract_devices_from_text "turn on the hallway lamp" example_home)
  = PyDict.keys (devices example_home).
Proof.
  assert (lights_indexed example_home) as Hidx by (by vm_compute).
  rewrite (extract_devices_all_keyword "turn on the hallway lamp" example_home
             "all" "turn on the h" "way lamp" Hidx); [done | left | done].
Defined.
Section CacheProperties.
Variable clock : nat → Z.
Variable json_loads : string → loads_result.
Variable lower : string → string.
Variable strip : string → string.

(** C1: if a call of [understand_command] returns an intent that is in the
    cache afterwards (it came from the language model, or from the cache
    itself; fallback intents are never stored), and the entry is still
    there, untouched, when a second call arrives with a text that has the
    same normalised form, then the second call returns an intent whose
    [from_cache] field is [True] and whose other fields equal those of the
    first result.  The answer is a new object: the cache is the same after
    the hit, and the stored dictionary is not modified. *)
Theorem understand_command_cached_twice o1 o2 text1 text2 s a s1 s1' :
  cache_closed s →
  strip (lower text2) = strip (lower text1) →
  understand_command clock json_loads lower strip o1 text1 s = (Ok a, s1) →
  PyDict.mem (strip (lower text1)) (response_cache s1) = true →
  entry_kept (strip (lower text1)) s1 s1' →
  ∃ entry stored first n s2 second,
    PyDict.get (strip (lower text1)) (response_cache s1) = Some entry
    ∧ heap s1 !! entry = Some stored
    ∧ heap s1 !! a = Some first
    ∧ understand_command clock json_loads lower strip o2 text2 s1' = (Ok n, s2)
    ∧ heap s2 !! n = Some second
    ∧ PyDict.get "from_cache" second = Some (PBool true)
    ∧ (∀ k, k ≠ "from_cache" → PyDict.get k second = PyDict.get k first)
    ∧ n ≠ entry
    ∧ response_cache s2 = response_cache s1'
    ∧ heap s2 !! entry = Some stored.
Proof.
  intros Hclosed Hsame Hfirst Hcached [Hkept_key Hkept_obj].
  set (key := strip (lower text1)) in *.
  assert (∃ entry stored first,
            PyDict.get key (response_cache s1) = Some entry
            ∧ heap s1 !! entry = Some stored
            ∧ heap s1 !! a = Some first
            ∧ ∀ k, k ≠ "from_cache" →
                   PyDict.get k (PyDict.set "from_cache" (PBool true) stored)
                   = PyDict.get k first)
    as (entry & stored & first & Hentry & Hstored & Hfirst_obj & Hfields).
  { destruct (PyDict.get key (response_cache s)) as [entry|] eqn:Hkey.
    - destruct (Hclosed key entry Hkey) as [d Hd].
      destruct
          (understand_command_hit clock json_loads lower strip o1 text1 s entry d Hkey Hd)
        as (n & s' & Hrun & Hfresh & Hheap & Hcache).
      rewrite Hfirst in Hrun. injection Hrun as <- <-.
      exists entry, d, (PyDict.set "from_cache" (PBool true) d).
      rewrite Hcache, Hheap. repeat split; try done.
      + rewrite lookup_insert_ne; [done |]. intros <-. by rewrite Hfresh in Hd.
      + apply lookup_insert_eq.
    - destruct (understand_command_miss_cached clock json_loads lower strip o1 text1 s a s1
                  Hkey Hfirst Hcached) as (d & c & Ha & Hc & Hcd & _).
      exists c, d, d. repeat split; try done.
      intros k Hk. by rewrite PyDictFacts.get_set_ne. }
  exists entry, stored, first.
  assert (PyDict.get (strip (lower text2)) (response_cache s1') = Some entry)
    as Hkey2 by (by rewrite Hsame, Hkept_key).
  assert (heap s1' !! entry = Some stored) as Hobj2
    by (by rewrite (Hkept_obj entry Hentry)).
  destruct
      (understand_command_hit clock json_loads lower strip o2 text2 s1' entry stored Hkey2 Hobj2)
    as (n & s2 & Hrun & Hfresh & Hheap & Hcache).
  exists n, s2, (PyDict.set "from_cache" (PBool true) stored).
  assert (n ≠ entry) as Hne by (intros ->; by rewrite Hfresh in Hobj2).
  rewrite Hheap. repeat split; try done.
  - apply lookup_insert_eq.
  - apply PyDictFacts.get_set_eq.
  - by rewrite lookup_insert_ne.
Qed.

End CacheProperties.

(** C1 at a concrete input: the model answers the first call; the second
    call, with other spacing and case and no model at hand, is served from
    the cache. *)
Lemma understand_command_cached_twice_witness :
  let first_call :=
    understand_command example_clock example_json PyStr.lower_ascii PyStr.strip_ascii
      (OllamaReply (Some example_reply) 12 3400) "  Lights ON " example_home in
  ∃ n s2 second,
    understand_command example_clock example_json
        PyStr.lower_ascii PyStr.strip_ascii OllamaError "lights on"
      (snd first_call) = (Ok n, s2)
    ∧ heap s2 !! n = Some second
    ∧ PyDict.get "from_cache" second = Some (PBool true)
    ∧ PyDict.get "intent" second = Some (PStr "turn_on").
Proof.
  intros first_call.
  assert (∃ a s1, first_call = (Ok a, s1)) as (a & s1 & Hrun)
    by (vm_compute; by do 2 eexists).
  destruct (understand_command_cached_twice example_clock example_json
      PyStr.lower_ascii PyStr.strip_ascii
              (OllamaReply (Some example_reply) 12 3400) OllamaError
              "  Lights ON " "lights on" example_home a s1 s1)
    as (entry & stored & first & n & s2 & second
        & _ & _ & Hfirst & Hsecond & Hn & Hflag & Hfields & _).
  - intros k l Hk. by vm_compute in Hk.
  - by vm_compute.
  - exact Hrun.
  - replace s1 with (snd first_call) by (by rewrite Hrun). by vm_compute.
  - by split.
  - exists n, s2, second. rewrite Hrun. cbn [snd].
    repeat split; try done.
    rewrite Hfields by done.
    assert (fst first_call = Ok 0%nat) as Hzero by (by vm_compute).
    assert (heap (snd first_call) !! 0%nat
            = Some [("intent", PStr "turn_on"); ("raw_input", PStr "  Lights ON ")])
      as Hobj by (by vm_compute).
    rewrite Hrun in Hzero, Hobj. cbn [fst snd] in Hzero, Hobj.
    injection Hzero as ->.
    pose proof (eq_trans (eq_sym Hfirst) Hobj) as E. by injection E as ->.
Defined.

(** * Further properties of the code *)

(** ** Power accounting *)

Section PowerFacts.
Variable clock : nat → Z.

Lemma fold_left_add_shift (l : list Z) (a : Z) :
  fold_left Z.add l a = a + fold_left Z.add l 0.
Proof.
  revert a. induction l as [|x l IH]; intros a; cbn [fold_left]; [lia |].
  rewrite (IH (a + x)), (IH (0 + x)). lia.
Qed.

Lemma power_of_on_devices_cons k d devs :
  power_of_on_devices ((k, d) :: devs) = on_power d + power_of_on_devices devs.
Proof.
  unfold power_of_on_devices, on_power, PyDict.values. simpl.
  destruct (state d); simpl; [| done].
  by rewrite fold_left_add_shift.
Qed.

Lemma power_of_on_devices_set m d d' devs :
  PyDict.get m devs = Some d →
  power_of_on_devices (PyDict.set m d' devs)
  = power_of_on_devices devs - on_power d + on_power d'.
Proof.
  induction devs as [|[k v] devs IH]; simpl; [done |].
  destruct (decide (m = k)) as [->|Hne].
  - intros [= ->]. rewrite !power_of_on_devices_cons. lia.
  - intros H. rewrite !power_of_on_devices_cons, (IH H). lia.
Qed.

(** Along the loop, the collected delta is exactly the change of the sum
    over the devices that are on. *)
Lemma run_loop_power b names acc :
  power_of_on_devices (devices (loop_state (fold_left (control_one clock b) names acc)))
  - total_power_change (fold_left (control_one clock b) names acc)
  = power_of_on_devices (devices (loop_state acc)) - total_power_change acc.
Proof.
  revert acc. induction names as [|m names IH]; intros acc; cbn [fold_left]; [done |].
  rewrite IH.
  destruct (control_one_cases clock b acc m) as [[-> _]|(d & Hd & Hst & ->)]; [done |].
  cbn [loop_state total_power_change devices with_devices].
  rewrite (power_of_on_devices_set m d _ _ Hd).
  unfold on_power. cbn [state power_consumption Device_switch]. rewrite Hst.
  destruct b; simpl; lia.
Qed.

Lemma control_devices_power_drift names b s :
  power_drift (snd (_control_devices clock names b s)) = power_drift s.
Proof.
  unfold power_drift.
  destruct (responses (fold_left (control_one clock b) names (mkLoop s [] 0)))
    as [|r rs] eqn:Hr.
  - by rewrite (control_devices_quiet clock names b s Hr).
  - assert (responses (fold_left (control_one clock b) names (mkLoop s [] 0)) ≠ [])
      as Hloud by (by rewrite Hr).
    pose proof (control_devices_loud clock names b s Hloud) as Hrun.
    cbv zeta in Hrun. rewrite Hrun. cbn [snd context with_context devices].
    pose proof (run_loop_power b names (mkLoop s [] 0)) as Hp.
    cbn [loop_state total_power_change] in Hp.
    cbn [power_usage set_power_usage]. lia.
Qed.

End PowerFacts.

(** ** More on the device controller *)

Section ControllerMore.
Variable clock : nat → Z.

Lemma run_loop_static b names acc :
  static_registry (devices (loop_state (fold_left (control_one clock b) names acc)))
  = static_registry (devices (loop_state acc)).
Proof.
  revert acc. induction names as [|m names IH]; intros acc; cbn [fold_left]; [done |].
  rewrite IH.
  destruct (control_one_devices clock b acc m) as [[Heq _]|(d & t & Hd & _ & Heq)];
    cbv zeta in Heq; rewrite Heq; [done |].
  by apply static_registry_switch.
Qed.

Lemma control_devices_static names b s :
  static_registry (devices (snd (_control_devices clock names b s)))
  = static_registry (devices s).
Proof.
  rewrite control_devices_devices.
  apply (run_loop_static b names (mkLoop s [] 0)).
Qed.

Lemma keys_of_static devs1 devs2 :
  static_registry devs1 = static_registry devs2 →
  PyDict.keys devs1 = PyDict.keys devs2.
Proof. intros H. by rewrite <- (keys_static devs1), H, keys_static. Qed.

(** After a call every name of the batch is settled. *)
Lemma control_devices_settles names b s :
  Forall (settled b (snd (_control_devices clock names b s))) names.
Proof.
  apply Forall_forall. intros n Hin. unfold settled.
  pose proof (control_devices_get clock names b s n) as Hget.
  destruct (PyDict.get n (devices s)) as [d|] eqn:Hd.
  - destruct (control_devices_applied clock names b s n d Hin Hd) as (d' & -> & Hst).
    done.
  - by rewrite Hget.
Qed.

(** The actuator trace along the loop: it only grows, stays as it is in
    simulation mode, and every new write carries the requested level and
    the pin of a named registered device. *)
Lemma run_loop_gpio b names acc :
  ∃ writes,
    gpio_log (loop_state (fold_left (control_one clock b) names acc))
    = (gpio_log (loop_state acc) ++ writes)%list
    ∧ (gpio_simulation_mode (loop_state acc) = true → writes = [])
    ∧ Forall (fun w => snd w = b
                       ∧ ∃ n d, n ∈ names
                                ∧ PyDict.get n (static_registry (devices (loop_state acc)))
                                  = Some (static_device d)
                                ∧ pin d = fst w) writes.
Proof.
  revert acc. induction names as [|m names IH]; intros acc; cbn [fold_left].
  - exists []. rewrite app_nil_r. by repeat split.
  - destruct (IH (control_one clock b acc m)) as (writes & Hlog & Hsim & Hall).
    assert (Forall (fun w => snd w = b
                       ∧ ∃ n d, n ∈ m :: names
                                ∧ PyDict.get n (static_registry (devices (loop_state acc)))
                                  = Some (static_device d)
                                ∧ pin d = fst w) writes) as Hall'.
    { eapply Forall_impl; [exact Hall |]. intros w [Hw (n & d & Hn & Hd & Hp)].
      split; [done |]. exists n, d. split; [by right |]. split; [| done].
      rewrite <- Hd. f_equal.
      destruct (control_one_devices clock b acc m) as [[Heq _]|(d0 & t & Hd0 & _ & Heq)];
        cbv zeta in Heq; rewrite Heq; [done |].
      symmetry. by apply static_registry_switch. }
    destruct (control_one_cases clock b acc m) as [[Hone _]|(d & Hd & _ & Hone)];
      rewrite Hone in Hlog, Hsim |- *.
    + exists writes. by repeat split.
    + cbn [loop_state] in Hlog, Hsim.
      destruct (gpio_simulation_mode (loop_state acc)) eqn:Hmode.
      * exists writes. cbn in Hlog, Hsim. rewrite Hmode in Hsim. by repeat split.
      * exists ((pin d, b) :: writes). cbn in Hlog. rewrite Hlog, <- app_assoc.
        split; [done |]. split; [done |].
        apply List.Forall_cons; [| done]. split; [done |].
        exists m, d. split; [left |]. split; [| done].
        by rewrite get_static, Hd.
Qed.

End ControllerMore.

(** ** Toggling *)

Section ToggleFacts.
Variable clock : nat → Z.

Lemma flipped_xor n names st :
  flipped n names st = xorb st (flipped n names false).
Proof.
  revert st. induction names as [|m names IH]; intros st; simpl.
  - by destruct st.
  - destruct (decide (m = n)).
    + rewrite (IH (negb st)), (IH true). by destruct st, (flipped n names false).
    + apply IH.
Qed.

Lemma flipped_twice n names st : flipped n names (flipped n names st) = st.
Proof.
  rewrite (flipped_xor n names (flipped n names st)), (flipped_xor n names st).
  by destruct st, (flipped n names false).
Qed.

(** One toggle step: a registered name gets exactly one switch to the
    opposite state; an unknown name changes nothing. *)
Lemma toggle_one_state s rs m :
  let s' := fst (toggle_one clock (s, rs) m) in
  static_registry (devices s') = static_registry (devices s)
  ∧ power_drift s' = power_drift s
  ∧ bystanders s' = bystanders s
  ∧ ∀ n, state <$> PyDict.get n (devices s')
         = (fun st => if decide (m = n) then negb st else st)
             <$> (state <$> PyDict.get n (devices s)).
Proof.
  unfold toggle_one. destruct (PyDict.get m (devices s)) as [d|] eqn:Hd; cbn [fst].
  - split; [apply control_devices_static |].
    split; [apply control_devices_power_drift |].
    split; [apply control_devices_frame |].
    intros n. pose proof (control_devices_get clock [m] (negb (state d)) s n) as Hget.
    destruct (decide (m = n)) as [<-|Hne].
    + rewrite Hd in Hget |- *. rewrite decide_True in Hget.
      * destruct Hget as [t ->]. done.
      * split; [left | by rewrite negb_involutive].
    + destruct (PyDict.get n (devices s)) as [dn|]; [| by rewrite Hget].
      rewrite decide_False in Hget; [by rewrite Hget |].
      intros [Hin _]. apply list_elem_of_singleton in Hin. congruence.
  - repeat split; try done. intros n.
    destruct (decide (m = n)) as [<-|]; [by rewrite Hd |].
    by destruct (PyDict.get n (devices s)) as [dn|].
Qed.

Lemma toggle_fold_state names s rs :
  let s' := fst (fold_left (toggle_one clock) names (s, rs)) in
  static_registry (devices s') = static_registry (devices s)
  ∧ power_drift s' = power_drift s
  ∧ bystanders s' = bystanders s
  ∧ ∀ n, state <$> PyDict.get n (devices s')
         = flipped n names <$> (state <$> PyDict.get n (devices s)).
Proof.
  revert s rs. induction names as [|m names IH]; intros s rs; cbn [fold_left fst].
  - repeat split; try done. intros n. by destruct (PyDict.get n (devices s)).
  - destruct (toggle_one clock (s, rs) m) as [s1 rs1] eqn:Hone.
    pose proof (toggle_one_state s rs m) as (H1 & H2 & H3 & H4).
    rewrite Hone in H1, H2, H3, H4. cbn [fst] in H1, H2, H3, H4.
    destruct (IH s1 rs1) as (I1 & I2 & I3 & I4).
    split; [congruence |]. split; [congruence |]. split; [congruence |].
    intros n. rewrite I4, H4. simpl.
    by destruct (PyDict.get n (devices s)) as [dn|].
Qed.

Lemma toggle_devices_state names s :
  let s' := snd (_toggle_devices clock names s) in
  static_registry (devices s') = static_registry (devices s)
  ∧ power_drift s' = power_drift s
  ∧ bystanders s' = bystanders s
  ∧ ∀ n, state <$> PyDict.get n (devices s')
         = flipped n names <$> (state <$> PyDict.get n (devices s)).
Proof.
  unfold _toggle_devices. destruct names as [|m names]; cbn [snd].
  - repeat split; try done. intros n. by destruct (PyDict.get n (devices s)).
  - pose proof (toggle_fold_state (m :: names) s []) as H.
    by destruct (fold_left (toggle_one clock) (m :: names) (s, [])) as [s1 rs1].
Qed.

(** With unique keys the power sum is a function of the static registry
    and the on/off state of each name. *)
Lemma power_of_on_devices_ext devs1 devs2 :
  NoDup (PyDict.keys devs1) →
  static_registry devs1 = static_registry devs2 →
  (∀ n, state <$> PyDict.get n devs1 = state <$> PyDict.get n devs2) →
  power_of_on_devices devs1 = power_of_on_devices devs2.
Proof.
  revert devs2. induction devs1 as [|[k d1] devs1 IH]; intros [|[k2 d2] devs2];
    try done.
  intros Hnd Hst Hget.
  change (static_registry ((k, d1) :: devs1))
    with ((k, static_device d1) :: static_registry devs1) in Hst.
  change (static_registry ((k2, d2) :: devs2))
    with ((k2, static_device d2) :: static_registry devs2) in Hst.
  pose proof (f_equal (fun l => fst <$> head l) Hst) as Hkey.
  cbn in Hkey. injection Hkey as ->.
  pose proof (f_equal (fun l => (fun e => power_consumption (snd e)) <$> head l) Hst)
    as Hpow.
  cbn in Hpow. injection Hpow as Hpow.
  pose proof (f_equal tail Hst) as Htail. cbn [tail] in Htail.
  change (PyDict.keys ((k2, d1) :: devs1)) with (k2 :: PyDict.keys devs1) in Hnd.
  apply NoDup_cons in Hnd as [Hk Hnd].
  rewrite !power_of_on_devices_cons.
  pose proof (Hget k2) as Hk2. cbn [PyDict.get] in Hk2.
  rewrite !decide_True in Hk2 by done. cbn in Hk2. injection Hk2 as Hk2.
  assert (on_power d1 = on_power d2) as ->
    by (unfold on_power; by rewrite Hk2, Hpow).
  f_equal. apply IH; [done | done |].
  intros n. destruct (decide (n = k2)) as [->|Hne].
  - assert (k2 ∉ PyDict.keys devs2) as Hk'
      by (by rewrite <- (keys_of_static devs1 devs2 Htail)).
    apply PyDictFacts.get_None_key in Hk. apply PyDictFacts.get_None_key in Hk'.
    by rewrite Hk, Hk'.
  - specialize (Hget n). cbn [PyDict.get] in Hget.
    by rewrite !decide_False in Hget by done.
Qed.

End ToggleFacts.

(** ** Temperature regulation *)

Section RegulationFacts.
Variable clock : nat → Z.

Lemma get_of_elem {V} (devs : PyDict.t string V) n v :
  NoDup (PyDict.keys devs) → (n, v) ∈ devs → PyDict.get n devs = Some v.
Proof.
  induction devs as [|[k w] devs IH]; [by intros _ ?%elem_of_nil |].
  change (PyDict.keys ((k, w) :: devs)) with (k :: PyDict.keys devs).
  intros [Hk Hnd]%NoDup_cons [Heq|Hin]%elem_of_cons; cbn [PyDict.get].
  - injection Heq as -> ->. by rewrite decide_True.
  - rewrite decide_False; [by apply IH |].
    intros ->. apply Hk. unfold PyDict.keys.
    apply list_elem_of_fmap. by exists (k, v).
Qed.

Lemma names_of_type_elem ty devs n :
  n ∈ names_of_type ty devs ↔ ∃ d, (n, d) ∈ devs ∧ device_type d = ty.
Proof.
  unfold names_of_type. rewrite list_elem_of_fmap. split.
  - intros ([k d] & -> & Hin). apply list_elem_of_In, filter_In in Hin as [Hin Hty].
    exists d. split; [by apply list_elem_of_In | by apply bool_decide_eq_true in Hty].
  - intros (d & Hin & Hty). exists (n, d). split; [done |].
    apply list_elem_of_In, filter_In. split; [by apply list_elem_of_In |].
    by apply bool_decide_eq_true.
Qed.

(** Switching all devices of one type, through the type index. *)
Lemma control_type ty b s :
  types_indexed s → registry_ok s →
  let s' := snd (_control_devices clock (devices_of_type ty s) b s) in
  types_indexed s' ∧ registry_ok s'
  ∧ ∀ n d, PyDict.get n (devices s) = Some d →
      ∃ d', PyDict.get n (devices s') = Some d'
            ∧ device_type d' = device_type d
            ∧ if decide (device_type d = ty) then state d' = b else d' = d.
Proof.
  intros Hidx Hok s'.
  destruct (control_devices_frame clock (devices_of_type ty s) b s) as [Hb _].
  fold s' in Hb.
  assert (devices_by_type s' = devices_by_type s) as Hbt
    by (unfold bystanders in Hb; congruence).
  assert (∀ ty', names_of_type ty' (devices s') = names_of_type ty' (devices s))
    as Hnames by (intros ty'; apply control_devices_names_of_type).
  split; [| split].
  - intros ty'. unfold devices_of_type. rewrite Hbt, Hnames. apply Hidx.
  - unfold registry_ok. subst s'.
    by rewrite (keys_of_static _ _ (control_devices_static clock _ b s)).
  - intros n d Hd. subst s'. clear Hb Hbt Hnames.
    pose proof (control_devices_get clock (devices_of_type ty s) b s n) as Hget.
    rewrite Hd in Hget.
    destruct (decide (device_type d = ty)) as [Hty|Hty].
    + destruct (control_devices_applied clock (devices_of_type ty s) b s n d)
        as (d' & Hd' & Hst); [| done |].
      * rewrite Hidx. apply names_of_type_elem. exists d.
        split; [by apply PyDictFacts.get_Some_elem | done].
      * exists d'. split; [done |]. split; [| done].
        destruct (decide _) as [|]; [destruct Hget as [t Ht] |].
        -- rewrite Ht in Hd'. by injection Hd' as <-.
        -- congruence.
    + exists d. rewrite decide_False in Hget; [done |].
      intros [Hin _]. rewrite Hidx in Hin.
      apply names_of_type_elem in Hin as (d2 & Hin & Hty2).
      apply (get_of_elem _ _ _ Hok) in Hin. congruence.
Qed.

(** Three such calls in a row, on three different types. *)
Lemma control_three_types t1 b1 t2 b2 t3 b3 s :
  t1 ≠ t2 → t1 ≠ t3 → t2 ≠ t3 →
  types_indexed s → registry_ok s →
  let s1 := snd (_control_devices clock (devices_of_type t1 s) b1 s) in
  let s2 := snd (_control_devices clock (devices_of_type t2 s1) b2 s1) in
  let s3 := snd (_control_devices clock (devices_of_type t3 s2) b3 s2) in
  ∀ n d, PyDict.get n (devices s) = Some d →
    ∃ d', PyDict.get n (devices s3) = Some d'
          ∧ if decide (device_type d = t1) then state d' = b1
            else if decide (device_type d = t2) then state d' = b2
            else if decide (device_type d = t3) then state d' = b3
            else d' = d.
Proof.
  intros H12 H13 H23 Hidx Hok s1 s2 s3 n d Hd.
  destruct (control_type t1 b1 s Hidx Hok) as (Hidx1 & Hok1 & Hdev1).
  destruct (control_type t2 b2 s1 Hidx1 Hok1) as (Hidx2 & Hok2 & Hdev2).
  destruct (control_type t3 b3 s2 Hidx2 Hok2) as (_ & _ & Hdev3).
  destruct (Hdev1 n d Hd) as (d1 & Hd1 & Hty1 & Hs1).
  destruct (Hdev2 n d1 Hd1) as (d2 & Hd2 & Hty2 & Hs2).
  destruct (Hdev3 n d2 Hd2) as (d3 & Hd3 & Hty3 & Hs3).
  exists d3. split; [done |].
  rewrite Hty2, Hty1 in Hs3. rewrite Hty1 in Hs2.
  destruct (decide (device_type d = t1)) as [E1|N1].
  - rewrite decide_False in Hs2 by congruence.
    rewrite decide_False in Hs3 by congruence. congruence.
  - destruct (decide (device_type d = t2)) as [E2|N2].
    + rewrite decide_False in Hs3 by congruence. congruence.
    + destruct (decide (device_type d = t3)); congruence.
Qed.

End RegulationFacts.

(** ** More on scenes, shutdown and the refresh loop *)

Section SceneMore.
Variable clock : nat → Z.

(** Either no entry reaches a device, or there is a last one that does. *)
Lemma last_cover lights (entries : list (string * bool)) n :
  Forall (fun e => ¬ covers lights (fst e) n) entries
  ∨ ∃ before key b after,
      entries = (before ++ (key, b) :: after)%list
      ∧ covers lights key n
      ∧ Forall (fun e => ¬ covers lights (fst e) n) after.
Proof.
  induction entries as [|[key b] entries IH]; [by left |].
  destruct IH as [Hnone|(before & k & b0 & after & -> & Hc & Hafter)].
  - destruct (decide (covers lights key n)) as [Hc|Hc].
    + right. by exists [], key, b, entries.
    + left. by apply List.Forall_cons.
  - right. by exists ((key, b) :: before), k, b0, after.
Qed.

Lemma scene_step_scenes s e : scenes (scene_step clock s e) = scenes s.
Proof.
  unfold scene_step. destruct e as [key b].
  destruct (decide (key = "all_lights")).
  - destruct (PyDict.default_get LIGHT (devices_by_type s)) as [lights idx].
    destruct (control_devices_frame clock lights b (with_devices_by_type idx s))
      as [Hb _].
    unfold bystanders in Hb. simpl in Hb. congruence.
  - destruct (PyDict.mem key (devices s)); [| done].
    destruct (control_devices_frame clock [key] b s) as [Hb _].
    unfold bystanders in Hb. congruence.
Qed.

Lemma scene_step_power_drift s e :
  power_drift (scene_step clock s e) = power_drift s.
Proof.
  unfold scene_step. destruct e as [key b].
  destruct (decide (key = "all_lights")).
  - destruct (PyDict.default_get LIGHT (devices_by_type s)) as [lights idx].
    by rewrite control_devices_power_drift.
  - destruct (PyDict.mem key (devices s)); [| done].
    by rewrite control_devices_power_drift.
Qed.

Lemma scene_step_unregistered s e n :
  PyDict.get n (devices s) = None →
  PyDict.get n (devices (scene_step clock s e)) = None.
Proof.
  intros Hn. unfold scene_step. destruct e as [key b].
  assert (∀ names s0, PyDict.get n (devices s0) = None →
            PyDict.get n (devices (snd (_control_devices clock names b s0))) = None)
    as Hctl.
  { intros names s0 H0. pose proof (control_devices_get clock names b s0 n) as H.
    by rewrite H0 in H. }
  destruct (decide (key = "all_lights")).
  - destruct (PyDict.default_get LIGHT (devices_by_type s)) as [lights idx].
    by apply Hctl.
  - destruct (PyDict.mem key (devices s)); [by apply Hctl | done].
Qed.

Lemma run_scene_frame entries s :
  scenes (fold_left (scene_step clock) entries s) = scenes s
  ∧ power_drift (fold_left (scene_step clock) entries s) = power_drift s
  ∧ ∀ n, PyDict.get n (devices s) = None →
         PyDict.get n (devices (fold_left (scene_step clock) entries s)) = None.
Proof.
  revert s. induction entries as [|e entries IH]; intros s; cbn [fold_left]; [done |].
  destruct (IH (scene_step clock s e)) as (H1 & H2 & H3).
  rewrite H1, H2, scene_step_scenes, scene_step_power_drift.
  repeat split. intros n Hn. by apply H3, scene_step_unregistered.
Qed.

(** The on/off state a scene leaves a device in does not depend on the
    state the device had before. *)
Lemma run_scene_states entries s1 s2 n :
  lights_indexed s1 → lights_indexed s2 →
  names_of_type LIGHT (devices s1) = names_of_type LIGHT (devices s2) →
  PyDict.get n (devices s2) = PyDict.get n (devices (fold_left (scene_step clock) entries s1)) →
  state <$> PyDict.get n (devices (fold_left (scene_step clock) entries s2))
  = state <$> PyDict.get n (devices (fold_left (scene_step clock) entries s1)).
Proof.
  intros Hidx1 Hidx2 Hlights Hsame.
  destruct (PyDict.get n (devices s1)) as [d1|] eqn:Hd1.
  - destruct (last_cover (names_of_type LIGHT (devices s1)) entries n)
      as [Hnone|(before & key & b & after & -> & Hc & Hafter)].
    + rewrite (run_scene_other clock entries s1 n Hidx1 Hnone) in Hsame |- *.
      rewrite (run_scene_other clock entries s2 n Hidx2); [by rewrite Hsame |].
      by rewrite <- Hlights.
    + destruct (run_scene_last clock before key b after s1 n d1 Hidx1 Hd1 Hc Hafter)
        as (d' & Hd' & Hst).
      rewrite Hd' in Hsame |- *.
      destruct (run_scene_last clock before key b after s2 n d' Hidx2 Hsame)
        as (d'' & Hd'' & Hst'); [by rewrite <- Hlights | by rewrite <- Hlights |].
      rewrite Hd''. simpl. congruence.
  - destruct (run_scene_frame entries s1) as (_ & _ & Hnone).
    rewrite (Hnone n Hd1) in Hsame |- *.
    destruct (run_scene_frame entries s2) as (_ & _ & Hnone2).
    by rewrite (Hnone2 n Hsame).
Qed.

Lemma get_map_values {V} (f : V → V) (devs : PyDict.t string V) n :
  PyDict.get n (map (fun e => (fst e, f (snd e))) devs) = f <$> PyDict.get n devs.
Proof.
  induction devs as [|[k v] devs IH]; simpl; [done |].
  by destruct (decide (n = k)).
Qed.

Lemma power_of_all_off (devs : PyDict.t string Device) :
  power_of_on_devices
    (map (fun e => (fst e, if state (snd e) then Device_off (snd e) else snd e)) devs)
  = 0.
Proof.
  induction devs as [|[k d] devs IH]; [done |].
  cbn [map fst snd]. rewrite power_of_on_devices_cons, IH.
  unfold on_power. by destruct (state d) eqn:E; simpl; rewrite ?E.
Qed.

End SceneMore.

(** ** More on the response cache *)

Section CacheMore.
Variable clock : nat → Z.
Variable json_loads : string → loads_result.
Variable lower : string → string.
Variable strip : string → string.

Lemma keys_cons {V} (k : string) (v : V) (d : PyDict.t string V) :
  PyDict.keys ((k, v) :: d) = k :: PyDict.keys d.
Proof. done. Qed.

(** Deleting the first [n] keys of a dictionary, oldest first, leaves the
    dictionary without its first [n] entries. *)
Lemma del_oldest {V} (n : nat) (d : PyDict.t string V) :
  fold_left (fun c k => PyDict.del k c) (take n (PyDict.keys d)) d = drop n d.
Proof.
  revert d. induction n as [|n IH]; intros d; [done |].
  destruct d as [|[k v] d]; [done |].
  cbn [PyDict.keys map fst take fold_left PyDict.del drop].
  rewrite decide_True by done. apply IH.
Qed.

Lemma keys_drop {V} (n : nat) (d : PyDict.t string V) :
  PyDict.keys (drop n d) = drop n (PyDict.keys d).
Proof. unfold PyDict.keys. by rewrite <- fmap_drop. Qed.

Lemma keys_set {V} (k : string) (v : V) (d : PyDict.t string V) :
  PyDict.keys (PyDict.set k v d)
  = if PyDict.mem k d then PyDict.keys d else (PyDict.keys d ++ [k])%list.
Proof.
  unfold PyDict.mem. induction d as [|[k' v'] d IH]; [done |].
  cbn [PyDict.set PyDict.get]. destruct (decide (k = k')) as [->|Hne]; [done |].
  rewrite !keys_cons, IH. by destruct (PyDict.get k d).
Qed.

Lemma get_drop {V} (n : nat) (d : PyDict.t string V) k v :
  PyDict.get k (drop n d) = Some v → ∃ k', (k', v) ∈ d.
Proof.
  intros H%PyDictFacts.get_Some_elem. exists k.
  apply list_elem_of_lookup in H as [i Hi]. rewrite lookup_drop in Hi.
  by apply list_elem_of_lookup_2 in Hi.
Qed.

(** The cache after [_cache_response]. *)
Lemma cache_response_cache key a s :
  response_cache (_cache_response key a s)
  = PyDict.set key (fresh (dom (heap s))) (after_eviction (response_cache s))
  ∧ heap (_cache_response key a s)
    = <[fresh (dom (heap s)) := heap s !!! a]> (heap s)
  ∧ performance_stats (_cache_response key a s) = performance_stats s
  ∧ devices (_cache_response key a s) = devices s
  ∧ devices_by_room (_cache_response key a s) = devices_by_room s
  ∧ devices_by_type (_cache_response key a s) = devices_by_type s.
Proof.
  unfold _cache_response, heap_alloc, after_eviction. cbn. by rewrite del_oldest.
Qed.

Lemma cache_response_ok key a s :
  cache_ok s → is_Some (heap s !! a) → cache_ok (_cache_response key a s).
Proof.
  intros (Hclosed & Hnd & Hlen) Ha.
  destruct (cache_response_cache key a s) as (Hc & Hh & _).
  set (l := fresh (dom (heap s))) in *.
  assert (heap s !! l = None) as Hfresh by apply not_elem_of_dom, is_fresh.
  set (c1 := after_eviction (response_cache s)) in *.
  assert (NoDup (PyDict.keys c1) ∧ (length c1 ≤ 100)%nat
          ∧ ∀ k v, PyDict.get k c1 = Some v → is_Some (heap s !! v))
    as (Hnd1 & Hlen1 & Hcl1).
  { subst c1. unfold after_eviction.
    destruct (100 <? length (response_cache s))%nat eqn:E.
    - split; [| split].
      + rewrite keys_drop. eapply sublist_NoDup; [exact Hnd | apply sublist_drop].
      + rewrite length_drop. lia.
      + intros k v Hk. destruct (get_drop _ _ _ _ Hk) as [k' Hin].
        apply (Hclosed k'). by apply (get_of_elem _ _ _ Hnd).
    - apply Nat.ltb_ge in E. split; [done |]. split; [done |]. apply Hclosed. }
  split; [| split].
  - intros k v. rewrite Hc, Hh, PyDictFacts.get_set.
    destruct (decide (key = k)) as [->|Hne].
    + intros [= <-]. rewrite lookup_insert_eq. by eexists.
    + intros Hk. destruct (Hcl1 k v Hk) as [d Hd].
      rewrite lookup_insert_ne; [by eexists |]. intros <-. congruence.
  - rewrite Hc, keys_set. destruct (PyDict.mem key c1) eqn:Hm; [done |].
    apply NoDup_app. split; [done |]. split; [| apply NoDup_singleton].
    intros k Hk ->%list_elem_of_singleton.
    apply PyDictFacts.get_None_key in Hk; [done |].
    unfold PyDict.mem in Hm. by destruct (PyDict.get key c1).
  - rewrite Hc. transitivity (length (PyDict.keys (PyDict.set key l c1))).
    + unfold PyDict.keys. by rewrite length_map.
    + rewrite keys_set. unfold PyDict.keys.
      destruct (PyDict.mem key c1); rewrite ?length_app, length_map; simpl; lia.
Qed.

(** Allocation and writes to the new object keep the cache closed. *)
Lemma cache_ok_alloc s d k v :
  cache_ok s →
  cache_ok (with_heap (heap_setitem (fst (heap_alloc d (heap s))) k v
                         (snd (heap_alloc d (heap s)))) s).
Proof.
  intros (Hclosed & Hnd & Hlen). unfold heap_alloc. cbn [fst snd].
  rewrite heap_setitem_insert.
  split; [| by split]. intros k0 l Hk. cbn [heap with_heap response_cache] in *.
  destruct (Hclosed k0 l Hk) as [d0 Hd0].
  rewrite lookup_insert_ne; [by eexists |].
  intros <-. assert (heap s !! fresh (dom (heap s)) = None)
    by apply not_elem_of_dom, is_fresh. congruence.
Qed.

Lemma cache_ok_same s s' :
  response_cache s' = response_cache s → heap s' = heap s →
  cache_ok s → cache_ok s'.
Proof.
  unfold cache_ok, cache_closed. intros -> ->. done.
Qed.

End CacheMore.

Section InterpretationMore.
Variable clock : nat → Z.
Variable json_loads : string → loads_result.
Variable lower : string → string.
Variable strip : string → string.

(** [understand_command] on a cache miss, in terms of [after_inference]. *)
Lemma understand_command_miss o user_input s :
  PyDict.get (strip (lower user_input)) (response_cache s) = None →
  understand_command clock json_loads lower strip o user_input s
  = let s5 := after_inference clock o s in
    let action := _parse_llm_response json_loads (reply_text o) in
    if truthy action then
      match action with
      | PDict d =>
          (Ok (fst (heap_alloc d (heap s5))),
           _cache_response (strip (lower user_input))
             (fst (heap_alloc d (heap s5)))
             (with_heap (heap_setitem (fst (heap_alloc d (heap s5))) "raw_input"
                                      (PStr user_input)
                                      (snd (heap_alloc d (heap s5)))) s5))
      | _ => (Raise TypeError, s5)
      end
    else
      match _fast_pattern_match lower user_input true s5 with
      | (Raise e, s6) => (Raise e, s6)
      | (Ok fallback_action, s6) =>
          (Ok (fst (heap_alloc fallback_action (heap s6))),
           with_heap (heap_setitem (fst (heap_alloc fallback_action (heap s6)))
                                   "raw_input" (PStr user_input)
                                   (snd (heap_alloc fallback_action (heap s6)))) s6)
      end.
Proof.
  intros Hkey. unfold understand_command. rewrite Hkey.
  destruct o as [|response n t]; reflexivity.
Qed.

Lemma after_inference_keeps o s :
  response_cache (after_inference clock o s) = response_cache s
  ∧ heap (after_inference clock o s) = heap s
  ∧ devices (after_inference clock o s) = devices s
  ∧ devices_by_room (after_inference clock o s) = devices_by_room s
  ∧ devices_by_type (after_inference clock o s) = devices_by_type s
  ∧ scenes (after_inference clock o s) = scenes s
  ∧ context (after_inference clock o s) = context s
  ∧ cache_hits (performance_stats (after_inference clock o s))
    = cache_hits (performance_stats s)
  ∧ cache_misses (performance_stats (after_inference clock o s))
    = cache_misses (performance_stats s) + 1.
Proof.
  destruct o as [|response n t]; [done |].
  unfold after_inference, _get_ollama_response, datetime_now.
  by destruct (negb (n =? 0) && negb (t =? 0)).
Qed.

Lemma same_but_indexes_stats s s' :
  same_but_indexes s s' → performance_stats s' = performance_stats s.
Proof. unfold same_but_indexes. intros ->. by destruct s. Qed.

(** Every call keeps the cache a closed dictionary of at most 101
    entries. *)
Lemma understand_command_cache_ok o user_input s :
  cache_ok s → cache_ok (snd
      (understand_command clock json_loads lower strip o user_input s)).
Proof.
  intros Hok.
  destruct (PyDict.get (strip (lower user_input)) (response_cache s))
    as [entry|] eqn:Hkey.
  - unfold understand_command. rewrite Hkey.
    destruct (heap_alloc _ _) as [cached h] eqn:Halloc. cbn [snd].
    pose proof (cache_ok_alloc
                  (with_performance_stats (count_cache_hit (performance_stats s)) s)
                  (heap s !!! entry) "from_cache" (PBool true)) as H.
    cbn [heap with_performance_stats] in H, Halloc. rewrite Halloc in H.
    cbn [fst snd] in H. apply H. by eapply cache_ok_same.
  - rewrite (understand_command_miss o user_input s Hkey). cbv zeta.
    destruct (after_inference_keeps o s) as (Hc & Hh & _).
    assert (cache_ok (after_inference clock o s)) as Hok5
      by (by eapply cache_ok_same).
    destruct (truthy _).
    + destruct (_parse_llm_response json_loads (reply_text o)) as [| | | | | |d];
        try done.
      cbn [snd]. apply cache_response_ok.
      * apply (cache_ok_alloc _ d "raw_input" (PStr user_input) Hok5).
      * cbn [heap with_heap]. unfold heap_alloc. cbn [fst snd].
        rewrite heap_setitem_insert, lookup_insert_eq. by eexists.
    + pose proof (fast_pattern_match_writes lower user_input true (after_inference clock o s))
        as Hw.
      destruct (_fast_pattern_match lower user_input true (after_inference clock o s))
        as [[fallback|e] s6]; cbn [snd] in Hw |- *;
        apply same_but_indexes_keeps in Hw as [Hc6 Hh6].
      * apply (cache_ok_alloc s6 fallback "raw_input" (PStr user_input)).
        by eapply cache_ok_same.
      * by eapply cache_ok_same.
Qed.

(** Every call counts exactly one hit or one miss. *)
Lemma understand_command_counts o user_input s :
  let st := performance_stats s in
  let st' := performance_stats (snd
      (understand_command clock json_loads lower strip o user_input s)) in
  match PyDict.get (strip (lower user_input)) (response_cache s) with
  | Some _ => cache_hits st' = cache_hits st + 1 ∧ cache_misses st' = cache_misses st
  | None => cache_hits st' = cache_hits st ∧ cache_misses st' = cache_misses st + 1
  end.
Proof.
  cbv zeta.
  destruct (PyDict.get (strip (lower user_input)) (response_cache s))
    as [entry|] eqn:Hkey.
  - unfold understand_command. rewrite Hkey.
    by destruct (heap_alloc _ _) as [cached h].
  - rewrite (understand_command_miss o user_input s Hkey). cbv zeta.
    destruct (after_inference_keeps o s) as (_ & _ & _ & _ & _ & _ & _ & Hh & Hm).
    destruct (truthy _).
    + destruct (_parse_llm_response json_loads (reply_text o)) as [| | | | | |d];
        cbn [snd]; try done.
    + pose proof (fast_pattern_match_writes lower user_input true (after_inference clock o s))
        as Hw.
      destruct (_fast_pattern_match lower user_input true (after_inference clock o s))
        as [[fallback|e] s6]; cbn [snd] in Hw |- *;
        apply same_but_indexes_stats in Hw; cbn [performance_stats with_heap];
        by rewrite Hw.
Qed.

End InterpretationMore.

(** ** The reply parser *)

Section ParserFacts.
Import PyStr.

Lemma list_ascii_app (a b : string) :
  list_ascii_of_string (a ++ b)
  = (list_ascii_of_string a ++ list_ascii_of_string b)%list.
Proof.
  induction a as [|c a IH]; [done |].
  rewrite PyStrFacts.app_cons. cbn [list_ascii_of_string]. by rewrite IH.
Qed.

Lemma string_of_list_app (a b : list ascii) :
  string_of_list_ascii (a ++ b)%list
  = string_of_list_ascii a ++ string_of_list_ascii b.
Proof.
  induction a as [|c a IH]; [done |].
  cbn [app string_of_list_ascii]. by rewrite IH, PyStrFacts.app_cons.
Qed.

Lemma reverse_app (a b : string) : reverse (a ++ b) = reverse b ++ reverse a.
Proof.
  unfold reverse. by rewrite list_ascii_app, rev_app_distr, string_of_list_app.
Qed.

Lemma reverse_involutive (a : string) : reverse (reverse a) = a.
Proof.
  unfold reverse.
  by rewrite list_ascii_of_string_of_list_ascii, rev_involutive,
    string_of_list_ascii_of_string.
Qed.

Lemma from_first_none c (s : string) :
  from_first c s = None ↔ c ∉ list_ascii_of_string s.
Proof.
  induction s as [|x s IH]; cbn [from_first list_ascii_of_string].
  - split; [intros _; apply not_elem_of_nil | done].
  - rewrite not_elem_of_cons. destruct (Ascii.eqb x c) eqn:E.
    + apply Ascii.eqb_eq in E as ->. split; [done | by intros [? _]].
    + apply Ascii.eqb_neq in E. rewrite IH. split; [| tauto].
      intros H. split; [congruence | done].
Qed.

Lemma from_first_none_reverse c (s : string) :
  from_first c s = None → from_first c (reverse s) = None.
Proof.
  rewrite !from_first_none. unfold reverse.
  rewrite list_ascii_of_string_of_list_ascii. intros H Hin. apply H.
  apply list_elem_of_In. apply list_elem_of_In, in_rev in Hin. exact Hin.
Qed.

Lemma from_first_skip c (a : string) rest :
  from_first c a = None →
  from_first c (a ++ String c rest) = Some (String c rest).
Proof.
  induction a as [|x a IH]; intros Ha.
  - change ("" ++ String c rest) with (String c rest). cbn [from_first].
    by rewrite Ascii.eqb_refl.
  - rewrite PyStrFacts.app_cons. cbn [from_first] in Ha |- *.
    destruct (Ascii.eqb x c); [done | by apply IH].
Qed.

(** The scan finds the region from the first opening brace to the last
    closing brace. *)
Lemma brace_region_found before middle after :
  from_first "{" before = None →
  from_first "}" after = None →
  brace_region (before ++ "{" ++ middle ++ "}" ++ after)
  = Some ("{" ++ middle ++ "}").
Proof.
  intros Hb Ha. unfold brace_region.
  change ("{" ++ middle ++ "}" ++ after) with (String "{" (middle ++ "}" ++ after)).
  rewrite (from_first_skip _ _ _ Hb).
  change (String "{" (middle ++ "}" ++ after)) with ("{" ++ middle ++ "}" ++ after).
  rewrite !reverse_app.
  change (reverse "}") with (String "}" "").
  rewrite !PyStrFacts.app_assoc.
  change (String "}" "" ++ reverse middle ++ reverse "{")
    with (String "}" (reverse middle ++ reverse "{")).
  rewrite (from_first_skip _ _ _ (from_first_none_reverse _ _ Ha)).
  change (String "}" (reverse middle ++ reverse "{"))
    with (reverse "}" ++ reverse middle ++ reverse "{").
  by rewrite <- !reverse_app, reverse_involutive, PyStrFacts.app_assoc.
Qed.

(** No opening brace, or no closing brace after the first opening one:
    the scan finds nothing. *)
Lemma brace_region_none text :
  from_first "{" text = None → brace_region text = None.
Proof. intros H. unfold brace_region. by rewrite H. Qed.

End ParserFacts.

(** ** More on the fallback matcher *)

Section MatcherMore.
Import PyStr.
Variable lower : string → string.

Lemma index_by_room_fold r devs idx :
  fst (PyDict.default_get r
         (fold_left (fun idx '(n, d) => PyDict.default_append (room d) n idx)
                    devs idx))
  = (fst (PyDict.default_get r idx) ++ names_in_room r devs)%list.
Proof.
  revert idx. induction devs as [|[n d] devs IH]; intros idx.
  - simpl. by rewrite app_nil_r.
  - cbn [fold_left]. rewrite IH, default_append_get.
    unfold names_in_room. cbn [List.filter snd].
    destruct (decide (room d = r)) as [Heq|Hne].
    + rewrite bool_decide_eq_true_2 by done. cbn [map fst].
      by rewrite <- app_assoc.
    + by rewrite bool_decide_eq_false_2 by done.
Qed.

Lemma default_get_fst {K} `{EqDecision K} {A} (k : K) (d : PyDict.t K (list A)) :
  fst (PyDict.default_get k d) = default [] (PyDict.get k d).
Proof. unfold PyDict.default_get. by destruct (PyDict.get k d). Qed.

(** A scene name in the text is found by the scene loop. *)
Lemma scene_loop_some scs text c n :
  n ∈ PyDict.keys scs →
  str_in (replace_underscores n) text = true →
  ∃ i, scene_loop scs text c = Some i.
Proof.
  induction scs as [|[k sc] scs IH]; [by intros ?%elem_of_nil |].
  rewrite keys_cons. cbn [scene_loop].
  intros [->|Hin]%elem_of_cons Hn.
  - rewrite Hn. by eexists.
  - destruct (str_in (replace_underscores k) text); [by eexists | by apply IH].
Qed.

(** A room-based answer switches on exactly when a turn-on keyword occurs
    in the text. *)
Lemma room_loop_polarity rooms text c s i :
  fst (room_loop rooms text c s) = Ok (Some i) →
  intent_of i = Some (if any_in turn_on_keywords text then "turn_on" else "turn_off").
Proof.
  revert s. induction rooms as [|[keyword room] rooms IH]; intros s; simpl; [done |].
  destruct (str_in keyword text); [| apply IH].
  destruct (PyDict.default_get room (devices_by_room s)) as [names idx].
  destruct (str_in "light" text).
  - destruct (light_names _ names) as [[|d ds]|e]; [apply IH | | done].
    by intros [= <-].
  - destruct names as [|d ds]; [apply IH |]. by intros [= <-].
Qed.

Lemma scene_loop_reasoning scs text c i :
  scene_loop scs text c = Some i →
  ∃ n, reasoning_of i = Some ("Activating " ++ n ++ " scene").
Proof.
  induction scs as [|[n sc] scs IH]; simpl; [done |].
  destruct (str_in _ text); [| done]. intros [= <-]. by exists n.
Qed.

Lemma tail_rules_reasoning text :
  reasoning_of (tail_rules text) ∈
    [Some "User feels hot"; Some "User feels cold";
     Some "Status check request"; Some "No pattern matched"].
Proof.
  unfold tail_rules.
  destruct (any_in ["hot"; "warm"; "sweating"] text); [left |].
  destruct (any_in ["cold"; "freezing"; "chilly"] text); [right; left |].
  destruct (any_in ["status"; "what's on"; "check"; "show"] text);
    [do 2 right; left | do 3 right; left].
Qed.

(** Without an "all" keyword, the extracted devices are the registered
    ones that are named in the text. *)
Lemma extract_named text s n :
  any_in ["all"; "everything"; "entire"] text = false →
  snd (_extract_devices_from_text text s) = s
  ∧ (n ∈ fst (_extract_devices_from_text text s)
     ↔ ∃ d, (n, d) ∈ devices s ∧ named_in text n d).
Proof.
  intros Hall. unfold _extract_devices_from_text. rewrite Hall. cbn [fst snd].
  split; [done |]. rewrite list_elem_of_fmap. unfold named_in. split.
  - intros ([k d] & -> & Hin). apply list_elem_of_In, filter_In in Hin as [Hin Hp].
    exists d. split; [by apply list_elem_of_In |].
    cbn [fst snd any_in existsb] in Hp. apply orb_true_iff in Hp as [Hp|Hp];
      [by left | right].
    apply existsb_exists in Hp as (a & Ha & Hs). exists a.
    split; [by apply list_elem_of_In | done].
  - intros (d & Hin & Hnamed). exists (n, d). split; [done |].
    apply list_elem_of_In, filter_In. split; [by apply list_elem_of_In |].
    cbn [fst snd any_in existsb]. apply orb_true_iff.
    destruct Hnamed as [Hn|(a & Ha & Hs)]; [by left | right].
    apply existsb_exists. exists a. split; [by apply list_elem_of_In | done].
Qed.

End MatcherMore.

(** ** The refresh loop *)

Section RefreshFacts.
Variable clock : nat → Z.
Lemma check_rules_configured s :
  check_rules clock automation_rules s
  = if temp_comfort_max (thresholds s) <? temperature (context s)
    then (None,
          with_performance_stats
            (count_automation_trigger
               (performance_stats (snd (_temperature_regulation clock "cool" s))))
            (snd (_temperature_regulation clock "cool" s)))
    else (None, s).
Proof.
  unfold automation_rules, check_rules. unfold eval_condition, run_action.
  change (String.eqb "time" "condition") with false.
  change (String.eqb "condition" "condition") with true.
  change (String.eqb "motion" "condition") with false.
  cbv beta iota.
  by destruct (temp_comfort_max (thresholds s) <? temperature (context s)).
Qed.

Lemma regulation_cool s :
  snd (_temperature_regulation clock "cool" s)
  = let s1 := snd (_control_devices clock (devices_of_type AC s) true s) in
    let s2 := snd (_control_devices clock (devices_of_type FAN s1) true s1) in
    snd (_control_devices clock (devices_of_type HEATER s2) false s2).
Proof. reflexivity. Qed.
End RefreshFacts.

(** * Threads *)

Section ThreadFacts.
Variable clock : nat → Z.
Variable hour_of : Z → Z.
Variable weekday_of : Z → string.

(** A call is its loop followed by the statements after it. *)
Lemma control_devices_phases names b s :
  _control_devices clock names b s
  = control_devices_finish b (fold_left (control_one clock b) names (mkLoop s [] 0))
      (loop_state (fold_left (control_one clock b) names (mkLoop s [] 0))).
Proof. reflexivity. Qed.

(** A thread that is not interrupted runs the call. *)
Lemma run_events_cons ev evs p :
  run_events clock hour_of weekday_of (ev :: evs) p
  = run_events clock hour_of weekday_of evs (run_event clock hour_of weekday_of p ev).
Proof. reflexivity. Qed.

Lemma advance_alone t c s :
  run_events clock hour_of weekday_of
    (repeat (Advance t) (S (length (call_names c)))) (mkThreads s [(t, c)])
  = mkThreads
      (snd (control_devices_finish (call_state c)
              (fold_left (control_one clock (call_state c)) (call_names c)
                 (mkLoop s (call_responses c) (call_power_change c)))
              (loop_state
                 (fold_left (control_one clock (call_state c)) (call_names c)
                    (mkLoop s (call_responses c) (call_power_change c))))))
      [].
Proof.
  destruct c as [names b rs total]. revert s rs total.
  induction names as [|m names IH]; intros s rs total;
    cbn [call_names call_state call_responses call_power_change length].
  - change (repeat (Advance t) 1) with [Advance t].
    rewrite run_events_cons. unfold run_event, advance.
    cbn [calls home PyDict.get call_names call_state call_responses call_power_change].
    rewrite decide_True by done.
    cbn [PyDict.del call_names call_state call_responses call_power_change].
    by rewrite decide_True by done.
  - cbn [call_names call_state call_responses call_power_change] in IH.
    change (repeat (Advance t) (S (S (length names))))
      with (Advance t :: repeat (Advance t) (S (length names))).
    rewrite run_events_cons.
    assert (run_event clock hour_of weekday_of (mkThreads s [(t, mkCall (m :: names) b rs total)])
              (Advance t)
            = mkThreads (loop_state (control_one clock b (mkLoop s rs total) m))
                [(t, mkCall names b
                       (responses (control_one clock b (mkLoop s rs total) m))
                       (total_power_change (control_one clock b (mkLoop s rs total) m)))])
      as ->.
    { unfold run_event, advance.
      cbn [calls home PyDict.get call_names call_state call_responses call_power_change].
      rewrite decide_True by done.
      cbn [PyDict.set call_names call_state call_responses call_power_change].
      by rewrite decide_True by done. }
    rewrite (IH (loop_state (control_one clock b (mkLoop s rs total) m))
                (responses (control_one clock b (mkLoop s rs total) m))
                (total_power_change (control_one clock b (mkLoop s rs total) m))).
    cbn [fold_left]. by destruct (control_one clock b (mkLoop s rs total) m).
Qed.

Lemma call_alone t names b s :
  run_events clock hour_of weekday_of
    (Enter t names b :: repeat (Advance t) (S (length names))) (mkThreads s [])
  = mkThreads (snd (_control_devices clock names b s)) [].
Proof.
  rewrite run_events_cons. unfold run_event.
  cbn [calls home PyDict.mem PyDict.get PyDict.set].
  pose proof (advance_alone t (mkCall names b [] 0) s) as H.
  cbn [call_names call_state call_responses call_power_change] in H.
  by rewrite H.
Qed.












End ThreadFacts.

Section ThreadProperties.
Variable clock : nat → Z.
Variable hour_of : Z → Z.
Variable weekday_of : Z → string.


End ThreadProperties.



(** * Further properties: statements *)

Section ControllerExtras.
Variable clock : nat → Z.

(** X1: a call of [_control_devices] changes the power aggregate by
    exactly the change of the summed ratings of the devices that are on:
    the distance between the two is the same before and after.  An exact
    aggregate stays exact. *)
Theorem control_devices_keeps_power_drift names b s :
  power_drift (snd (_control_devices clock names b s)) = power_drift s.
Proof. apply control_devices_power_drift. Qed.

(** X2: repeating a call changes nothing: the second call reports
    "No devices were changed." and returns the state the first one left. *)
Theorem control_devices_twice names b s :
  _control_devices clock names b (snd (_control_devices clock names b s))
  = ("No devices were changed.", snd (_control_devices clock names b s)).
Proof.
  apply control_devices_quiet.
  rewrite (run_loop_noop clock b names); [done |].
  apply control_devices_settles.
Qed.

(** X3: [_control_devices] leaves alone everything but the named devices'
    state and timestamp, the power aggregate, the actuator trace and the
    clock: no device is added, removed, renamed or re-rated, devices
    outside the batch are untouched, and what the fallback matcher reads is
    unchanged. *)
Theorem control_devices_leaves_configuration names b s :
  let s' := snd (_control_devices clock names b s) in
  static_registry (devices s') = static_registry (devices s)
  ∧ matcher_view s' = matcher_view s
  ∧ controller_frame s s'
  ∧ ∀ n, n ∉ names → PyDict.get n (devices s') = PyDict.get n (devices s).
Proof.
  intros s'. subst s'.
  pose proof (control_devices_static clock names b s) as Hst.
  pose proof (control_devices_frame clock names b s) as Hfr.
  split; [done |]. split; [| split; [done |]].
  - destruct Hfr as [Hb _]. unfold bystanders in Hb. unfold matcher_view.
    rewrite Hst. congruence.
  - intros n Hn. by apply control_devices_other.
Qed.

(** X4: the actuator trace only grows; in simulation mode it does not
    change; every write added carries the requested level and the pin of a
    registered device named in the batch. *)
Theorem control_devices_actuator_writes names b s :
  ∃ writes,
    gpio_log (snd (_control_devices clock names b s)) = (gpio_log s ++ writes)%list
    ∧ (gpio_simulation_mode s = true → writes = [])
    ∧ Forall (fun w => snd w = b
                       ∧ ∃ n d, n ∈ names ∧ PyDict.get n (devices s) = Some d
                                ∧ pin d = fst w) writes.
Proof.
  destruct (run_loop_gpio clock b names (mkLoop s [] 0)) as (writes & Hlog & Hsim & Hall).
  cbn [loop_state] in Hlog, Hsim, Hall. exists writes. split; [| split; [done |]].
  - rewrite <- Hlog. unfold _control_devices.
    by destruct (responses _).
  - eapply Forall_impl; [exact Hall |]. intros w [Hw (n & d & Hn & Hd & Hp)].
    split; [done |]. rewrite get_static in Hd.
    destruct (PyDict.get n (devices s)) as [d0|] eqn:Hd0; cbn in Hd; [| done].
    exists n, d0. split; [done |]. split; [exact Hd0 |].
    rewrite <- Hp.
    apply (f_equal (fun o => pin <$> o)) in Hd. cbn in Hd. congruence.
Qed.

(** X5: toggling a batch twice, with or without repeated names, returns
    every device to its original on/off state and the power aggregate to
    its original value. *)
Theorem toggle_devices_twice names s :
  registry_ok s →
  let s1 := snd (_toggle_devices clock names s) in
  let s2 := snd (_toggle_devices clock names s1) in
  (∀ n, state <$> PyDict.get n (devices s2) = state <$> PyDict.get n (devices s))
  ∧ power_usage (context s2) = power_usage (context s).
Proof.
  intros Hok s1 s2.
  destruct (toggle_devices_state clock names s) as (Hst1 & Hdr1 & _ & Hfl1).
  destruct (toggle_devices_state clock names s1) as (Hst2 & Hdr2 & _ & Hfl2).
  fold s1 in Hst1, Hdr1, Hfl1. fold s2 in Hst2, Hdr2, Hfl2.
  assert (∀ n, state <$> PyDict.get n (devices s2) = state <$> PyDict.get n (devices s))
    as Hstates.
  { intros n. rewrite Hfl2, Hfl1.
    destruct (PyDict.get n (devices s)) as [d|]; [| done].
    simpl. by rewrite flipped_twice. }
  split; [done |].
  assert (power_of_on_devices (devices s2) = power_of_on_devices (devices s)) as Hsum.
  { apply power_of_on_devices_ext; [| congruence | done].
    unfold registry_ok in Hok.
    by rewrite (keys_of_static (devices s2) (devices s)) by congruence. }
  unfold power_drift in Hdr1, Hdr2. lia.
Qed.

(** X6: one call of [_toggle_devices] flips each registered device once
    for every occurrence of its name in the batch; names that are not
    registered are ignored. *)
Theorem toggle_devices_flips names s n :
  state <$> PyDict.get n (devices (snd (_toggle_devices clock names s)))
  = flipped n names <$> (state <$> PyDict.get n (devices s)).
Proof. by destruct (toggle_devices_state clock names s) as (_ & _ & _ & H). Qed.

(** X7: the two refusals of [_toggle_devices]: an empty batch, and a batch
    without any registered name, are answered with a fixed message and
    change nothing. *)
Theorem toggle_devices_refusals names s :
  Forall (fun n => PyDict.get n (devices s) = None) names →
  _toggle_devices clock names s
  = (match names with
     | [] => "Which device would you like to toggle?"
     | _ :: _ => "Could not find the specified devices."
     end, s).
Proof.
  intros Hall. unfold _toggle_devices. destruct names as [|m names]; [done |].
  assert (∀ l rs, Forall (fun n => PyDict.get n (devices s) = None) l →
                  fold_left (toggle_one clock) l (s, rs) = (s, rs)) as Hfold.
  { induction l as [|x l IH]; intros rs Hl; [done |].
    apply List.Forall_cons_iff in Hl as [Hx Hl].
    cbn [fold_left]. unfold toggle_one at 2. rewrite Hx. by apply IH. }
  by rewrite (Hfold _ [] Hall).
Qed.

(** X8: [_temperature_regulation]: for 'decrease' or 'cool' every device
    of type AC or FAN ends on and every HEATER off; for 'increase' or
    'heat' every HEATER ends on and every FAN and AC off; devices of other
    types, and all devices for any other direction, are left exactly as
    they were.  The power aggregate follows the switches. *)
Theorem temperature_regulation_targets direction s :
  types_indexed s → registry_ok s →
  let s' := snd (_temperature_regulation clock direction s) in
  power_drift s' = power_drift s
  ∧ ∀ n d, PyDict.get n (devices s) = Some d →
      ∃ d', PyDict.get n (devices s') = Some d'
            ∧ match regulation_target direction (device_type d) with
              | Some b => state d' = b
              | None => d' = d
              end.
Proof.
  intros Hidx Hok. unfold _temperature_regulation, regulation_target.
  destruct (String.eqb direction "increase" || String.eqb direction "heat").
  - cbn [snd]. split; [by rewrite !control_devices_power_drift |].
    intros n d Hd.
    destruct (control_three_types clock HEATER true FAN false AC false s
                ltac:(done) ltac:(done) ltac:(done) Hidx Hok n d Hd) as (d' & Hd' & Ht).
    exists d'. split; [done |]. by destruct (device_type d).
  - destruct (String.eqb direction "decrease" || String.eqb direction "cool").
    + cbn [snd]. split; [by rewrite !control_devices_power_drift |].
      intros n d Hd.
      destruct (control_three_types clock AC true FAN true HEATER false s
                  ltac:(done) ltac:(done) ltac:(done) Hidx Hok n d Hd) as (d' & Hd' & Ht).
      exists d'. split; [done |]. by destruct (device_type d).
    + cbn [snd]. split; [done |]. intros n d Hd. by exists d.
Qed.

End ControllerExtras.

Section EngineExtras.
Variable clock : nat → Z.
Variable hour_of : Z → Z.
Variable weekday_of : Z → string.

(** X9: activating a scene a second time right after the first leaves
    every device in the on/off state the first activation gave it. *)
Theorem activate_scene_twice scene_name s n :
  lights_indexed s →
  let s1 := snd (_activate_scene clock scene_name s) in
  let s2 := snd (_activate_scene clock scene_name s1) in
  state <$> PyDict.get n (devices s2) = state <$> PyDict.get n (devices s1).
Proof.
  intros Hidx. unfold _activate_scene.
  destruct (PyDict.get scene_name (scenes s)) as [scene|] eqn:Hscene; cbn [snd].
  - destruct (run_scene_frame clock (scene_devices scene) s) as (Hsc & _ & _).
    rewrite Hsc, Hscene. cbn [snd].
    destruct (run_scene_lights clock (scene_devices scene) s Hidx) as [Hidx1 Hl].
    by apply run_scene_states.
  - by rewrite Hscene.
Qed.

(** X10: a scene keeps the power books: the distance between the power
    aggregate and the summed ratings of the devices that are on is the same
    after [_activate_scene] as before. *)
Theorem activate_scene_keeps_power_drift scene_name s :
  power_drift (snd (_activate_scene clock scene_name s)) = power_drift s.
Proof.
  unfold _activate_scene.
  destruct (PyDict.get scene_name (scenes s)) as [scene|]; cbn [snd]; [| done].
  by destruct (run_scene_frame clock (scene_devices scene) s) as (_ & H & _).
Qed.

(** X11: [cleanup] outside simulation mode turns every device off and
    drives the pin of each device that was on low, in registry order; it
    keeps timestamps and leaves the power aggregate at its old value.  In
    simulation mode it changes nothing. *)
Theorem cleanup_switches_off s :
  (gpio_simulation_mode s = true → cleanup s = s)
  ∧ (gpio_simulation_mode s = false →
     (∀ n d, PyDict.get n (devices s) = Some d →
             PyDict.get n (devices (cleanup s))
             = Some (if state d then Device_off d else d))
     ∧ power_of_on_devices (devices (cleanup s)) = 0
     ∧ context (cleanup s) = context s
     ∧ gpio_log (cleanup s)
       = (gpio_log s
          ++ map (fun d => (pin d, false))
                 (List.filter state (PyDict.values (devices s))))%list).
Proof.
  unfold cleanup. split; intros ->; [done |].
  cbn [devices context gpio_log with_devices with_gpio_log].
  split; [| split; [apply power_of_all_off | done]].
  intros n d Hd.
  rewrite (get_map_values (fun d => if state d then Device_off d else d)).
  by rewrite Hd.
Qed.

(** X12: one iteration of the refresh loop ends without an error and with
    an exact power aggregate, also when the temperature rule fires; the
    trigger counter goes up by one exactly when the temperature is above
    the comfort maximum. *)
Theorem context_update_reconciles s :
  let s' := snd (context_update clock hour_of weekday_of s) in
  fst (context_update clock hour_of weekday_of s) = None
  ∧ power_drift s' = 0
  ∧ automation_triggers (performance_stats s')
    = automation_triggers (performance_stats s)
      + (if temp_comfort_max (thresholds s) <? temperature (context s) then 1 else 0).
Proof.
  unfold context_update, datetime_now. rewrite check_rules_configured.
  set (s5 := with_context _ _).
  assert (power_drift s5 = 0) as Hd5.
  { unfold power_drift. subst s5. cbn. lia. }
  assert (temperature (context s5) = temperature (context s)
          ∧ thresholds s5 = thresholds s
          ∧ performance_stats s5 = performance_stats s) as (Ht & Hth & Hst)
    by (subst s5; by destruct s).
  rewrite Ht, Hth. clearbody s5.
  destruct (temp_comfort_max (thresholds s) <? temperature (context s));
    cbn [fst snd]; (split; [done |]); [| split; [done | rewrite Hst; lia]].
  rewrite regulation_cool. cbv zeta.
  pose proof (control_devices_power_drift clock (devices_of_type AC s5) true s5) as H1.
  destruct (control_devices_frame clock (devices_of_type AC s5) true s5) as [B1 _].
  set (s6 := snd (_control_devices clock (devices_of_type AC s5) true s5)) in *.
  pose proof (control_devices_power_drift clock (devices_of_type FAN s6) true s6) as H2.
  destruct (control_devices_frame clock (devices_of_type FAN s6) true s6) as [B2 _].
  set (s7 := snd (_control_devices clock (devices_of_type FAN s6) true s6)) in *.
  pose proof (control_devices_power_drift clock (devices_of_type HEATER s7) false s7) as H3.
  destruct (control_devices_frame clock (devices_of_type HEATER s7) false s7) as [B3 _].
  set (s8 := snd (_control_devices clock (devices_of_type HEATER s7) false s7)) in *.
  split.
  - unfold power_drift in *. cbn [context devices with_performance_stats]. lia.
  - cbn [performance_stats with_performance_stats automation_triggers
         count_automation_trigger].
    unfold bystanders in B1, B2, B3.
    replace (performance_stats s8) with (performance_stats s) by congruence.
    lia.
Qed.

(** X13: when the temperature is above the comfort maximum, an iteration
    of the refresh loop leaves every AC and FAN on and every HEATER off,
    and no other device changed. *)
Theorem context_update_cools s :
  types_indexed s → registry_ok s →
  temp_comfort_max (thresholds s) < temperature (context s) →
  ∀ n d, PyDict.get n (devices s) = Some d →
    ∃ d', PyDict.get n (devices (snd (context_update clock hour_of weekday_of s)))
          = Some d'
          ∧ match regulation_target "cool" (device_type d) with
            | Some b => state d' = b
            | None => d' = d
            end.
Proof.
  intros Hidx Hok Hhot n d Hd.
  unfold context_update, datetime_now. rewrite check_rules_configured.
  set (s5 := with_context _ _).
  assert (temperature (context s5) = temperature (context s)
          ∧ thresholds s5 = thresholds s
          ∧ devices s5 = devices s
          ∧ devices_by_type s5 = devices_by_type s) as (Ht & Hth & Hdev & Hbt)
    by (subst s5; by destruct s).
  rewrite Ht, Hth. clearbody s5.
  apply Z.ltb_lt in Hhot. rewrite Hhot. cbn [snd devices with_performance_stats].
  assert (types_indexed s5) as Hidx5.
  { intros ty. unfold devices_of_type. rewrite Hbt, Hdev. apply Hidx. }
  assert (registry_ok s5) as Hok5 by (unfold registry_ok; by rewrite Hdev).
  rewrite <- Hdev in Hd.
  rewrite regulation_cool.
  destruct (control_three_types clock AC true FAN true HEATER false s5
              ltac:(done) ltac:(done) ltac:(done) Hidx5 Hok5 n d Hd) as (d' & Hd' & Ht').
  exists d'. split; [done |]. by destruct (device_type d).
Qed.

End EngineExtras.

(** X14: the two index-building loops of [_init_devices]: for any device
    table, the type index lists under each type exactly the names of that
    type and the room index under each room exactly the names in that room,
    both in table order. *)
Theorem init_indexes_exact devs :
  (∀ ty, default [] (PyDict.get ty (index_by_type devs)) = names_of_type ty devs)
  ∧ (∀ r, default [] (PyDict.get r (index_by_room devs)) = names_in_room r devs).
Proof.
  split.
  - intros ty. rewrite <- default_get_fst. apply index_by_type_exact.
  - intros r. rewrite <- default_get_fst. unfold index_by_room.
    by rewrite index_by_room_fold.
Qed.

(** X15: what start-up establishes, for any clock reading, calendar
    strings and mode: the indexes agree with the registry, the registry
    and the cache are proper dictionaries, the matcher finds every entry it
    looks up, and the power aggregate is exact. *)
Theorem initial_state_invariants simulation tod dow season now :
  let s := initial_state simulation tod dow season now in
  types_indexed s ∧ lights_indexed s ∧ registry_ok s ∧ cache_ok s
  ∧ matcher_ready s = true ∧ power_drift s = 0.
Proof.
  cbv zeta. split; [| split; [| split; [| split; [| split]]]].
  - intros ty. unfold devices_of_type. cbn [initial_state devices_by_type devices].
    rewrite <- default_get_fst. apply index_by_type_exact.
  - unfold lights_indexed. cbn [initial_state devices_by_type devices].
    apply index_by_type_exact.
  - unfold registry_ok. by apply (bool_decide_unpack _).
  - split; [done |]. split; [apply NoDup_nil_2 | cbn; lia].
  - by vm_compute.
  - by vm_compute.
Qed.

Section MatcherExtras.
Import PyStr.
Variable lower : string → string.

(** X16: on any configuration, also one whose indexes lack entries, the
    only thing [_fast_pattern_match] can write is an index entry (the
    default of a [defaultdict] lookup): devices, context, thresholds,
    scenes, cache, heap, counters, actuator trace and clock come back as
    they went in. *)
Theorem fast_pattern_match_only_writes_indexes user_input is_fallback s :
  same_but_indexes s (snd (_fast_pattern_match lower user_input is_fallback s)).
Proof. apply fast_pattern_match_writes. Qed.

(** X17: scene names come first: if the spaced name of a registered scene
    occurs in the lower-cased text, the answer is 'activate_scene', whatever
    else the text says, and nothing is written. *)
Theorem fast_pattern_match_scene_first user_input is_fallback s scene_name :
  scene_name ∈ PyDict.keys (scenes s) →
  str_in (replace_underscores scene_name) (lower user_input) = true →
  ∃ i, _fast_pattern_match lower user_input is_fallback s = (Ok i, s)
       ∧ intent_of i = Some "activate_scene"
       ∧ confidence_of i = Some (base_confidence is_fallback).
Proof.
  intros Hin Hs. unfold _fast_pattern_match.
  destruct (scene_loop_some (scenes s) (lower user_input)
              (if negb is_fallback then 1.0%Q else 0.5%Q) scene_name Hin Hs) as [i Hi].
  rewrite Hi. exists i. split; [done |].
  by apply (scene_loop_shape _ _ _ _ Hi).
Qed.

(** X18: a room-based answer is 'turn_on' when one of the turn-on keywords
    occurs in the lower-cased text and 'turn_off' in every other case: a
    text that only names a room switches the room off, and 'toggle' is
    never the answer. *)
Theorem fast_pattern_match_room_polarity user_input is_fallback s i room :
  fst (_fast_pattern_match lower user_input is_fallback s) = Ok i →
  reasoning_of i = Some ("Room-based command for " ++ room) →
  intent_of i
  = Some (if any_in turn_on_keywords (lower user_input) then "turn_on" else "turn_off").
Proof.
  unfold _fast_pattern_match.
  destruct (scene_loop _ _ _) as [found|] eqn:Hscene.
  { intros [= ->] Hr. destruct (scene_loop_reasoning _ _ _ _ Hscene) as [n Hn].
    rewrite Hn in Hr. discriminate Hr. }
  destruct (pattern_loop _ _ _ s) as [[found|] s1] eqn:Hpat.
  { intros [= ->] Hr.
    destruct (pattern_loop_shape patterns (lower user_input)
                (if negb is_fallback then 1.0%Q else 0.5%Q) s i) as (k & _ & _ & Hk & _);
      [by rewrite Hpat |].
    rewrite Hk in Hr. discriminate Hr. }
  destruct (room_loop _ _ _ s1) as [[[found|]|e] s2] eqn:Hroom.
  - intros [= ->] _.
    apply (room_loop_polarity room_keywords (lower user_input)
             (if negb is_fallback then 1.0%Q else 0.5%Q) s1).
    by rewrite Hroom.
  - intros [= <-] Hr. pose proof (tail_rules_reasoning (lower user_input)) as Ht.
    rewrite Hr in Ht.
    repeat (apply elem_of_cons in Ht as [Ht|Ht]; [discriminate Ht |]).
    by apply elem_of_nil in Ht.
  - done.
Qed.

(** X19: without "all", "everything" or "entire" in the text,
    [_extract_devices_from_text] returns the registered devices that are
    named in it (spaced name or an alias as a substring), and writes
    nothing. *)
Theorem extract_devices_named text s n :
  any_in ["all"; "everything"; "entire"] text = false →
  snd (_extract_devices_from_text text s) = s
  ∧ (n ∈ fst (_extract_devices_from_text text s)
     ↔ ∃ d, (n, d) ∈ devices s ∧ named_in text n d).
Proof. apply extract_named. Qed.

End MatcherExtras.

Section CacheExtras.
Variable clock : nat → Z.
Variable json_loads : string → loads_result.
Variable lower : string → string.
Variable strip : string → string.

(** X20: whatever the language model does, [understand_command] keeps
    the cache a dictionary of at most 101 entries whose entries all refer
    to existing objects. *)
Theorem understand_command_keeps_cache_ok o user_input s :
  cache_ok s →
  cache_ok (snd (understand_command clock json_loads lower strip o user_input s)).
Proof. apply understand_command_cache_ok. Qed.

(** X21: [_cache_response] with a new key: when the cache holds more than
    100 entries the 20 oldest go and the new key is appended, otherwise the
    key is just appended; every entry that stays keeps its object. *)
Theorem cache_response_evicts_oldest key a s :
  NoDup (PyDict.keys (response_cache s)) →
  key ∉ PyDict.keys (response_cache s) →
  let cache' := response_cache (_cache_response key a s) in
  PyDict.keys cache'
  = ((if (100 <? length (response_cache s))%nat
      then drop 20 (PyDict.keys (response_cache s))
      else PyDict.keys (response_cache s)) ++ [key])%list
  ∧ ∀ k l, k ≠ key → PyDict.get k cache' = Some l →
           PyDict.get k (response_cache s) = Some l.
Proof.
  intros Hnd Hkey. cbv zeta.
  destruct (cache_response_cache key a s) as (-> & _).
  assert (key ∉ PyDict.keys (after_eviction (response_cache s))) as Hkey'.
  { unfold after_eviction. destruct (100 <? length (response_cache s))%nat; [| done].
    rewrite keys_drop. intros Hin. apply Hkey.
    eapply elem_of_sublist; [exact Hin | apply sublist_drop]. }
  split.
  - rewrite keys_set. apply PyDictFacts.get_None_key in Hkey'.
    unfold PyDict.mem. rewrite Hkey'. unfold after_eviction.
    destruct (100 <? length (response_cache s))%nat; [by rewrite keys_drop | done].
  - intros k l Hk. rewrite PyDictFacts.get_set_ne by done.
    unfold after_eviction. destruct (100 <? length (response_cache s))%nat; [| done].
    intros Hget. apply PyDictFacts.get_Some_elem in Hget.
    apply (get_of_elem _ _ _ Hnd).
    eapply elem_of_sublist; [exact Hget | apply sublist_drop].
Qed.

(** X22: fallback answers are not cached.  On a cache miss, when the
    language model gives nothing usable (no reply, or a reply that parses
    to nothing or to an empty value), the answer is the fallback matcher's
    intent for the text with [raw_input] added, in a new object, and the
    cache is exactly as before. *)
Theorem understand_command_fallback_not_cached o user_input s :
  matcher_ready s = true →
  PyDict.get (strip (lower user_input)) (response_cache s) = None →
  truthy (_parse_llm_response json_loads (reply_text o)) = false →
  ∃ i a s1,
    fst (_fast_pattern_match lower user_input true s) = Ok i
    ∧ understand_command clock json_loads lower strip o user_input s = (Ok a, s1)
    ∧ heap s !! a = None
    ∧ heap s1 = <[a := PyDict.set "raw_input" (PStr user_input) i]> (heap s)
    ∧ response_cache s1 = response_cache s.
Proof.
  intros Hready Hkey Hfalsy.
  rewrite (understand_command_miss clock json_loads lower strip o user_input s Hkey).
  cbv zeta. rewrite Hfalsy.
  destruct (after_inference_keeps clock o s) as (Hc & Hh & Hd & Hr & Ht & Hsc & _).
  assert (matcher_view (after_inference clock o s) = matcher_view s) as Hview
    by (unfold matcher_view; congruence).
  assert (matcher_ready (after_inference clock o s) = true) as Hready5
    by (unfold matcher_ready, rooms_ready in *; by rewrite Ht, Hr, Hd).
  destruct (fast_pattern_match_frame lower user_input true _ Hready5) as [i Hi].
  pose proof (fast_pattern_match_view lower user_input true _ _ Hview) as Hsame.
  rewrite Hi in Hsame |- *. cbn [fst] in Hsame.
  destruct (heap_alloc_spec i (heap (after_inference clock o s))) as [Hfresh Hheap].
  exists i, (fst (heap_alloc i (heap (after_inference clock o s)))). eexists.
  split; [done |]. split; [done |]. cbn [heap with_heap response_cache].
  rewrite Hheap, heap_setitem_insert, Hh in *. by repeat split.
Qed.

(** X23: a reply that parses to a non-empty value which is not an object
    (a list, a number, a string, [true]) makes [understand_command] raise
    [TypeError]; the miss is counted and nothing is cached. *)
Theorem understand_command_type_error o user_input s :
  PyDict.get (strip (lower user_input)) (response_cache s) = None →
  truthy (_parse_llm_response json_loads (reply_text o)) = true →
  (∀ d, _parse_llm_response json_loads (reply_text o) ≠ PDict d) →
  let r := understand_command clock json_loads lower strip o user_input s in
  fst r = Raise TypeError
  ∧ response_cache (snd r) = response_cache s
  ∧ heap (snd r) = heap s
  ∧ cache_misses (performance_stats (snd r)) = cache_misses (performance_stats s) + 1.
Proof.
  intros Hkey Htruthy Hnodict.
  rewrite (understand_command_miss clock json_loads lower strip o user_input s Hkey).
  cbv zeta. rewrite Htruthy.
  destruct (after_inference_keeps clock o s) as (Hc & Hh & _ & _ & _ & _ & _ & _ & Hm).
  destruct (_parse_llm_response json_loads (reply_text o)) as [| | | | | |d];
    try done.
  by destruct (Hnodict d).
Qed.

(** X24: every call counts exactly one lookup: a hit when the normalised
    text is in the cache, a miss otherwise, also when the call raises. *)
Theorem understand_command_counts_lookup o user_input s :
  let st := performance_stats s in
  let st' := performance_stats (snd
      (understand_command clock json_loads lower strip o user_input s)) in
  if PyDict.mem (strip (lower user_input)) (response_cache s)
  then cache_hits st' = cache_hits st + 1 ∧ cache_misses st' = cache_misses st
  else cache_hits st' = cache_hits st ∧ cache_misses st' = cache_misses st + 1.
Proof.
  cbv zeta. pose proof
      (understand_command_counts clock json_loads lower strip o user_input s) as H.
  cbv zeta in H. unfold PyDict.mem.
  by destruct (PyDict.get _ (response_cache s)).
Qed.

(** X25: the reply parser.  Nothing, or the empty text, gives [None].  A
    text the JSON parser accepts gives its value.  A text it rejects is
    searched for the region from its first opening to its last closing
    brace: a payload wrapped in brace-free prose is recovered. *)
Theorem parse_llm_response_embedded before middle after v :
  from_first "{" before = None →
  from_first "}" after = None →
  json_loads (before ++ "{" ++ middle ++ "}" ++ after) = JSONDecodeError →
  json_loads ("{" ++ middle ++ "}") = Loaded v →
  _parse_llm_response json_loads (Some (before ++ "{" ++ middle ++ "}" ++ after)) = v
  ∧ _parse_llm_response json_loads None = PNone
  ∧ _parse_llm_response json_loads (Some "") = PNone.
Proof.
  intros Hb Ha Hbad Hgood. split; [| done].
  unfold _parse_llm_response.
  rewrite Hbad, (brace_region_found before middle after Hb Ha), Hgood.
  destruct (String.eqb _ "") eqn:E; [| done].
  apply String.eqb_eq in E. destruct before; discriminate E.
Qed.

End CacheExtras.

(** ** Concrete instances *)

(** X3 at a concrete input: switching the kitchen light leaves the
    bedroom air conditioner alone. *)
Lemma control_devices_leaves_configuration_witness :
  PyDict.get "bedroom_ac"
    (devices (snd (_control_devices example_clock ["kitchen_light"] true example_home)))
  = PyDict.get "bedroom_ac" (devices example_home).
Proof.
  destruct (control_devices_leaves_configuration example_clock ["kitchen_light"] true
              example_home) as (_ & _ & _ & H).
  apply H. by intros ?%list_elem_of_singleton.
Defined.

(** X4 at a concrete input: in simulation mode nothing reaches the
    actuator. *)
Lemma control_devices_actuator_writes_witness :
  gpio_log (snd (_control_devices example_clock ["kitchen_light"] true example_home))
  = gpio_log example_home.
Proof.
  destruct (control_devices_actuator_writes example_clock ["kitchen_light"] true
              example_home) as (writes & Hlog & Hsim & _).
  rewrite Hlog, (Hsim eq_refl). apply app_nil_r.
Defined.

(** X5 at a concrete input: a batch with a repeated and an unknown name. *)
Lemma toggle_devices_twice_witness :
  let names := ["kitchen_light"; "ghost"; "kitchen_light"; "bedroom_ac"] in
  let s1 := snd (_toggle_devices example_clock names example_home) in
  let s2 := snd (_toggle_devices example_clock names s1) in
  power_usage (context s2) = power_usage (context example_home).
Proof.
  intros names s1 s2.
  apply (toggle_devices_twice example_clock names example_home).
  unfold registry_ok. by apply (bool_decide_unpack _).
Defined.

(** X7 at a concrete input: two names nobody registered. *)
Lemma toggle_devices_refusals_witness :
  _toggle_devices example_clock ["ghost"; "phantom"] example_home
  = ("Could not find the specified devices.", example_home).
Proof.
  apply (toggle_devices_refusals example_clock ["ghost"; "phantom"] example_home).
  repeat (apply List.Forall_cons; [by vm_compute |]). apply List.Forall_nil.
Defined.

(** X8 at a concrete input: cooling switches the bedroom air conditioner
    on. *)
Lemma temperature_regulation_targets_witness :
  ∃ d', PyDict.get "bedroom_ac"
          (devices (snd (_temperature_regulation example_clock "cool" example_home)))
        = Some d'
        ∧ state d' = true.
Proof.
  assert (types_indexed example_home) as Hidx by (intros []; by vm_compute).
  assert (registry_ok example_home) as Hok
    by (unfold registry_ok; by apply (bool_decide_unpack _)).
  destruct (temperature_regulation_targets example_clock "cool" example_home Hidx Hok)
    as [_ H].
  destruct (H "bedroom_ac"
              (Device_new "bedroom_ac" 15 AC ["bedroom ac"; "bedroom air conditioner"]
                          "bedroom" 1200 1000) eq_refl) as (d' & Hd' & Hst).
  by exists d'.
Defined.

(** X9 at a concrete input: the 'away' scene, twice, with every device on
    to begin with. *)
Lemma activate_scene_twice_witness :
  let s1 := snd (_activate_scene example_clock "away" all_on) in
  let s2 := snd (_activate_scene example_clock "away" s1) in
  state <$> PyDict.get "garden_light" (devices s2)
  = state <$> PyDict.get "garden_light" (devices s1).
Proof.
  apply (activate_scene_twice example_clock "away" all_on "garden_light").
  by vm_compute.
Defined.

(** X11 at a concrete input: shutting down a home with every device on:
    all off, and the power aggregate still says 3100 W. *)
Lemma cleanup_switches_off_witness :
  power_of_on_devices (devices (cleanup all_on_hardware)) = 0
  ∧ power_usage (context (cleanup all_on_hardware)) = 3100.
Proof.
  destruct (cleanup_switches_off all_on_hardware) as [_ H].
  destruct (H eq_refl) as (_ & Hp & Hc & _).
  split; [exact Hp | rewrite Hc; by vm_compute].
Defined.

(** X13 at a concrete input: on a hot day the refresh loop switches the
    living-room fan on. *)
Lemma context_update_cools_witness :
  ∃ d', PyDict.get "living_room_fan"
          (devices (snd (context_update example_clock example_hour example_weekday
                           hot_home)))
        = Some d'
        ∧ state d' = true.
Proof.
  assert (types_indexed hot_home) as Hidx by (intros []; by vm_compute).
  assert (registry_ok hot_home) as Hok
    by (unfold registry_ok; by apply (bool_decide_unpack _)).
  assert (temp_comfort_max (thresholds hot_home) < temperature (context hot_home))
    as Hhot by (by vm_compute).
  destruct (context_update_cools example_clock example_hour example_weekday hot_home
              Hidx Hok Hhot "living_room_fan"
              (Device_new "living_room_fan" 11 FAN ["living room fan"; "main fan"]
                          "living_room" 75 1000) eq_refl) as (d' & Hd' & Hst).
  by exists d'.
Defined.

(** X17 at a concrete input: "turn off movie night" activates the scene. *)
Lemma fast_pattern_match_scene_first_witness :
  ∃ i, _fast_pattern_match PyStr.lower_ascii "Turn off movie night" false example_home
       = (Ok i, example_home)
       ∧ intent_of i = Some "activate_scene"
       ∧ confidence_of i = Some (base_confidence false).
Proof.
  apply (fast_pattern_match_scene_first PyStr.lower_ascii "Turn off movie night" false example_home
           "movie_night").
  - vm_compute. left.
  - by vm_compute.
Defined.

(** X18 at a concrete input: "kitchen please" switches the kitchen off. *)
Lemma fast_pattern_match_room_polarity_witness :
  intent_of [ ("intent", PStr "turn_off");
              ("devices", PList [PStr "kitchen_light"; PStr "kitchen_exhaust"]);
              ("confidence", PFloat (0.5 - 0.02));
              ("reasoning", PStr "Room-based command for kitchen") ]
  = Some (if PyStr.any_in turn_on_keywords (PyStr.lower_ascii "kitchen please")
          then "turn_on" else "turn_off").
Proof.
  apply (fast_pattern_match_room_polarity PyStr.lower_ascii "kitchen please" true example_home _ "kitchen").
  - by vm_compute.
  - by vm_compute.
Defined.

(** X19 at a concrete input. *)
Lemma extract_devices_named_witness :
  "kitchen_light"
  ∈ fst (_extract_devices_from_text "turn on the kitchen light" example_home).
Proof.
  destruct (extract_devices_named "turn on the kitchen light" example_home
              "kitchen_light" eq_refl) as [_ H].
  apply H.
  exists (Device_new "kitchen_light" 16 LIGHT ["kitchen light"] "kitchen" 80 1000).
  split; [vm_compute; do 5 right; left | left; by vm_compute].
Defined.

(** X20 at a concrete input: a first command on an empty cache. *)
Lemma understand_command_keeps_cache_ok_witness :
  cache_ok (snd (understand_command example_clock example_json
      PyStr.lower_ascii PyStr.strip_ascii
                   (OllamaReply (Some example_reply) 12 3400) "lights on"
                   example_home)).
Proof.
  apply (understand_command_keeps_cache_ok example_clock example_json
      PyStr.lower_ascii PyStr.strip_ascii).
  split; [| split; [apply NoDup_nil_2 | cbn; lia]].
  intros k l Hk. by vm_compute in Hk.
Defined.

(** X21 at a concrete input: a 102nd key evicts the 20 oldest of 101. *)
Lemma cache_response_evicts_oldest_witness :
  PyDict.keys (response_cache (_cache_response "lights on" 0%nat full_cache_home))
  = (drop 20 (PyDict.keys (response_cache full_cache_home)) ++ ["lights on"])%list
  ∧ length (response_cache (_cache_response "lights on" 0%nat full_cache_home)) = 82%nat.
Proof.
  assert (NoDup (PyDict.keys (response_cache full_cache_home))) as Hnd
    by (by apply (bool_decide_unpack _)).
  assert ("lights on" ∉ PyDict.keys (response_cache full_cache_home)) as Hkey
    by (by apply (bool_decide_unpack _)).
  destruct (cache_response_evicts_oldest "lights on" 0%nat full_cache_home Hnd Hkey)
    as [Hkeys _].
  split; [exact Hkeys | by vm_compute].
Defined.

(** X22 at a concrete input: the service is down. *)
Lemma understand_command_fallback_not_cached_witness :
  ∃ i a s1,
    fst (_fast_pattern_match PyStr.lower_ascii "turn on the kitchen light" true example_home) = Ok i
    ∧ understand_command example_clock example_json
        PyStr.lower_ascii PyStr.strip_ascii OllamaError
        "turn on the kitchen light" example_home = (Ok a, s1)
    ∧ heap example_home !! a = None
    ∧ heap s1 = <[a := PyDict.set "raw_input" (PStr "turn on the kitchen light") i]>
                  (heap example_home)
    ∧ response_cache s1 = response_cache example_home.
Proof.
  apply (understand_command_fallback_not_cached example_clock example_json
      PyStr.lower_ascii PyStr.strip_ascii OllamaError
           "turn on the kitchen light" example_home); by vm_compute.
Defined.

(** X23 at a concrete input: the model answers with a JSON list. *)
Lemma understand_command_type_error_witness :
  fst (understand_command example_clock example_json
      PyStr.lower_ascii PyStr.strip_ascii (OllamaReply (Some "[1]") 0 0)
         "lights on" example_home)
  = Raise TypeError.
Proof.
  apply (understand_command_type_error example_clock example_json
      PyStr.lower_ascii PyStr.strip_ascii
           (OllamaReply (Some "[1]") 0 0) "lights on" example_home).
  - by vm_compute.
  - by vm_compute.
  - intros d. by vm_compute.
Defined.

(** X25 at a concrete input: a payload wrapped in prose. *)
Lemma parse_llm_response_embedded_witness :
  _parse_llm_response example_json
    (Some ("Sure! " ++ "{" ++ example_reply_inner ++ "}" ++ " Hope it helps."))
  = PDict [("intent", PStr "turn_on")].
Proof.
  apply (parse_llm_response_embedded example_json "Sure! " example_reply_inner
           " Hope it helps." (PDict [("intent", PStr "turn_on")]));
    by vm_compute.
Defined.
